(** * Signature Injection Engine: coordinate transform and PDF burn-in

    A shallow embedding of [server/utils/coordinateTransform.js] and of the
    PDF signer ([signPDF], [signPDFMultiple], [calculateFitDimensions]).

    Numbers.  A JavaScript number is a binary64 floating-point number.  The
    functions are given twice.  The main development reads a number as an
    exact rational ([Q]): the four operations, the comparisons and
    [Math.max]/[Math.min] are those of [QArith]; rounding is not part of
    this reading, and a division by zero (which yields an infinity or [NaN]
    in JavaScript and never throws) yields [0], so every statement about the
    value of a quotient carries the hypotheses that make the divisor
    positive.  The statements quantified over all inputs are about this
    reading.  Module [Binary64] gives the numeric functions over the
    primitive binary64 numbers, with rounding, infinities and [NaN]; it is
    used to evaluate the functions at concrete inputs.

    Exceptions.  A function that may [throw] returns an [outcome]: either the
    returned value or the message of the thrown [Error]. *)

From Stdlib Require Import QArith Qminmax Qabs Lqa ZArith Lia List String Ascii Bool DecimalString.
From Stdlib Require Floats OrderedTypeEx.
Import ListNotations.

Local Open Scope Q_scope.

(** ** Outcomes of calls that may throw *)

Inductive outcome (A : Type) : Type :=
| Returned (value : A)
| Thrown (message : string).

Arguments Returned {A} value.
Arguments Thrown {A} message.

(** ** Number helpers *)

(** JavaScript [a > b]. *)
Definition Qgtb (a b : Q) : bool :=
  match a ?= b with
  | Gt => true
  | _ => false
  end.

(** JavaScript [a >= b], [a <= b]. *)
Definition Qgeb (a b : Q) : bool := Qle_bool b a.
Definition Qleb (a b : Q) : bool := Qle_bool a b.

(** [Math.max(0, Math.min(1, v))], the clamp written on lines 59-62. *)
Definition clamp01 (v : Q) : Q := Qmax 0 (Qmin 1 v).

(** ** Data of the coordinate transform *)

(** [{ x, y, width, height }] *)
Module Rect.
Record t : Type := mk { x : Q; y : Q; width : Q; height : Q }.
End Rect.

(** [{ width, height }] *)
Module Size.
Record t : Type := mk { width : Q; height : Q }.
End Size.

(** The object returned by [transformFrontendToPDF]:
    [{ ...pdfPoints, normalized }]. *)
Module Transformed.
Record t : Type := mk { x : Q; y : Q; width : Q; height : Q; normalized : Rect.t }.
End Transformed.

Definition A4_WIDTH_POINTS : Q := 595.275591.
Definition A4_HEIGHT_POINTS : Q := 841.889764.

(** ** coordinateTransform.js *)

(** Lines 27-49 of [normalizeFrontendCoordinates]; lines 130-148 of
    [transformPDFToFrontend] repeat them word for word ("same logic as forward
    transform").  The page is fitted into the container: by width when the
    page is the wider of the two, by height otherwise; the result is
    [(scaleFactor, offsetX, offsetY)]. *)
Definition scaleAndOffsets (containerSize pdfPageSize : Size.t) : Q * Q * Q :=
  let containerWidth := Size.width containerSize in
  let containerHeight := Size.height containerSize in
  let pdfWidth := Size.width pdfPageSize in
  let pdfHeight := Size.height pdfPageSize in
  let pdfAspectRatio := pdfWidth / pdfHeight in
  let containerAspectRatio := containerWidth / containerHeight in
  if Qgtb pdfAspectRatio containerAspectRatio then
    let scaleFactor := containerWidth / pdfWidth in
    (scaleFactor, 0, (containerHeight - pdfHeight * scaleFactor) / 2)
  else
    let scaleFactor := containerHeight / pdfHeight in
    (scaleFactor, (containerWidth - pdfWidth * scaleFactor) / 2, 0).

(** Lines 26 and 51-55: the four quotients [normalizedX], [normalizedY],
    [normalizedWidth], [normalizedHeight], before they are clamped. *)
Definition unclampedNormalized
    (frontendCoords : Rect.t) (containerSize pdfPageSize : Size.t) : Rect.t :=
  let frontendX := Rect.x frontendCoords in
  let frontendY := Rect.y frontendCoords in
  let frontendW := Rect.width frontendCoords in
  let frontendH := Rect.height frontendCoords in
  let pdfWidth := Size.width pdfPageSize in
  let pdfHeight := Size.height pdfPageSize in
  let '(scaleFactor, offsetX, offsetY) := scaleAndOffsets containerSize pdfPageSize in
  {| Rect.x := (frontendX - offsetX) / scaleFactor / pdfWidth;
     Rect.y := (frontendY - offsetY) / scaleFactor / pdfHeight;
     Rect.width := frontendW / scaleFactor / pdfWidth;
     Rect.height := frontendH / scaleFactor / pdfHeight |}.

(** Lines 21-64.  [None] stands for an argument that is [null] or
    [undefined]; an object is always truthy. *)
Definition normalizeFrontendCoordinates
    (frontendCoords : option Rect.t) (containerSize pdfPageSize : option Size.t)
  : outcome Rect.t :=
  match frontendCoords, containerSize, pdfPageSize with
  | Some fc, Some cs, Some ps =>
      let n := unclampedNormalized fc cs ps in
      Returned
        {| Rect.x := clamp01 (Rect.x n);
           Rect.y := clamp01 (Rect.y n);
           Rect.width := clamp01 (Rect.width n);
           Rect.height := clamp01 (Rect.height n) |}
  | _, _, _ => Thrown "Missing required parameters for coordinate normalization"
  end.

(** Lines 73-92. *)
Definition normalizedToPDFPoints (normalized : Rect.t) (pdfPageSize : Size.t) : Rect.t :=
  let x := Rect.x normalized in
  let y := Rect.y normalized in
  let width := Rect.width normalized in
  let height := Rect.height normalized in
  let pdfWidth := Size.width pdfPageSize in
  let pdfHeight := Size.height pdfPageSize in
  let pointX := x * pdfWidth in
  let pointWidth := width * pdfWidth in
  let pointHeight := height * pdfHeight in
  let pointY := pdfHeight - ((y + height) * pdfHeight) in
  {| Rect.x := pointX; Rect.y := pointY; Rect.width := pointWidth; Rect.height := pointHeight |}.

(** Lines 102-117.  The exception of [normalizeFrontendCoordinates] is not
    caught; once it has returned, [pdfPageSize] is an object. *)
Definition transformFrontendToPDF
    (frontendCoords : option Rect.t) (containerSize pdfPageSize : option Size.t)
  : outcome Transformed.t :=
  match normalizeFrontendCoordinates frontendCoords containerSize pdfPageSize, pdfPageSize with
  | Returned normalized, Some ps =>
      let pdfPoints := normalizedToPDFPoints normalized ps in
      Returned
        {| Transformed.x := Rect.x pdfPoints;
           Transformed.y := Rect.y pdfPoints;
           Transformed.width := Rect.width pdfPoints;
           Transformed.height := Rect.height pdfPoints;
           Transformed.normalized := normalized |}
  | Returned _, None => Thrown "Cannot destructure property 'width' of 'pdfPageSize'"
  | Thrown message, _ => Thrown message
  end.

(** The [{ x, y, width, height }] part of a transform result, as the callers
    pass it on to [transformPDFToFrontend]. *)
Definition pdfCoordsOf (t : Transformed.t) : Rect.t :=
  {| Rect.x := Transformed.x t;
     Rect.y := Transformed.y t;
     Rect.width := Transformed.width t;
     Rect.height := Transformed.height t |}.

(** Lines 128-162. *)
Definition transformPDFToFrontend
    (pdfCoords : Rect.t) (containerSize pdfPageSize : Size.t) : Rect.t :=
  let pdfX := Rect.x pdfCoords in
  let pdfY := Rect.y pdfCoords in
  let pdfW := Rect.width pdfCoords in
  let pdfH := Rect.height pdfCoords in
  let pdfWidth := Size.width pdfPageSize in
  let pdfHeight := Size.height pdfPageSize in
  let '(scaleFactor, offsetX, offsetY) := scaleAndOffsets containerSize pdfPageSize in
  let normalizedX := pdfX / pdfWidth in
  let normalizedY := pdfHeight - (pdfY + pdfH) in
  let normalizedY_top := normalizedY / pdfHeight in
  {| Rect.x := normalizedX * pdfWidth * scaleFactor + offsetX;
     Rect.y := normalizedY_top * pdfHeight * scaleFactor + offsetY;
     Rect.width := pdfW * scaleFactor;
     Rect.height := pdfH * scaleFactor |}.

(** Lines 169-179. *)
Definition isValidNormalizedCoordinate (normalized : Rect.t) : bool :=
  let x := Rect.x normalized in
  let y := Rect.y normalized in
  let width := Rect.width normalized in
  let height := Rect.height normalized in
  Qgeb x 0 && Qleb x 1 &&
  Qgeb y 0 && Qleb y 1 &&
  Qgtb width 0 && Qleb width 1 &&
  Qgtb height 0 && Qleb height 1 &&
  Qleb (x + width) 1 &&
  Qleb (y + height) 1.

(** Componentwise equality of rectangles as numbers. *)
Definition Rect_eq (a b : Rect.t) : Prop :=
  Rect.x a == Rect.x b /\ Rect.y a == Rect.y b /\
  Rect.width a == Rect.width b /\ Rect.height a == Rect.height b.

(** The forward transform clamps nothing: [Math.max(0, Math.min(1, v))]
    returns [v] for each of the four quotients. *)
Definition clampsNothing (frontendCoords : Rect.t) (containerSize pdfPageSize : Size.t) : Prop :=
  let n := unclampedNormalized frontendCoords containerSize pdfPageSize in
  clamp01 (Rect.x n) == Rect.x n /\
  clamp01 (Rect.y n) == Rect.y n /\
  clamp01 (Rect.width n) == Rect.width n /\
  clamp01 (Rect.height n) == Rect.height n.


Definition A4_PAGE : Size.t := Size.mk A4_WIDTH_POINTS A4_HEIGHT_POINTS.

(** ** The PDF signer: data *)

(** [{ width, height, offsetX, offsetY }], the result of
    [calculateFitDimensions]. *)
Module Fit.
Record t : Type := mk { width : Q; height : Q; offsetX : Q; offsetY : Q }.
End Fit.

(** The value found under [signatureData.pageIndex].  A number is an
    integer page number here; [NaN] is kept apart because it is falsy. *)
Inductive PageIndexValue : Type :=
| PageIndexUndefined
| PageIndexNull
| PageIndexNaN
| PageIndexNumber (n : Z).

(** A plain object of string fields, as [signatureData.metadata] is. *)
Definition Metadata : Type := list (string * string).

(** [signatureData] *)
Module SignatureData.
Record t : Type := mk {
  image : string;
  imageType : option string;
  x : Q;
  y : Q;
  width : Q;
  height : Q;
  pageIndex : PageIndexValue;
  metadata : option Metadata
}.
End SignatureData.

(** [auditLog.imageInfo] *)
Module ImageInfo.
Record t : Type := mk {
  originalWidth : Q;
  originalHeight : Q;
  fitWidth : Q;
  fitHeight : Q;
  offsetX : Q;
  offsetY : Q
}.
End ImageInfo.

(** [auditLog] *)
Module AuditLog.
Record t : Type := mk {
  timestamp : string;
  originalHash : string;
  signedHash : string;
  pageIndex : Z;
  pageSize : Size.t;
  signatureBox : Rect.t;
  imageInfo : ImageInfo.t;
  metadata : Metadata
}.
End AuditLog.

(** The two encodings [signPDF] can embed. *)
Inductive Encoding : Type := PNG | JPEG.

(** The options of [page.drawRectangle]: the box, [borderColor] and
    [borderWidth]. *)
Module RectangleOptions.
Record t : Type := mk { box : Rect.t; borderColor : Q * Q * Q; borderWidth : Q }.
End RectangleOptions.

(** ** The collaborators of the signer

    [pdf-lib], Node's [Buffer] and [crypto] are not code of this repository.
    They are taken as an interface of functions: the document is passed
    explicitly (each mutating call returns the document after the call), a
    call that can reject returns an [outcome]. *)
Class PdfLib : Type := {
  Buffer : Type;
  PDFDocument : Type;
  PDFImage : Type;
  (** [Buffer.from(s, 'base64')] *)
  bufferFromBase64 : string -> Buffer;
  (** [crypto.createHash('sha256').update(b).digest('hex')] *)
  sha256Hex : Buffer -> string;
  (** [PDFDocument.load(b)] *)
  load : Buffer -> outcome PDFDocument;
  (** [pdfDoc.getPageCount()] *)
  getPageCount : PDFDocument -> Z;
  (** [pdfDoc.getPage(i).getSize()] *)
  getSize : PDFDocument -> Z -> Size.t;
  (** [pdfDoc.embedPng(b)], [pdfDoc.embedJpeg(b)] *)
  embedPng : PDFDocument -> Buffer -> outcome (PDFImage * PDFDocument);
  embedJpeg : PDFDocument -> Buffer -> outcome (PDFImage * PDFDocument);
  (** [image.scale(1)] *)
  scale1 : PDFImage -> Size.t;
  (** [pdfDoc.getPage(i).drawImage(image, { x, y, width, height })] *)
  drawImage : PDFDocument -> Z -> PDFImage -> Rect.t -> PDFDocument;
  (** [pdfDoc.getPage(i).drawRectangle(options)] *)
  drawRectangle : PDFDocument -> Z -> RectangleOptions.t -> PDFDocument;
  (** [pdfDoc.save()] *)
  save : PDFDocument -> Buffer
}.

(** What a call can observe of the process around it: the successive
    readings of [new Date().toISOString()], how many of them were taken, and
    the environment variable [DEBUG_SIGNATURE_BOX]. *)
Module World.
Record t : Type := mk {
  wallClock : nat -> string;
  reads : nat;
  DEBUG_SIGNATURE_BOX : option string
}.
End World.

(** [new Date().toISOString()]: the next reading of the clock. *)
Definition newDateISOString (w : World.t) : string * World.t :=
  (World.wallClock w (World.reads w),
   {| World.wallClock := World.wallClock w;
      World.reads := S (World.reads w);
      World.DEBUG_SIGNATURE_BOX := World.DEBUG_SIGNATURE_BOX w |}).

(** ** String helpers *)

Local Open Scope string_scope.

(** [s.includes(sub)] *)
Definition includes (s sub : string) : bool :=
  match index 0 sub s with
  | Some _ => true
  | None => false
  end.

(** [a === b] on an optional string field and a literal. *)
Definition isString (field : option string) (literal : string) : bool :=
  match field with
  | Some s => String.eqb s literal
  | None => false
  end.

(** The decimal text of an integer, as a template literal prints it. *)
Definition string_of_Z (n : Z) : string := NilZero.string_of_int (Z.to_int n).

(** [\w] *)
Definition isWordChar (c : ascii) : bool :=
  let n := nat_of_ascii c in
  ((48 <=? n) && (n <=? 57) || (65 <=? n) && (n <=? 90) ||
   (97 <=? n) && (n <=? 122) || (n =? 95))%nat.

(** [s] without its longest prefix of word characters, and the length of
    that prefix. *)
Fixpoint dropWord (s : string) : nat * string :=
  match s with
  | String c rest =>
      if isWordChar c then let '(n, r) := dropWord rest in (S n, r) else (O, s)
  | EmptyString => (O, s)
  end.

(** No line terminator in [s]: what "any characters up to the end" accepts. *)
Fixpoint noLineBreak (s : string) : bool :=
  match s with
  | String c rest =>
      negb ((nat_of_ascii c =? 10)%nat || (nat_of_ascii c =? 13)%nat) && noLineBreak rest
  | EmptyString => true
  end.

(** [s] without the prefix [p], when it starts with it. *)
Definition stripPrefix (p s : string) : option string :=
  if prefix p s then Some (substring (length p) (length s - length p) s) else None.

(** The second group of the pattern of line 54 on [s]: after the literal
    [data:image/], one or more word characters and the literal [;base64,],
    the rest of the string, which holds no line terminator. *)
Definition dataUriPayload (s : string) : option string :=
  match stripPrefix "data:image/" s with
  | Some afterHead =>
      match dropWord afterHead with
      | (O, _) => None
      | (S _, afterWord) =>
          match stripPrefix ";base64," afterWord with
          | Some payload => if noLineBreak payload then Some payload else None
          | None => None
          end
      end
  | None => None
  end.

Local Close Scope string_scope.

(** ** The PDF signer *)

(** Lines 24-45. *)
Definition calculateFitDimensions (imageWidth imageHeight boxWidth boxHeight : Q) : Fit.t :=
  let imageAspectRatio := imageWidth / imageHeight in
  let boxAspectRatio := boxWidth / boxHeight in
  let '(fitWidth, fitHeight) :=
    if Qgtb imageAspectRatio boxAspectRatio then
      (boxWidth, boxWidth / imageAspectRatio)
    else
      (boxHeight * imageAspectRatio, boxHeight) in
  let offsetX := (boxWidth - fitWidth) / 2 in
  let offsetY := (boxHeight - fitHeight) / 2 in
  {| Fit.width := fitWidth; Fit.height := fitHeight;
     Fit.offsetX := offsetX; Fit.offsetY := offsetY |}.

(** [signatureData.pageIndex || 0] (line 97). *)
Definition pageIndexOrZero (v : PageIndexValue) : Z :=
  match v with
  | PageIndexNumber n => if (n =? 0)%Z then 0%Z else n
  | PageIndexUndefined | PageIndexNull | PageIndexNaN => 0%Z
  end.

(** The message of line 99. *)
Definition invalidPageIndexMessage (pageIndex totalPages : Z) : string :=
  ("Invalid page index: " ++ string_of_Z pageIndex ++
   ". Document has " ++ string_of_Z totalPages ++ " pages.")%string.

(** The results of [signPDF] and of [signPDFMultiple]. *)
Module SignResult.
Record t `{PdfLib} : Type := mk {
  signedPDFBuffer : Buffer;
  originalHash : string;
  signedHash : string;
  auditLog : AuditLog.t
}.
End SignResult.

Module MultiResult.
Record t `{PdfLib} : Type := mk {
  signedPDFBuffer : Buffer;
  originalHash : string;
  signedHash : string;
  auditTrail : list AuditLog.t
}.
End MultiResult.

Section Signer.
Context `{lib : PdfLib}.

(** Lines 52-57. *)
Definition base64ToBuffer (base64String : string) : Buffer :=
  let matches := dataUriPayload base64String in
  let cleanBase64 := match matches with Some group2 => group2 | None => base64String end in
  bufferFromBase64 cleanBase64.

(** Lines 64-66. *)
Definition computeSHA256 (buffer : Buffer) : string := sha256Hex buffer.

(** The [catch] of lines 124-126: a rejection is thrown again under the
    message [Failed to embed signature image: ...]. *)
Definition rethrowEmbedError (o : outcome (PDFImage * PDFDocument))
  : outcome (PDFImage * PDFDocument) :=
  match o with
  | Returned v => Returned v
  | Thrown message => Thrown ("Failed to embed signature image: " ++ message)%string
  end.

(** Lines 108-126 of [signPDF]: the image is embedded under the encoding the
    request names, or as PNG and then as JPEG when it names none.  Beside the
    outcome, the encodings whose embedding was called are listed in the
    order of the calls. *)
Definition embedSignatureImage
    (pdfDoc : PDFDocument) (signatureData : SignatureData.t) (imageBuffer : Buffer)
  : list Encoding * outcome (PDFImage * PDFDocument) :=
  if isString (SignatureData.imageType signatureData) "png"
     || includes (SignatureData.image signatureData) "png" then
    ([PNG], rethrowEmbedError (embedPng pdfDoc imageBuffer))
  else if isString (SignatureData.imageType signatureData) "jpeg"
          || includes (SignatureData.image signatureData) "jpeg" then
    ([JPEG], rethrowEmbedError (embedJpeg pdfDoc imageBuffer))
  else
    match embedPng pdfDoc imageBuffer with
    | Returned v => ([PNG], Returned v)
    | Thrown _ => ([PNG; JPEG], rethrowEmbedError (embedJpeg pdfDoc imageBuffer))
    end.

(** Lines 88-200. *)
Definition signPDF
    (originalPDFBuffer : Buffer) (signatureData : SignatureData.t) (w : World.t)
  : outcome SignResult.t * World.t :=
  let originalHash := computeSHA256 originalPDFBuffer in
  match load originalPDFBuffer with
  | Thrown message => (Thrown message, w)
  | Returned pdfDoc =>
      let totalPages := getPageCount pdfDoc in
      let pageIndex := pageIndexOrZero (SignatureData.pageIndex signatureData) in
      if ((pageIndex <? 0) || (pageIndex >=? totalPages))%Z then
        (Thrown (invalidPageIndexMessage pageIndex totalPages), w)
      else
        let pageSize := getSize pdfDoc pageIndex in
        let pageWidth := Size.width pageSize in
        let pageHeight := Size.height pageSize in
        let imageBuffer := base64ToBuffer (SignatureData.image signatureData) in
        match snd (embedSignatureImage pdfDoc signatureData imageBuffer) with
        | Thrown message => (Thrown message, w)
        | Returned (image, pdfDoc) =>
            let imageDims := scale1 image in
            let imageWidth := Size.width imageDims in
            let imageHeight := Size.height imageDims in
            let fit := calculateFitDimensions imageWidth imageHeight
                         (SignatureData.width signatureData)
                         (SignatureData.height signatureData) in
            let fitWidth := Fit.width fit in
            let fitHeight := Fit.height fit in
            let offsetX := Fit.offsetX fit in
            let offsetY := Fit.offsetY fit in
            let signX := SignatureData.x signatureData + offsetX in
            let signY := SignatureData.y signatureData + offsetY in
            let pdfDoc :=
              drawImage pdfDoc pageIndex image
                {| Rect.x := signX; Rect.y := signY;
                   Rect.width := fitWidth; Rect.height := fitHeight |} in
            let signatureBox :=
              {| Rect.x := SignatureData.x signatureData;
                 Rect.y := SignatureData.y signatureData;
                 Rect.width := SignatureData.width signatureData;
                 Rect.height := SignatureData.height signatureData |} in
            let pdfDoc :=
              if isString (World.DEBUG_SIGNATURE_BOX w) "true" then
                drawRectangle pdfDoc pageIndex
                  {| RectangleOptions.box := signatureBox;
                     RectangleOptions.borderColor := (1, 0, 0);
                     RectangleOptions.borderWidth := 1 |}
              else pdfDoc in
            let signedPDFBuffer := save pdfDoc in
            let signedHash := computeSHA256 signedPDFBuffer in
            let '(timestamp, w) := newDateISOString w in
            let auditLog :=
              {| AuditLog.timestamp := timestamp;
                 AuditLog.originalHash := originalHash;
                 AuditLog.signedHash := signedHash;
                 AuditLog.pageIndex := pageIndex;
                 AuditLog.pageSize := {| Size.width := pageWidth; Size.height := pageHeight |};
                 AuditLog.signatureBox := signatureBox;
                 AuditLog.imageInfo :=
                   {| ImageInfo.originalWidth := imageWidth;
                      ImageInfo.originalHeight := imageHeight;
                      ImageInfo.fitWidth := fitWidth;
                      ImageInfo.fitHeight := fitHeight;
                      ImageInfo.offsetX := offsetX;
                      ImageInfo.offsetY := offsetY |};
                 AuditLog.metadata :=
                   match SignatureData.metadata signatureData with
                   | Some m => m
                   | None => []
                   end |} in
            (Returned
               {| SignResult.signedPDFBuffer := signedPDFBuffer;
                  SignResult.originalHash := originalHash;
                  SignResult.signedHash := signedHash;
                  SignResult.auditLog := auditLog |},
             w)
        end
  end.

(** The [for] loop of lines 215-219, with its two variables
    [currentBuffer] and [auditTrail]; [auditTrail.push] adds at the end. *)
Fixpoint signLoop
    (signatures : list SignatureData.t) (currentBuffer : Buffer)
    (auditTrail : list AuditLog.t) (w : World.t)
  : outcome (Buffer * list AuditLog.t) * World.t :=
  match signatures with
  | [] => (Returned (currentBuffer, auditTrail), w)
  | sig :: rest =>
      match signPDF currentBuffer sig w with
      | (Thrown message, w) => (Thrown message, w)
      | (Returned result, w) =>
          signLoop rest (SignResult.signedPDFBuffer result)
            (auditTrail ++ [SignResult.auditLog result]) w
      end
  end.

(** Lines 209-229. *)
Definition signPDFMultiple
    (originalPDFBuffer : Buffer) (signatures : list SignatureData.t) (w : World.t)
  : outcome MultiResult.t * World.t :=
  let originalHash := computeSHA256 originalPDFBuffer in
  match signLoop signatures originalPDFBuffer [] w with
  | (Thrown message, w) => (Thrown message, w)
  | (Returned (currentBuffer, auditTrail), w) =>
      let finalHash := computeSHA256 currentBuffer in
      (Returned
         {| MultiResult.signedPDFBuffer := currentBuffer;
            MultiResult.originalHash := originalHash;
            MultiResult.signedHash := finalHash;
            MultiResult.auditTrail := auditTrail |},
       w)
  end.

End Signer.

(** ** The numeric functions over binary64

    The same functions with the numbers of JavaScript themselves: IEEE 754
    binary64 with its rounding, infinities and [NaN].  Arithmetic never
    throws, so the functions are total; the three objects are taken as
    present.  These definitions are for evaluation at concrete inputs. *)
Module Binary64.
Import Floats.
Local Open Scope float_scope.
#[local] Set Warnings "-inexact-float".

Module Rect.
Record t : Type := mk { x : float; y : float; width : float; height : float }.
End Rect.

Module Size.
Record t : Type := mk { width : float; height : float }.
End Size.

Module Fit.
Record t : Type := mk { width : float; height : float; offsetX : float; offsetY : float }.
End Fit.

(** [Math.max(a, b)] and [Math.min(a, b)]: [NaN] when an argument is [NaN],
    and [-0] counts as smaller than [+0]. *)
Definition mathMax (a b : float) : float :=
  if is_nan a || is_nan b then nan
  else if a <? b then b
  else if b <? a then a
  else if get_sign a then b else a.

Definition mathMin (a b : float) : float :=
  if is_nan a || is_nan b then nan
  else if a <? b then a
  else if b <? a then b
  else if get_sign a then a else b.

(** JavaScript [a > b], [a >= b]. *)
Definition gtb (a b : float) : bool := b <? a.
Definition geb (a b : float) : bool := b <=? a.

Definition A4_WIDTH_POINTS : float := 595.275591.
Definition A4_HEIGHT_POINTS : float := 841.889764.
Definition A4_PAGE : Size.t := Size.mk A4_WIDTH_POINTS A4_HEIGHT_POINTS.

(** coordinateTransform.js, lines 27-49 and 130-148. *)
Definition scaleAndOffsets (containerSize pdfPageSize : Size.t) : float * float * float :=
  let containerWidth := Size.width containerSize in
  let containerHeight := Size.height containerSize in
  let pdfWidth := Size.width pdfPageSize in
  let pdfHeight := Size.height pdfPageSize in
  let pdfAspectRatio := pdfWidth / pdfHeight in
  let containerAspectRatio := containerWidth / containerHeight in
  if gtb pdfAspectRatio containerAspectRatio then
    let scaleFactor := containerWidth / pdfWidth in
    (scaleFactor, 0, (containerHeight - pdfHeight * scaleFactor) / 2)
  else
    let scaleFactor := containerHeight / pdfHeight in
    (scaleFactor, (containerWidth - pdfWidth * scaleFactor) / 2, 0).

(** coordinateTransform.js, lines 26-63, for three objects that are present. *)
Definition normalizeFrontendCoordinates
    (frontendCoords : Rect.t) (containerSize pdfPageSize : Size.t) : Rect.t :=
  let frontendX := Rect.x frontendCoords in
  let frontendY := Rect.y frontendCoords in
  let frontendW := Rect.width frontendCoords in
  let frontendH := Rect.height frontendCoords in
  let pdfWidth := Size.width pdfPageSize in
  let pdfHeight := Size.height pdfPageSize in
  let '(scaleFactor, offsetX, offsetY) := scaleAndOffsets containerSize pdfPageSize in
  let normalizedX := (frontendX - offsetX) / scaleFactor / pdfWidth in
  let normalizedY := (frontendY - offsetY) / scaleFactor / pdfHeight in
  let normalizedWidth := frontendW / scaleFactor / pdfWidth in
  let normalizedHeight := frontendH / scaleFactor / pdfHeight in
  {| Rect.x := mathMax 0 (mathMin 1 normalizedX);
     Rect.y := mathMax 0 (mathMin 1 normalizedY);
     Rect.width := mathMax 0 (mathMin 1 normalizedWidth);
     Rect.height := mathMax 0 (mathMin 1 normalizedHeight) |}.

(** coordinateTransform.js, lines 73-92. *)
Definition normalizedToPDFPoints (normalized : Rect.t) (pdfPageSize : Size.t) : Rect.t :=
  let x := Rect.x normalized in
  let y := Rect.y normalized in
  let width := Rect.width normalized in
  let height := Rect.height normalized in
  let pdfWidth := Size.width pdfPageSize in
  let pdfHeight := Size.height pdfPageSize in
  let pointX := x * pdfWidth in
  let pointWidth := width * pdfWidth in
  let pointHeight := height * pdfHeight in
  let pointY := pdfHeight - ((y + height) * pdfHeight) in
  {| Rect.x := pointX; Rect.y := pointY; Rect.width := pointWidth; Rect.height := pointHeight |}.

(** coordinateTransform.js, lines 128-162. *)
Definition transformPDFToFrontend
    (pdfCoords : Rect.t) (containerSize pdfPageSize : Size.t) : Rect.t :=
  let pdfX := Rect.x pdfCoords in
  let pdfY := Rect.y pdfCoords in
  let pdfW := Rect.width pdfCoords in
  let pdfH := Rect.height pdfCoords in
  let pdfWidth := Size.width pdfPageSize in
  let pdfHeight := Size.height pdfPageSize in
  let '(scaleFactor, offsetX, offsetY) := scaleAndOffsets containerSize pdfPageSize in
  let normalizedX := pdfX / pdfWidth in
  let normalizedY := pdfHeight - (pdfY + pdfH) in
  let normalizedY_top := normalizedY / pdfHeight in
  {| Rect.x := normalizedX * pdfWidth * scaleFactor + offsetX;
     Rect.y := normalizedY_top * pdfHeight * scaleFactor + offsetY;
     Rect.width := pdfW * scaleFactor;
     Rect.height := pdfH * scaleFactor |}.

(** coordinateTransform.js, lines 169-179. *)
Definition isValidNormalizedCoordinate (normalized : Rect.t) : bool :=
  let x := Rect.x normalized in
  let y := Rect.y normalized in
  let width := Rect.width normalized in
  let height := Rect.height normalized in
  geb x 0 && (x <=? 1) &&
  geb y 0 && (y <=? 1) &&
  gtb width 0 && (width <=? 1) &&
  gtb height 0 && (height <=? 1) &&
  (x + width <=? 1) &&
  (y + height <=? 1).

(** The signer, lines 24-45. *)
Definition calculateFitDimensions (imageWidth imageHeight boxWidth boxHeight : float) : Fit.t :=
  let imageAspectRatio := imageWidth / imageHeight in
  let boxAspectRatio := boxWidth / boxHeight in
  let '(fitWidth, fitHeight) :=
    if gtb imageAspectRatio boxAspectRatio then
      (boxWidth, boxWidth / imageAspectRatio)
    else
      (boxHeight * imageAspectRatio, boxHeight) in
  let offsetX := (boxWidth - fitWidth) / 2 in
  let offsetY := (boxHeight - fitHeight) / 2 in
  {| Fit.width := fitWidth; Fit.height := fitHeight;
     Fit.offsetX := offsetX; Fit.offsetY := offsetY |}.

(** [|a - b| < 1], the tolerance of the round-trip tests. *)
Definition within1 (a b : float) : bool := abs (a - b) <? 1.

End Binary64.

(** ** Notions used to state the properties *)

(** A falsy [pageIndex]: [undefined], [null], [0] or [NaN]. *)
Definition falsyPageIndex (v : PageIndexValue) : Prop :=
  v = PageIndexUndefined \/ v = PageIndexNull \/ v = PageIndexNaN \/ v = PageIndexNumber 0.

(** [s] occurs in [message]. *)
Definition mentions (message s : string) : Prop :=
  exists before after : string, message = (before ++ s ++ after)%string.

Section SignerNotions.
Context `{lib : PdfLib}.


(** The multi-placement operation in the words of its description: the
    placements are applied one after the other, each on the buffer the
    previous one returned; [overlaySteps b ps w b' logs w'] says that doing so
    from buffer [b] in world [w] succeeds at every placement of [ps], ends
    with buffer [b'] in world [w'], and that [logs] are the audit logs of the
    steps, in the order of [ps]. *)
Inductive overlaySteps :
  Buffer -> list SignatureData.t -> World.t ->
  Buffer -> list AuditLog.t -> World.t -> Prop :=
| overlaySteps_done (b : Buffer) (w : World.t) :
    overlaySteps b [] w b [] w
| overlaySteps_next (b : Buffer) (p : SignatureData.t) (ps : list SignatureData.t)
    (w w1 w' : World.t) (r : SignResult.t) (b' : Buffer) (logs : list AuditLog.t) :
    signPDF b p w = (Returned r, w1) ->
    overlaySteps (SignResult.signedPDFBuffer r) ps w1 b' logs w' ->
    overlaySteps b (p :: ps) w b' (SignResult.auditLog r :: logs) w'.

(** Where [signPDF] draws the image [image] for the request
    [signatureData]: the box of the request, shrunk to the fitted size and
    shifted by the centring offsets (lines 134-150). *)
Definition fittedPlacement (signatureData : SignatureData.t) (image : PDFImage) : Rect.t :=
  let fit :=
    calculateFitDimensions (Size.width (scale1 image)) (Size.height (scale1 image))
      (SignatureData.width signatureData) (SignatureData.height signatureData) in
  {| Rect.x := SignatureData.x signatureData + Fit.offsetX fit;
     Rect.y := SignatureData.y signatureData + Fit.offsetY fit;
     Rect.width := Fit.width fit;
     Rect.height := Fit.height fit |}.

(** The image encoding [embed] of the library. *)
Definition embedAs (e : Encoding) : PDFDocument -> Buffer -> outcome (PDFImage * PDFDocument) :=
  match e with
  | PNG => embedPng
  | JPEG => embedJpeg
  end.

(** The request names the encoding [e]: lines 112 and 114. *)
Definition declares (signatureData : SignatureData.t) (e : Encoding) : bool :=
  match e with
  | PNG =>
      isString (SignatureData.imageType signatureData) "png"
      || includes (SignatureData.image signatureData) "png"
  | JPEG =>
      negb (isString (SignatureData.imageType signatureData) "png"
            || includes (SignatureData.image signatureData) "png")
      && (isString (SignatureData.imageType signatureData) "jpeg"
          || includes (SignatureData.image signatureData) "jpeg")
  end.

End SignerNotions.

(** The other one of the two encodings. *)
Definition otherEncoding (e : Encoding) : Encoding :=
  match e with
  | PNG => JPEG
  | JPEG => PNG
  end.

(** ** A small library to run the signer on

    Files are values: a document is its page sizes and what was drawn on
    which page, an image is its encoding and its size.  [load] parses a
    document file only, each [embed] accepts files of its own encoding only,
    and the digest is a checksum. *)
Module Toy.

Inductive drawn : Type :=
| DrawnImage (page : Z) (e : Encoding) (imageSize : Size.t) (at_ : Rect.t)
| DrawnRectangle (page : Z) (options : RectangleOptions.t).

Inductive file : Type :=
| PdfFile (pages : list Size.t) (content : list drawn)
| ImageFile (e : Encoding) (imageSize : Size.t)
| Garbage.

Record document : Type := mkDocument { pages : list Size.t; content : list drawn }.

Record image : Type := mkImage { encoding : Encoding; imageSize : Size.t }.

Definition decode (s : string) : file :=
  if String.eqb s "iVBORw0KGgo=" then ImageFile PNG (Size.mk 256 128)
  else if String.eqb s "/9j/4AAQSkZJRg==" then ImageFile JPEG (Size.mk 256 128)
  else Garbage.

Definition checksum (f : file) : string :=
  match f with
  | PdfFile ps c =>
      ("pdf-" ++ string_of_Z (Z.of_nat (List.length ps)) ++ "-" ++
       string_of_Z (Z.of_nat (List.length c)))%string
  | ImageFile PNG _ => "png"%string
  | ImageFile JPEG _ => "jpeg"%string
  | Garbage => "garbage"%string
  end.

Definition parse (f : file) : outcome document :=
  match f with
  | PdfFile ps c => Returned (mkDocument ps c)
  | _ => Thrown "Failed to parse PDF document"
  end.

Definition embed (e : Encoding) (d : document) (f : file) : outcome (image * document) :=
  match f, e with
  | ImageFile PNG s, PNG => Returned (mkImage PNG s, d)
  | ImageFile JPEG s, JPEG => Returned (mkImage JPEG s, d)
  | _, PNG => Thrown "The input is not a PNG file!"
  | _, JPEG => Thrown "SOI not found in JPEG"
  end.

Definition draw (item : drawn) (d : document) : document :=
  mkDocument (pages d) (content d ++ [item]).

#[export] Instance lib : PdfLib := {|
  Buffer := file;
  PDFDocument := document;
  PDFImage := image;
  bufferFromBase64 := decode;
  sha256Hex := checksum;
  load := parse;
  getPageCount := fun d => Z.of_nat (List.length (pages d));
  getSize := fun d i => nth (Z.to_nat i) (pages d) (Size.mk 0 0);
  embedPng := embed PNG;
  embedJpeg := embed JPEG;
  scale1 := imageSize;
  drawImage := fun d i img r => draw (DrawnImage i (encoding img) (imageSize img) r) d;
  drawRectangle := fun d i o => draw (DrawnRectangle i o) d;
  save := fun d => PdfFile (pages d) (content d)
|}.

(** A one-page A4 document with nothing drawn on it. *)
Definition blankA4 : file := PdfFile [A4_PAGE] [].

(** A world whose clock reads [t0] first and [t1] from then on. *)
Definition world (t0 t1 : string) (debug : option string) : World.t :=
  {| World.wallClock := fun n => match n with O => t0 | S _ => t1 end;
     World.reads := O;
     World.DEBUG_SIGNATURE_BOX := debug |}.

(** A request for the box [(100, 600, 100, 100)] with image text [img]. *)
Definition request (img : string) (type : option string) (page : PageIndexValue)
  : SignatureData.t :=
  {| SignatureData.image := img;
     SignatureData.imageType := type;
     SignatureData.x := 100;
     SignatureData.y := 600;
     SignatureData.width := 100;
     SignatureData.height := 100;
     SignatureData.pageIndex := page;
     SignatureData.metadata := None |}.

End Toy.

(** ** Notions for the properties of the remaining code *)



(** A rectangle in points, origin bottom-left, that lies on the page. *)
Definition onPage (r : Rect.t) (pdfPageSize : Size.t) : Prop :=
  0 <= Rect.x r /\ 0 <= Rect.y r /\ 0 <= Rect.width r /\ 0 <= Rect.height r /\
  Rect.x r + Rect.width r <= Size.width pdfPageSize /\
  Rect.y r + Rect.height r <= Size.height pdfPageSize.

(** The rectangle [inner] lies in the rectangle [outer]. *)
Definition insideRect (inner outer : Rect.t) : Prop :=
  Rect.x outer <= Rect.x inner /\ Rect.y outer <= Rect.y inner /\
  Rect.x inner + Rect.width inner <= Rect.x outer + Rect.width outer /\
  Rect.y inner + Rect.height inner <= Rect.y outer + Rect.height outer.

(** Every character of [s] is a word character. *)
Fixpoint allWordChars (s : string) : bool :=
  match s with
  | String c rest => isWordChar c && allWordChars rest
  | EmptyString => true
  end.

Section SignerOutcomeNotions.
Context `{lib : PdfLib}.

(** The box of the request: [{ x, y, width, height }] of [signatureData]. *)
Definition requestBox (signatureData : SignatureData.t) : Rect.t :=
  {| Rect.x := SignatureData.x signatureData;
     Rect.y := SignatureData.y signatureData;
     Rect.width := SignatureData.width signatureData;
     Rect.height := SignatureData.height signatureData |}.

(** The document after lines 145-162 of [signPDF]: the image drawn on the
    page, then the red box around the request when [DEBUG_SIGNATURE_BOX] is
    [true]. *)
Definition drawnDocument
    (signatureData : SignatureData.t) (w : World.t)
    (embedded : PDFDocument) (image : PDFImage) (pageIndex : Z) : PDFDocument :=
  let withImage :=
    drawImage embedded pageIndex image (fittedPlacement signatureData image) in
  if isString (World.DEBUG_SIGNATURE_BOX w) "true" then
    drawRectangle withImage pageIndex
      {| RectangleOptions.box := requestBox signatureData;
         RectangleOptions.borderColor := (1, 0, 0);
         RectangleOptions.borderWidth := 1 |}
  else withImage.

(** Each audit log starts from the digest the previous one ended with:
    [chained h logs h'] says that the logs lead from digest [h] to digest
    [h']. *)
Fixpoint chained (h : string) (logs : list AuditLog.t) (h' : string) : Prop :=
  match logs with
  | [] => h = h'
  | a :: rest =>
      AuditLog.originalHash a = h /\ chained (AuditLog.signedHash a) rest h'
  end.

End SignerOutcomeNotions.

(** ** The audit store: models/auditSchema.js

    The collection [audit_logs] is the list of its documents in the order of
    their insertion; [insertOne] gives a document the next free [_id] and
    does not fail.  A [Date] is kept as its ISO text and compared as such. *)

(** An element of [verifications]. *)
Module Verification.
Record t : Type := mk {
  verifiedAt : string;
  verifiedBy : string;
  status : string;
  hash : string
}.
End Verification.

(** [auditEntry.signer], [.coordinates] and [.imageMetadata]. *)
Module Signer.
Record t : Type := mk { email : string; name : string; timestamp : string }.
End Signer.

Module StoredCoordinates.
Record t : Type := mk {
  normalized : option Rect.t;
  pdf : option Rect.t;
  container : option Size.t
}.
End StoredCoordinates.

Module ImageMetadata.
Record t : Type := mk {
  originalDimensions : option Size.t;
  fitDimensions : option Size.t;
  mimeType : string
}.
End ImageMetadata.

(** A document of the collection. *)
Module AuditEntry.
Record t : Type := mk {
  _id : nat;
  documentId : option string;
  originalHash : string;
  signedHash : string;
  createdAt : string;
  updatedAt : string;
  pageIndex : Z;
  signatureCount : Z;
  signer : Signer.t;
  coordinates : StoredCoordinates.t;
  imageMetadata : ImageMetadata.t;
  integrityStatus : string;
  verifications : list Verification.t;
  metadata : Metadata
}.
End AuditEntry.

Definition Collection : Type := list AuditEntry.t.

(** The argument [data] of [create]: every field it reads. *)
Module AuditData.
Record t : Type := mk {
  documentId : option string;
  originalHash : string;
  signedHash : string;
  pageIndex : PageIndexValue;
  signatureCount : option Z;
  email : option string;
  signerName : option string;
  normalizedCoords : option Rect.t;
  pdfCoords : option Rect.t;
  containerSize : option Size.t;
  imageDimensions : option Size.t;
  fitDimensions : option Size.t;
  imageType : option string;
  metadata : option Metadata
}.
End AuditData.

(** A string field that is truthy: present and not empty. *)
Definition truthyString (v : option string) : option string :=
  match v with
  | Some s => if String.eqb s "" then None else Some s
  | None => None
  end.

(** [v || fallback] on a string field. *)
Definition stringOr (v : option string) (fallback : string) : string :=
  match truthyString v with
  | Some s => s
  | None => fallback
  end.

(** [create(data)], App.js lines 131-162 (the text of auditSchema.js): the
    entry is built with three readings of the clock, in the order of the
    object literal, and inserted. *)
Definition create (data : AuditData.t) (c : Collection) (w : World.t)
  : AuditEntry.t * Collection * World.t :=
  let '(createdAt, w) := newDateISOString w in
  let '(updatedAt, w) := newDateISOString w in
  let '(timestamp, w) := newDateISOString w in
  let auditEntry :=
    {| AuditEntry._id := List.length c;
       AuditEntry.documentId := truthyString (AuditData.documentId data);
       AuditEntry.originalHash := AuditData.originalHash data;
       AuditEntry.signedHash := AuditData.signedHash data;
       AuditEntry.createdAt := createdAt;
       AuditEntry.updatedAt := updatedAt;
       AuditEntry.pageIndex := pageIndexOrZero (AuditData.pageIndex data);
       AuditEntry.signatureCount :=
         match AuditData.signatureCount data with
         | Some n => if (n =? 0)%Z then 1%Z else n
         | None => 1%Z
         end;
       AuditEntry.signer :=
         {| Signer.email := stringOr (AuditData.email data) "unknown";
            Signer.name := stringOr (AuditData.signerName data) "unknown";
            Signer.timestamp := timestamp |};
       AuditEntry.coordinates :=
         {| StoredCoordinates.normalized := AuditData.normalizedCoords data;
            StoredCoordinates.pdf := AuditData.pdfCoords data;
            StoredCoordinates.container := AuditData.containerSize data |};
       AuditEntry.imageMetadata :=
         {| ImageMetadata.originalDimensions := AuditData.imageDimensions data;
            ImageMetadata.fitDimensions := AuditData.fitDimensions data;
            ImageMetadata.mimeType := stringOr (AuditData.imageType data) "image/png" |};
       AuditEntry.integrityStatus := "valid";
       AuditEntry.verifications := [];
       AuditEntry.metadata :=
         match AuditData.metadata data with
         | Some m => m
         | None => []
         end |} in
  (auditEntry, c ++ [auditEntry], w).

(** [find({ documentId })]: the documents whose [documentId] is the given
    string. *)
Definition hasDocumentId (documentId : string) (e : AuditEntry.t) : bool :=
  match AuditEntry.documentId e with
  | Some d => String.eqb d documentId
  | None => false
  end.

(** [.sort({ createdAt: -1 }).limit(1)]: a document with the latest
    [createdAt].  Which one the store returns among several created at the
    same instant is not fixed by the code; the one inserted first is taken. *)
Fixpoint newest (l : list AuditEntry.t) : option AuditEntry.t :=
  match l with
  | [] => None
  | e :: rest =>
      match newest rest with
      | None => Some e
      | Some later =>
          if String.ltb (AuditEntry.createdAt e) (AuditEntry.createdAt later)
          then Some later else Some e
      end
  end.

(** [updateOne({ _id }, { $push: { verifications: v }, $set: { integrityStatus,
    updatedAt } })]: the first document with that [_id] is updated. *)
Definition checkedEntry
    (v : Verification.t) (integrityStatus updatedAt : string) (e : AuditEntry.t)
  : AuditEntry.t :=
  {| AuditEntry._id := AuditEntry._id e;
     AuditEntry.documentId := AuditEntry.documentId e;
     AuditEntry.originalHash := AuditEntry.originalHash e;
     AuditEntry.signedHash := AuditEntry.signedHash e;
     AuditEntry.createdAt := AuditEntry.createdAt e;
     AuditEntry.updatedAt := updatedAt;
     AuditEntry.pageIndex := AuditEntry.pageIndex e;
     AuditEntry.signatureCount := AuditEntry.signatureCount e;
     AuditEntry.signer := AuditEntry.signer e;
     AuditEntry.coordinates := AuditEntry.coordinates e;
     AuditEntry.imageMetadata := AuditEntry.imageMetadata e;
     AuditEntry.integrityStatus := integrityStatus;
     AuditEntry.verifications := AuditEntry.verifications e ++ [v];
     AuditEntry.metadata := AuditEntry.metadata e |}.

Fixpoint pushVerification
    (id : nat) (v : Verification.t) (integrityStatus updatedAt : string) (c : Collection)
  : Collection :=
  match c with
  | [] => []
  | e :: rest =>
      if Nat.eqb (AuditEntry._id e) id
      then checkedEntry v integrityStatus updatedAt e :: rest
      else e :: pushVerification id v integrityStatus updatedAt rest
  end.

(** What [verifyIntegrity] returns. *)
Module IntegrityResult.
Record t : Type := mk {
  status : string;
  message : string;
  (** [originalHash], [signedHash], [currentHash], [originalCreated] and
      [verifiedAt]; absent from the [not_found] result. *)
  details : option (string * string * string * string * string)
}.
End IntegrityResult.

(** [verifyIntegrity(documentId, currentHash)], App.js lines 171-216. *)
Definition verifyIntegrity (documentId currentHash : string) (c : Collection) (w : World.t)
  : IntegrityResult.t * Collection * World.t :=
  match newest (filter (hasDocumentId documentId) c) with
  | None =>
      ({| IntegrityResult.status := "not_found";
          IntegrityResult.message := "No audit log found for this document";
          IntegrityResult.details := None |}, c, w)
  | Some latestEntry =>
      let isValid := String.eqb (AuditEntry.signedHash latestEntry) currentHash in
      let '(pushedAt, w) := newDateISOString w in
      let '(updatedAt, w) := newDateISOString w in
      let c :=
        pushVerification (AuditEntry._id latestEntry)
          {| Verification.verifiedAt := pushedAt;
             Verification.verifiedBy := "system";
             Verification.status := if isValid then "valid" else "invalid";
             Verification.hash := currentHash |}
          (if isValid then "valid" else "tampered") updatedAt c in
      let '(verifiedAt, w) := newDateISOString w in
      ({| IntegrityResult.status := if isValid then "valid" else "tampered";
          IntegrityResult.message :=
            if isValid then "Document signature is valid"
            else "Document has been tampered with";
          IntegrityResult.details :=
            Some (AuditEntry.originalHash latestEntry, AuditEntry.signedHash latestEntry,
                  currentHash, AuditEntry.createdAt latestEntry, verifiedAt) |}, c, w)
  end.

(** What of an entry was written when the document was signed: every field
    but [updatedAt], [integrityStatus] and [verifications]. *)
Definition signedRecord (e : AuditEntry.t) :=
  (AuditEntry._id e, AuditEntry.documentId e, AuditEntry.originalHash e,
   AuditEntry.signedHash e, AuditEntry.createdAt e, AuditEntry.pageIndex e,
   AuditEntry.signatureCount e, AuditEntry.signer e, AuditEntry.coordinates e,
   AuditEntry.imageMetadata e, AuditEntry.metadata e).

(** Every [_id] of the collection is its position: what [insertOne] keeps. *)
Definition idsArePositions (c : Collection) : Prop :=
  forall (i : nat) (e : AuditEntry.t), nth_error c i = Some e -> AuditEntry._id e = i.

(** ** The routes: routes/signatureRoutes.js

    A request body is the parsed JSON with the fields the handlers read, at
    the types the file documents; [None] is a field that is absent or
    [null].  A response is its status code and its JSON.  Logging is left
    out, except that reading [coordinates.frontend] for the log (line 54)
    throws when [coordinates] is absent. *)

(** [req.body.signature] *)
Module SignatureField.
Record t : Type := mk { image : string; imageType : option string }.
End SignatureField.

(** [req.body.coordinates] *)
Module Coordinates.
Record t : Type := mk {
  frontend : option Rect.t;
  container : option Size.t;
  pageIndex : PageIndexValue
}.
End Coordinates.

(** [req.body.pdfBuffer]: base64 text, or a buffer passed as it is. *)
Inductive PdfPayload `{PdfLib} : Type :=
| Base64Text (text : string)
| RawBuffer (buffer : Buffer).

(** The body of [POST /sign-pdf]. *)
Module SignBody.
Record t `{PdfLib} : Type := mk {
  pdfId : option string;
  pdfBuffer : option PdfPayload;
  signature : option SignatureField.t;
  coordinates : option Coordinates.t;
  pageSize : option Size.t;
  metadata : option Metadata
}.
End SignBody.

(** The body of [POST /verify-pdf]. *)
Module VerifyBody.
Record t `{PdfLib} : Type := mk {
  documentId : option string;
  pdfBuffer : option PdfPayload
}.
End VerifyBody.

(** The response of [POST /sign-pdf]. *)
Module SignResponse.
Inductive t : Type :=
| BadRequest (error : string)
| Failed (error message : string)
| Signed (documentId signedPdf original signed : string) (auditLog : AuditLog.t)
    (message : string).

Definition status (r : t) : Z :=
  match r with
  | BadRequest _ => 400
  | Failed _ _ => 500
  | Signed _ _ _ _ _ _ => 200
  end%Z.
End SignResponse.

(** The response of [POST /verify-pdf]. *)
Module VerifyResponse.
Inductive t : Type :=
| BadRequest (error : string)
| Failed (error : string)
| Verified (result : IntegrityResult.t).

Definition status (r : t) : Z :=
  match r with
  | BadRequest _ => 400
  | Failed _ => 500
  | Verified _ => 200
  end%Z.
End VerifyResponse.

(** [metadata?.email] and the like: the field [name] of an object of string
    fields. *)
Fixpoint field (name : string) (m : Metadata) : option string :=
  match m with
  | [] => None
  | (key, value) :: rest => if String.eqb key name then Some value else field name rest
  end.

Section Routes.
Context `{lib : PdfLib}.

(** [buffer.toString('base64')] *)
Variable bufferToBase64 : Buffer -> string.

(** The message of the [TypeError] the engine throws when line 54 reads
    [frontend] of a [coordinates] that is absent. *)
Variable typeErrorMessage : string.

(** The object [{ ...metadata, coordinateTransform: { frontend, normalized,
    pdf } }] of lines 102-114.  [Metadata] holds string fields, so how the
    nested object is written down is left to this function. *)
Variable withCoordinateTransform : Metadata -> option Rect.t -> Rect.t -> Rect.t -> Metadata.

(** A [pdfBuffer] that is truthy: present, and not the empty string. *)
Definition truthyPayload (v : option PdfPayload) : option PdfPayload :=
  match v with
  | Some (Base64Text text) => if String.eqb text "" then None else v
  | Some (RawBuffer _) => v
  | None => None
  end.

(** Lines 66-73 and 182-188. *)
Definition decodePdfBuffer (pdfBuffer : PdfPayload) : Buffer :=
  match pdfBuffer with
  | Base64Text text => bufferFromBase64 text
  | RawBuffer buffer => buffer
  end.

(** The [signatureData] of lines 94-115. *)
Definition routeSignatureData
    (signature : SignatureField.t) (coordinates : Coordinates.t) (metadata : option Metadata)
    (pdfCoordinates : Transformed.t) : SignatureData.t :=
  {| SignatureData.image := SignatureField.image signature;
     SignatureData.imageType := Some (stringOr (SignatureField.imageType signature) "png");
     SignatureData.x := Transformed.x pdfCoordinates;
     SignatureData.y := Transformed.y pdfCoordinates;
     SignatureData.width := Transformed.width pdfCoordinates;
     SignatureData.height := Transformed.height pdfCoordinates;
     SignatureData.pageIndex :=
       PageIndexNumber (pageIndexOrZero (Coordinates.pageIndex coordinates));
     SignatureData.metadata :=
       Some (withCoordinateTransform
               (match metadata with Some m => m | None => [] end)
               (Coordinates.frontend coordinates)
               (Transformed.normalized pdfCoordinates)
               (pdfCoordsOf pdfCoordinates)) |}.

(** The [data] given to [create] on lines 124-140. *)
Definition routeAuditData
    (pdfId : string) (signResult : SignResult.t) (signatureData : SignatureData.t)
    (coordinates : Coordinates.t) (metadata : option Metadata)
    (pdfCoordinates : Transformed.t) : AuditData.t :=
  {| AuditData.documentId := Some pdfId;
     AuditData.originalHash := SignResult.originalHash signResult;
     AuditData.signedHash := SignResult.signedHash signResult;
     AuditData.pageIndex := SignatureData.pageIndex signatureData;
     AuditData.signatureCount := None;
     AuditData.email :=
       Some (stringOr (match metadata with Some m => field "email" m | None => None end)
               "unknown");
     AuditData.signerName :=
       Some (stringOr (match metadata with Some m => field "name" m | None => None end)
               "unknown");
     AuditData.normalizedCoords := Some (Transformed.normalized pdfCoordinates);
     AuditData.pdfCoords := Some (pdfCoordsOf pdfCoordinates);
     AuditData.containerSize := Coordinates.container coordinates;
     AuditData.imageDimensions := None;
     AuditData.fitDimensions := None;
     AuditData.imageType := None;
     AuditData.metadata :=
       Some (match metadata with Some m => m | None => [] end) |}.

(** [POST /sign-pdf], lines 39-165.  [db] is [req.app.locals.db]: the
    collection, when the server is connected. *)
Definition postSignPdf (body : SignBody.t) (db : option Collection) (w : World.t)
  : SignResponse.t * option Collection * World.t :=
  let failed (message : string) := SignResponse.Failed "Failed to sign PDF" message in
  match SignBody.coordinates body with
  | None => (failed typeErrorMessage, db, w)
  | Some coordinates =>
      match truthyString (SignBody.pdfId body),
            truthyPayload (SignBody.pdfBuffer body),
            SignBody.signature body with
      | Some pdfId, Some pdfBuffer, Some signature =>
          let pdfBuf := decodePdfBuffer pdfBuffer in
          let finalPageSize :=
            match SignBody.pageSize body with
            | Some pageSize => pageSize
            | None => {| Size.width := 595.275591; Size.height := 841.889764 |}
            end in
          match transformFrontendToPDF (Coordinates.frontend coordinates)
                  (Coordinates.container coordinates) (Some finalPageSize) with
          | Thrown message => (failed message, db, w)
          | Returned pdfCoordinates =>
              let signatureData :=
                routeSignatureData signature coordinates (SignBody.metadata body)
                  pdfCoordinates in
              match signPDF pdfBuf signatureData w with
              | (Thrown message, w) => (failed message, db, w)
              | (Returned signResult, w) =>
                  let '(db, w) :=
                    match db with
                    | Some c =>
                        let '(_, c, w) :=
                          create
                            (routeAuditData pdfId signResult signatureData coordinates
                               (SignBody.metadata body) pdfCoordinates) c w in
                        (Some c, w)
                    | None => (None, w)
                    end in
                  let signedPDFBase64 :=
                    bufferToBase64 (SignResult.signedPDFBuffer signResult) in
                  (SignResponse.Signed pdfId signedPDFBase64
                     (SignResult.originalHash signResult)
                     (SignResult.signedHash signResult)
                     (SignResult.auditLog signResult)
                     "PDF signed successfully", db, w)
              end
          end
      | _, _, _ =>
          (SignResponse.BadRequest
             "Missing required fields: pdfId, pdfBuffer, signature, coordinates", db, w)
      end
  end.

(** [POST /verify-pdf], lines 172-211. *)
Definition postVerifyPdf (body : VerifyBody.t) (db : option Collection) (w : World.t)
  : VerifyResponse.t * option Collection * World.t :=
  match truthyString (VerifyBody.documentId body), truthyPayload (VerifyBody.pdfBuffer body) with
  | Some documentId, Some pdfBuffer =>
      let pdfBuf := decodePdfBuffer pdfBuffer in
      let currentHash := computeSHA256 pdfBuf in
      match db with
      | None => (VerifyResponse.Failed "Database not available", db, w)
      | Some c =>
          let '(verificationResult, c, w) := verifyIntegrity documentId currentHash c w in
          (VerifyResponse.Verified verificationResult, Some c, w)
      end
  | _, _ =>
      (VerifyResponse.BadRequest "Missing required fields: documentId, pdfBuffer", db, w)
  end.

End Routes.

(** A small server over the library [Toy]: a store with one signed
    document, and a request to sign the blank A4 page. *)
Module ToyServer.
Local Open Scope string_scope.

(** What [create] is given for a document signed to the hash [signedHash]. *)
Definition signed (documentId signedHash : string) : AuditData.t :=
  {| AuditData.documentId := Some documentId;
     AuditData.originalHash := "pdf-1-0";
     AuditData.signedHash := signedHash;
     AuditData.pageIndex := PageIndexNumber 0;
     AuditData.signatureCount := None;
     AuditData.email := Some "signer@example.com";
     AuditData.signerName := None;
     AuditData.normalizedCoords := None;
     AuditData.pdfCoords := None;
     AuditData.containerSize := None;
     AuditData.imageDimensions := None;
     AuditData.fitDimensions := None;
     AuditData.imageType := None;
     AuditData.metadata := None |}.

(** The clock at the start of the day and from then on. *)
Definition morning : World.t := Toy.world "2024-05-01T08:00:00.000Z" "2024-05-01T09:30:00.000Z" None.

(** The store after [contract-7] was signed to [pdf-1-1] in the morning,
    and the world after it. *)
Definition store : Collection := snd (fst (create (signed "contract-7" "pdf-1-1") [] morning)).
Definition later : World.t := snd (create (signed "contract-7" "pdf-1-1") [] morning).

Definition toBase64 (f : Toy.file) : string := ("base64:" ++ Toy.checksum f)%string.

Definition withTransform (m : Metadata) (frontend : option Rect.t) (normalized pdf : Rect.t)
  : Metadata := (m ++ [("coordinateTransform", "[object Object]")])%list.

(** A request to sign the blank page in a box of the upper left corner of
    an A4 page shown at its own size. *)
Definition signBody (pdfId : option string) (coordinates : option Coordinates.t)
  : SignBody.t (H := Toy.lib) :=
  {| SignBody.pdfId := pdfId;
     SignBody.pdfBuffer := Some (RawBuffer (H := Toy.lib) Toy.blankA4);
     SignBody.signature :=
       Some {| SignatureField.image := "iVBORw0KGgo="; SignatureField.imageType := None |};
     SignBody.coordinates := coordinates;
     SignBody.pageSize := None;
     SignBody.metadata := Some [("email", "signer@example.com")] |}.

Definition upperLeft : Coordinates.t :=
  {| Coordinates.frontend := Some (Rect.mk 100 100 200 100);
     Coordinates.container := Some A4_PAGE;
     Coordinates.pageIndex := PageIndexUndefined |}.

End ToyServer.

(** ** The editor: DraggableField.js, PDFRenderer.js, PDFEditor.js

    Of a field only its box is kept, in the units of the page with the
    origin at the top left; its other properties are copied unchanged by
    [{ ...field }].  React state is passed as arguments. *)

(** JavaScript [a < b]. *)
Definition Qltb (a b : Q) : bool :=
  match a ?= b with
  | Lt => true
  | _ => false
  end.

(** The [dragStart] of DraggableField.js, lines 33-40. *)
Module DragStart.
Record t : Type := mk {
  x : Q;
  y : Q;
  fieldX : Q;
  fieldY : Q;
  fieldWidth : Q;
  fieldHeight : Q
}.
End DragStart.

(** [handleMouseMove], DraggableField.js lines 46-79, for the pointer at
    [(clientX, clientY)]: the field given to [onUpdate], if any. *)
Definition handleMouseMove
    (isDragging isResizing : bool) (dragStart : DragStart.t) (field : Rect.t) (scale : Q)
    (pageSize : Size.t) (clientX clientY : Q) : option Rect.t :=
  if negb isDragging && negb isResizing then None
  else
    let deltaX := clientX - DragStart.x dragStart in
    let deltaY := clientY - DragStart.y dragStart in
    if isDragging then
      let newX := DragStart.fieldX dragStart + deltaX / scale in
      let newY := DragStart.fieldY dragStart + deltaY / scale in
      let clampedX := Qmax 0 (Qmin newX (Size.width pageSize - Rect.width field)) in
      let clampedY := Qmax 0 (Qmin newY (Size.height pageSize - Rect.height field)) in
      Some {| Rect.x := clampedX; Rect.y := clampedY;
              Rect.width := Rect.width field; Rect.height := Rect.height field |}
    else if isResizing then
      let newWidth := Qmax 30 (DragStart.fieldWidth dragStart + deltaX / scale) in
      let newHeight := Qmax 30 (DragStart.fieldHeight dragStart + deltaY / scale) in
      let clampedWidth := Qmin newWidth (Size.width pageSize - Rect.x field) in
      let clampedHeight := Qmin newHeight (Size.height pageSize - Rect.y field) in
      Some {| Rect.x := Rect.x field; Rect.y := Rect.y field;
              Rect.width := clampedWidth; Rect.height := clampedHeight |}
    else None.

(** [screenX], [screenY], [screenWidth] and [screenHeight], DraggableField.js
    lines 98-101. *)
Definition screenBox (field : Rect.t) (scale : Q) : Rect.t :=
  {| Rect.x := Rect.x field * scale;
     Rect.y := Rect.y field * scale;
     Rect.width := Rect.width field * scale;
     Rect.height := Rect.height field * scale |}.

(** [handleDrop] of PDFRenderer for a new field: the box given to
    [onFieldDropped], for the pointer at [(clientX, clientY)] and the canvas
    at [(rectLeft, rectTop)]. *)
Definition handleDrop (scale clientX clientY rectLeft rectTop : Q) : Rect.t :=
  let x := clientX - rectLeft in
  let y := clientY - rectTop in
  {| Rect.x := x / scale;
     Rect.y := y / scale;
     Rect.width := 120 / scale;
     Rect.height := 60 / scale |}.

(** The two checks of [handleSignatureCapture] before the request is sent,
    PDFEditor.js lines 157-167. *)
Inductive FieldCheck : Type :=
| InvalidCoordinates
| BeyondBoundaries
| FieldAccepted.

Definition validateCoordinates (field : Rect.t) (pdfPageSize : Size.t) : FieldCheck :=
  if Qltb (Rect.x field) 0 || Qltb (Rect.y field) 0
     || Qleb (Rect.width field) 0 || Qleb (Rect.height field) 0 then
    InvalidCoordinates
  else if Qgtb (Rect.x field + Rect.width field) (Size.width pdfPageSize)
          || Qgtb (Rect.y field + Rect.height field) (Size.height pdfPageSize) then
    BeyondBoundaries
  else FieldAccepted.

(** The same over binary64, for evaluation at concrete inputs. *)
Module Binary64Editor.
Import Floats.
Local Open Scope float_scope.

Module DragStart.
Record t : Type := mk {
  x : float;
  y : float;
  fieldX : float;
  fieldY : float;
  fieldWidth : float;
  fieldHeight : float
}.
End DragStart.

Definition handleMouseMove
    (isDragging isResizing : bool) (dragStart : DragStart.t) (field : Binary64.Rect.t)
    (scale : float) (pageSize : Binary64.Size.t) (clientX clientY : float)
  : option Binary64.Rect.t :=
  if negb isDragging && negb isResizing then None
  else
    let deltaX := clientX - DragStart.x dragStart in
    let deltaY := clientY - DragStart.y dragStart in
    if isDragging then
      let newX := DragStart.fieldX dragStart + deltaX / scale in
      let newY := DragStart.fieldY dragStart + deltaY / scale in
      let clampedX :=
        Binary64.mathMax 0
          (Binary64.mathMin newX
             (Binary64.Size.width pageSize - Binary64.Rect.width field)) in
      let clampedY :=
        Binary64.mathMax 0
          (Binary64.mathMin newY
             (Binary64.Size.height pageSize - Binary64.Rect.height field)) in
      Some {| Binary64.Rect.x := clampedX; Binary64.Rect.y := clampedY;
              Binary64.Rect.width := Binary64.Rect.width field;
              Binary64.Rect.height := Binary64.Rect.height field |}
    else if isResizing then
      let newWidth := Binary64.mathMax 30 (DragStart.fieldWidth dragStart + deltaX / scale) in
      let newHeight := Binary64.mathMax 30 (DragStart.fieldHeight dragStart + deltaY / scale) in
      let clampedWidth :=
        Binary64.mathMin newWidth (Binary64.Size.width pageSize - Binary64.Rect.x field) in
      let clampedHeight :=
        Binary64.mathMin newHeight (Binary64.Size.height pageSize - Binary64.Rect.y field) in
      Some {| Binary64.Rect.x := Binary64.Rect.x field;
              Binary64.Rect.y := Binary64.Rect.y field;
              Binary64.Rect.width := clampedWidth;
              Binary64.Rect.height := clampedHeight |}
    else None.

Definition handleDrop (scale clientX clientY rectLeft rectTop : float) : Binary64.Rect.t :=
  let x := clientX - rectLeft in
  let y := clientY - rectTop in
  {| Binary64.Rect.x := x / scale;
     Binary64.Rect.y := y / scale;
     Binary64.Rect.width := 120 / scale;
     Binary64.Rect.height := 60 / scale |}.

Definition validateCoordinates (field : Binary64.Rect.t) (pdfPageSize : Binary64.Size.t)
  : FieldCheck :=
  if (Binary64.Rect.x field <? 0) || (Binary64.Rect.y field <? 0)
     || (Binary64.Rect.width field <=? 0) || (Binary64.Rect.height field <=? 0) then
    InvalidCoordinates
  else if Binary64.gtb (Binary64.Rect.x field + Binary64.Rect.width field)
            (Binary64.Size.width pdfPageSize)
          || Binary64.gtb (Binary64.Rect.y field + Binary64.Rect.height field)
               (Binary64.Size.height pdfPageSize) then
    BeyondBoundaries
  else FieldAccepted.

End Binary64Editor.

(** * Properties *)

(** ** Comparisons and the clamp *)

Lemma Qgtb_true (a b : Q) : Qgtb a b = true <-> b < a.
Proof.
  unfold Qgtb. rewrite Qgt_alt.
  destruct (a ?= b); split; intros H; congruence.
Qed.

Lemma Qgtb_false (a b : Q) : Qgtb a b = false <-> a <= b.
Proof.
  unfold Qgtb. rewrite Qle_alt.
  destruct (a ?= b); split; intros H; congruence.
Qed.


Lemma clamp01_id (v : Q) : 0 <= v <= 1 -> clamp01 v == v.
Proof.
  intros [H0 H1]. unfold clamp01.
  rewrite Q.min_r by assumption. now rewrite Q.max_r.
Qed.



Lemma Qdiv_pos (a b : Q) : 0 < a -> 0 < b -> 0 < a / b.
Proof.
  intros Ha Hb. unfold Qdiv. apply Qmult_lt_0_compat; [assumption |].
  now apply Qinv_lt_0_compat.
Qed.

(** ** The fit of the page into the container *)

(** With positive dimensions the scale factor is positive. *)
Lemma scaleAndOffsets_scale_pos (cs ps : Size.t) :
  0 < Size.width cs -> 0 < Size.height cs ->
  0 < Size.width ps -> 0 < Size.height ps ->
  0 < fst (fst (scaleAndOffsets cs ps)).
Proof.
  intros Hcw Hch Hpw Hph. unfold scaleAndOffsets.
  destruct (Qgtb _ _); cbn [fst]; now apply Qdiv_pos.
Qed.

(** The normalized rectangle that [normalizeFrontendCoordinates] returns. *)
Lemma normalizeFrontendCoordinates_present (fc : Rect.t) (cs ps : Size.t) :
  normalizeFrontendCoordinates (Some fc) (Some cs) (Some ps) =
  Returned
    {| Rect.x := clamp01 (Rect.x (unclampedNormalized fc cs ps));
       Rect.y := clamp01 (Rect.y (unclampedNormalized fc cs ps));
       Rect.width := clamp01 (Rect.width (unclampedNormalized fc cs ps));
       Rect.height := clamp01 (Rect.height (unclampedNormalized fc cs ps)) |}.
Proof. reflexivity. Qed.

(** The four quotients in terms of the fit. *)
Lemma unclampedNormalized_fit (fc : Rect.t) (cs ps : Size.t) :
  let s := fst (fst (scaleAndOffsets cs ps)) in
  let ox := snd (fst (scaleAndOffsets cs ps)) in
  let oy := snd (scaleAndOffsets cs ps) in
  unclampedNormalized fc cs ps =
  {| Rect.x := (Rect.x fc - ox) / s / Size.width ps;
     Rect.y := (Rect.y fc - oy) / s / Size.height ps;
     Rect.width := Rect.width fc / s / Size.width ps;
     Rect.height := Rect.height fc / s / Size.height ps |}.
Proof.
  unfold unclampedNormalized. destruct (scaleAndOffsets cs ps) as [[s ox] oy].
  reflexivity.
Qed.

Lemma transformPDFToFrontend_fit (pc : Rect.t) (cs ps : Size.t) :
  let s := fst (fst (scaleAndOffsets cs ps)) in
  let ox := snd (fst (scaleAndOffsets cs ps)) in
  let oy := snd (scaleAndOffsets cs ps) in
  transformPDFToFrontend pc cs ps =
  {| Rect.x := Rect.x pc / Size.width ps * Size.width ps * s + ox;
     Rect.y := (Size.height ps - (Rect.y pc + Rect.height pc)) / Size.height ps
               * Size.height ps * s + oy;
     Rect.width := Rect.width pc * s;
     Rect.height := Rect.height pc * s |}.
Proof.
  unfold transformPDFToFrontend. destruct (scaleAndOffsets cs ps) as [[s ox] oy].
  reflexivity.
Qed.

(** ** The round trip *)




(** ** Normalization bounds *)







(** ** The right edge *)

(** C7 at a failing input.  In a 100 x 100 viewport showing a 100 x 100 page
    (scale 1, no offset) the rectangle [{75, 0, 50, 50}] reaches beyond the
    right edge of the page: its projected [x + width] is 1.25.  The returned
    [x] is 0.75 and the returned [width] is 0.5: each was clamped on its own,
    and their sum is still 1.25, not 1. *)
Theorem normalized_right_edge_overflow :
  let fc := Rect.mk 75 0 50 50 in
  let cs := Size.mk 100 100 in
  let ps := Size.mk 100 100 in
  let n := unclampedNormalized fc cs ps in
  1 < Rect.x n + Rect.width n /\
  match normalizeFrontendCoordinates (Some fc) (Some cs) (Some ps) with
  | Returned r =>
      Rect.x r == 0.75 /\ Rect.width r == 0.5 /\
      Rect.x r + Rect.width r == 1.25 /\
      ~ Rect.x r + Rect.width r == 1 /\
      isValidNormalizedCoordinate r = false
  | Thrown _ => False
  end.
Proof. vm_compute. repeat split; congruence. Qed.

(** The repository's test "Boundary conditions - bottom-right corner" builds
    its rectangle from [scale = 1200 / A4_PAGE.width] and asserts
    [x + width <= 1] and [y + height <= 1] on the normalized result.  On the
    code both sums exceed 1. *)
Lemma bottom_right_corner_test_fails :
  let scale := 1200 / A4_WIDTH_POINTS in
  let frontend :=
    Rect.mk (A4_WIDTH_POINTS * scale - 50) (A4_HEIGHT_POINTS * scale - 50) 50 50 in
  match transformFrontendToPDF (Some frontend) (Some (Size.mk 1200 1600)) (Some A4_PAGE) with
  | Returned result =>
      let normalized := Transformed.normalized result in
      Qleb (Rect.x normalized + Rect.width normalized) 1 = false /\
      Qleb (Rect.y normalized + Rect.height normalized) 1 = false
  | Thrown _ => False
  end.
Proof. vm_compute. split; reflexivity. Qed.

(** ** Errors of the coordinate transform *)

(** C4, as the claim states it, fails: a container of width -100 is not
    refused.  The rectangle [{10, 120, 20, 20}] in a -100 x 100 container on a
    100 x 100 page is normalized (scale -1, vertical offset 100) to
    [{0, 0, 0, 0}] without any error. *)
Lemma negative_container_width_is_not_refused :
  Size.width (Size.mk (-100) 100) <= 0 /\
  normalizeFrontendCoordinates
    (Some (Rect.mk 10 120 20 20)) (Some (Size.mk (-100) 100)) (Some (Size.mk 100 100))
  = Returned (Rect.mk 0 0 0 0).
Proof. split; [discriminate | vm_compute; reflexivity]. Qed.

(** C4, amended.  [normalizeFrontendCoordinates] checks no geometry: it
    returns a rectangle exactly when the three objects are present, whatever
    the sign of the container and page dimensions, and the only error it
    raises is the missing-parameters error, raised exactly when one of the
    three objects is absent.  [transformFrontendToPDF] fails in the same
    cases with the same error. *)
Theorem normalizeFrontendCoordinates_only_error
    (frontendCoords : option Rect.t) (containerSize pdfPageSize : option Size.t) :
  match normalizeFrontendCoordinates frontendCoords containerSize pdfPageSize with
  | Returned _ =>
      frontendCoords <> None /\ containerSize <> None /\ pdfPageSize <> None /\
      exists t, transformFrontendToPDF frontendCoords containerSize pdfPageSize = Returned t
  | Thrown message =>
      (frontendCoords = None \/ containerSize = None \/ pdfPageSize = None) /\
      message = "Missing required parameters for coordinate normalization"%string /\
      transformFrontendToPDF frontendCoords containerSize pdfPageSize = Thrown message
  end.
Proof.
  destruct frontendCoords as [fc |], containerSize as [cs |], pdfPageSize as [ps |];
    unfold transformFrontendToPDF; cbn;
    try (repeat split; try discriminate; eexists; reflexivity);
    repeat split; auto.
Qed.

(** C9.  When the coordinates object, the container-size object or the
    page-size object is absent, [normalizeFrontendCoordinates] throws the
    missing-parameters error, and so does [transformFrontendToPDF]; the
    error does not depend on the numbers the other objects hold. *)
Theorem normalizeFrontendCoordinates_missing_parameter
    (frontendCoords : option Rect.t) (containerSize pdfPageSize : option Size.t) :
  frontendCoords = None \/ containerSize = None \/ pdfPageSize = None ->
  normalizeFrontendCoordinates frontendCoords containerSize pdfPageSize
  = Thrown "Missing required parameters for coordinate normalization" /\
  transformFrontendToPDF frontendCoords containerSize pdfPageSize
  = Thrown "Missing required parameters for coordinate normalization".
Proof.
  intros H. unfold transformFrontendToPDF.
  destruct frontendCoords, containerSize, pdfPageSize; cbn;
    try (split; reflexivity).
  destruct H as [H | [H | H]]; discriminate.
Qed.

(** No page size: the request of the desktop test without its page object. *)
Lemma normalizeFrontendCoordinates_missing_parameter_witness :
  normalizeFrontendCoordinates (Some (Rect.mk 300 300 100 50)) (Some (Size.mk 1200 1600)) None
  = Thrown "Missing required parameters for coordinate normalization" /\
  transformFrontendToPDF (Some (Rect.mk 300 300 100 50)) (Some (Size.mk 1200 1600)) None
  = Thrown "Missing required parameters for coordinate normalization".
Proof.
  apply (normalizeFrontendCoordinates_missing_parameter
           (Some (Rect.mk 300 300 100 50)) (Some (Size.mk 1200 1600)) None).
  right. right. reflexivity.
Defined.

(** ** The fit of the image into the box *)

(** A quotient compared with a number, with the divisor multiplied out. *)
Lemma Qdiv_lt_mult (a b c : Q) : 0 < b -> a / b < c -> a < c * b.
Proof.
  intros Hb H. apply (Qmult_lt_r _ _ b Hb) in H.
  setoid_replace (a / b * b) with a in H by (field; lra). exact H.
Qed.

Lemma Qle_div_mult (a b c : Q) : 0 < b -> c <= a / b -> c * b <= a.
Proof.
  intros Hb H. apply (Qmult_le_r _ _ b Hb) in H.
  setoid_replace (a / b * b) with a in H by (field; lra). exact H.
Qed.

(** The fitted size has exactly the aspect ratio of the image. *)
Lemma calculateFitDimensions_aspect (imageWidth imageHeight boxWidth boxHeight : Q) :
  0 < imageWidth -> 0 < imageHeight -> 0 < boxWidth -> 0 < boxHeight ->
  let fit := calculateFitDimensions imageWidth imageHeight boxWidth boxHeight in
  0 < Fit.height fit /\
  Fit.width fit / Fit.height fit == imageWidth / imageHeight.
Proof.
  intros Hiw Hih Hbw Hbh. unfold calculateFitDimensions.
  pose proof (Qdiv_pos _ _ Hiw Hih) as Har.
  destruct (Qgtb _ _); cbn [Fit.width Fit.height].
  - split; [now apply Qdiv_pos |]. field. repeat split; lra.
  - split; [assumption |]. field. repeat split; lra.
Qed.

(** C6, amended.  With the arithmetic carried out exactly, for positive
    image and box dimensions the fitted width is at most the box width, the
    fitted height at most the box height, the aspect ratio of the fitted
    size differs from the one of the image by less than 1e-9 of the latter
    (it is the same), and the fitted width is the box width or the fitted
    height is the box height. *)
Theorem calculateFitDimensions_contains (imageWidth imageHeight boxWidth boxHeight : Q) :
  0 < imageWidth -> 0 < imageHeight -> 0 < boxWidth -> 0 < boxHeight ->
  let fit := calculateFitDimensions imageWidth imageHeight boxWidth boxHeight in
  Fit.width fit <= boxWidth /\
  Fit.height fit <= boxHeight /\
  Qabs (Fit.width fit / Fit.height fit - imageWidth / imageHeight)
    < (1 # 1000000000) * (imageWidth / imageHeight) /\
  (Fit.width fit = boxWidth \/ Fit.height fit = boxHeight).
Proof.
  intros Hiw Hih Hbw Hbh fit.
  destruct (calculateFitDimensions_aspect _ _ _ _ Hiw Hih Hbw Hbh) as [_ Haspect].
  fold fit in Haspect.
  pose proof (Qdiv_pos _ _ Hiw Hih) as Har.
  assert (Hbounds : Fit.width fit <= boxWidth /\ Fit.height fit <= boxHeight /\
                    (Fit.width fit = boxWidth \/ Fit.height fit = boxHeight)).
  { subst fit. unfold calculateFitDimensions.
    destruct (Qgtb (imageWidth / imageHeight) (boxWidth / boxHeight)) eqn:Hwider;
      cbn [Fit.width Fit.height].
    - apply Qgtb_true in Hwider. apply Qdiv_lt_mult in Hwider; [| assumption].
      repeat split; [lra | | now left].
      apply Qle_shift_div_r; [assumption | lra].
    - apply Qgtb_false in Hwider. apply Qle_div_mult in Hwider; [| assumption].
      repeat split; [| lra | now right].
      rewrite Qmult_comm. exact Hwider. }
  destruct Hbounds as (Hw & Hh & Hone).
  repeat split; try assumption.
  setoid_replace (Fit.width fit / Fit.height fit - imageWidth / imageHeight) with 0
    by (rewrite Haspect; ring).
  cbn [Qabs]. apply Qmult_lt_0_compat; [reflexivity | assumption].
Qed.

(** The scenario of the specification: a 256 x 128 image in a 100 x 100 box
    is fitted to 100 x 50 and centred with offsets 0 and 25. *)
Lemma calculateFitDimensions_contains_witness :
  let fit := calculateFitDimensions 256 128 100 100 in
  (Fit.width fit <= 100 /\
   Fit.height fit <= 100 /\
   Qabs (Fit.width fit / Fit.height fit - 256 / 128) < (1 # 1000000000) * (256 / 128) /\
   (Fit.width fit = 100 \/ Fit.height fit = 100)) /\
  Fit.width fit == 100 /\ Fit.height fit == 50 /\
  Fit.offsetX fit == 0 /\ Fit.offsetY fit == 25.
Proof.
  split.
  - apply (calculateFitDimensions_contains 256 128 100 100); reflexivity.
  - vm_compute. repeat split; reflexivity.
Defined.

(** ** The signer *)

Section SignerProperties.
Context `{lib : PdfLib}.

(** *** Decoding the image *)

Lemma rethrowEmbedError_thrown (o : outcome (PDFImage * PDFDocument)) (message : string) :
  rethrowEmbedError o = Thrown message ->
  exists m : string,
    o = Thrown m /\ message = ("Failed to embed signature image: " ++ m)%string.
Proof.
  destruct o as [v | m]; cbn; intros H; [discriminate |].
  exists m. split; [reflexivity | congruence].
Qed.

(** C3, amended.  When the request names an encoding (by [imageType] or by
    the text of [image]; png before jpeg), that encoding alone is attempted,
    once, and its rejection is the failure of the operation: the other
    encoding is not tried.  Only when the request names neither encoding is
    PNG attempted first and JPEG attempted once more after PNG was rejected.
    In every case no encoding is attempted twice, the operation fails only
    when every attempted encoding rejected the image, and the failure carries
    the message [Failed to embed signature image: ...]. *)
Theorem embedSignatureImage_attempts
    (pdfDoc : PDFDocument) (signatureData : SignatureData.t) (imageBuffer : Buffer) :
  let attempts := fst (embedSignatureImage pdfDoc signatureData imageBuffer) in
  let result := snd (embedSignatureImage pdfDoc signatureData imageBuffer) in
  (forall e : Encoding,
     declares signatureData e = true ->
     attempts = [e] /\ ~ In (otherEncoding e) attempts /\
     result = rethrowEmbedError (embedAs e pdfDoc imageBuffer)) /\
  (declares signatureData PNG = false -> declares signatureData JPEG = false ->
     match embedPng pdfDoc imageBuffer with
     | Returned v => attempts = [PNG] /\ result = Returned v
     | Thrown _ =>
         attempts = [PNG; JPEG] /\
         result = rethrowEmbedError (embedJpeg pdfDoc imageBuffer)
     end) /\
  NoDup attempts /\
  (forall message : string,
     result = Thrown message ->
     (forall e : Encoding, In e attempts ->
        exists m : string, embedAs e pdfDoc imageBuffer = Thrown m) /\
     exists m : string, message = ("Failed to embed signature image: " ++ m)%string).
Proof.
  unfold embedSignatureImage, declares. cbv zeta.
  destruct (isString (SignatureData.imageType signatureData) "png"
            || includes (SignatureData.image signatureData) "png") eqn:Hpng;
    [| destruct (isString (SignatureData.imageType signatureData) "jpeg"
                 || includes (SignatureData.image signatureData) "jpeg") eqn:Hjpeg;
       [| destruct (embedPng pdfDoc imageBuffer) as [v | mPng] eqn:HembedPng]];
    cbn [fst snd negb andb].
  - (* png is named *)
    repeat split.
    + destruct e; [reflexivity | discriminate].
    + destruct e; [cbn; intuition discriminate | discriminate].
    + destruct e; [reflexivity | discriminate].
    + discriminate.
    + repeat constructor; cbn; tauto.
    + intros e [<- | []]. cbn [embedAs].
      apply rethrowEmbedError_thrown in H as (m & Hm & _). now exists m.
    + apply rethrowEmbedError_thrown in H as (m & _ & Hm). now exists m.
  - (* jpeg is named *)
    repeat split.
    + destruct e; [discriminate | reflexivity].
    + destruct e; [discriminate | cbn; intuition discriminate].
    + destruct e; [discriminate | reflexivity].
    + discriminate.
    + repeat constructor; cbn; tauto.
    + intros e [<- | []]. cbn [embedAs].
      apply rethrowEmbedError_thrown in H as (m & Hm & _). now exists m.
    + apply rethrowEmbedError_thrown in H as (m & _ & Hm). now exists m.
  - (* neither is named, PNG accepted *)
    repeat split; try discriminate; try (destruct e; discriminate).
    repeat constructor; cbn; tauto.
  - (* neither is named, PNG rejected *)
    repeat split; try (destruct e; discriminate).
    + repeat constructor; cbn; intuition discriminate.
    + intros e [<- | [<- | []]]; cbn [embedAs].
      * now exists mPng.
      * apply rethrowEmbedError_thrown in H as (m & Hm & _). now exists m.
    + apply rethrowEmbedError_thrown in H as (m & _ & Hm). now exists m.
Qed.

(** The failure of the embedding is the failure of [signPDF]. *)
Lemma signPDF_embed_failure
    (originalPDFBuffer : Buffer) (signatureData : SignatureData.t) (w : World.t)
    (pdfDoc : PDFDocument) (message : string) :
  load originalPDFBuffer = Returned pdfDoc ->
  (0 <= pageIndexOrZero (SignatureData.pageIndex signatureData) < getPageCount pdfDoc)%Z ->
  snd (embedSignatureImage pdfDoc signatureData
         (base64ToBuffer (SignatureData.image signatureData))) = Thrown message ->
  signPDF originalPDFBuffer signatureData w = (Thrown message, w).
Proof.
  intros Hload Hrange Hembed. unfold signPDF. rewrite Hload.
  replace ((_ <? 0) || (_ >=? _))%Z with false by lia.
  cbv zeta. rewrite Hembed. reflexivity.
Qed.

End SignerProperties.

(** C3, as the claim states it, fails.  A request that declares [png] and
    carries a JPEG file has its image attempted as PNG only: the operation
    fails although embedding it as JPEG succeeds.  The same holds with the
    two encodings exchanged. *)
Lemma declared_encoding_has_no_fallback :
  let pdfDoc := Toy.mkDocument [A4_PAGE] [] in
  let w := Toy.world "2026-01-01T00:00:00.000Z" "2026-01-01T00:00:01.000Z" None in
  let jpegAsPng := Toy.request "/9j/4AAQSkZJRg==" (Some "png"%string) PageIndexUndefined in
  let pngAsJpeg := Toy.request "iVBORw0KGgo=" (Some "jpeg"%string) PageIndexUndefined in
  (embedSignatureImage (lib := Toy.lib) pdfDoc jpegAsPng
     (base64ToBuffer (SignatureData.image jpegAsPng))
   = ([PNG], Thrown "Failed to embed signature image: The input is not a PNG file!") /\
   (exists v, @embedJpeg Toy.lib pdfDoc (base64ToBuffer (SignatureData.image jpegAsPng)) = Returned v) /\
   fst (signPDF (lib := Toy.lib) Toy.blankA4 jpegAsPng w)
   = Thrown "Failed to embed signature image: The input is not a PNG file!") /\
  (embedSignatureImage (lib := Toy.lib) pdfDoc pngAsJpeg
     (base64ToBuffer (SignatureData.image pngAsJpeg))
   = ([JPEG], Thrown "Failed to embed signature image: SOI not found in JPEG") /\
   (exists v, @embedPng Toy.lib pdfDoc (base64ToBuffer (SignatureData.image pngAsJpeg)) = Returned v) /\
   fst (signPDF (lib := Toy.lib) Toy.blankA4 pngAsJpeg w)
   = Thrown "Failed to embed signature image: SOI not found in JPEG").
Proof.
  cbv zeta. repeat split; try (vm_compute; reflexivity); eexists; vm_compute; reflexivity.
Qed.

Section Determinism.
Context `{lib : PdfLib}.


End Determinism.



Section MultiplePlacements.
Context `{lib : PdfLib}.

(** One audit log per placement. *)
Lemma overlaySteps_length
    (b b' : Buffer) (ps : list SignatureData.t) (w w' : World.t) (logs : list AuditLog.t) :
  overlaySteps b ps w b' logs w' -> List.length logs = List.length ps.
Proof.
  induction 1 as [| b p ps w w1 w' r b' logs Hstep Hrest IH]; cbn; congruence.
Qed.

(** The steps are determined by the buffer, the placements and the world. *)
Lemma overlaySteps_functional
    (b : Buffer) (ps : list SignatureData.t) (w : World.t)
    (b1 b2 : Buffer) (logs1 logs2 : list AuditLog.t) (w1 w2 : World.t) :
  overlaySteps b ps w b1 logs1 w1 -> overlaySteps b ps w b2 logs2 w2 ->
  b1 = b2 /\ logs1 = logs2 /\ w1 = w2.
Proof.
  intros H1. revert b2 logs2 w2.
  induction H1 as [| b p ps w wa w1 r b1 logs1 Hstep Hrest IH]; intros b2 logs2 w2 H2.
  - inversion H2; subst. auto.
  - inversion H2 as [| ? ? ? ? wb ? r' ? logs2' Hstep' Hrest']; subst.
    rewrite Hstep in Hstep'. injection Hstep' as <- <-.
    destruct (IH _ _ _ Hrest') as (-> & -> & ->). auto.
Qed.

(** The loop, started with the trail [auditTrail], either runs through all
    the placements and adds their logs at the end of the trail, or stops at
    the first placement whose [signPDF] throws. *)
Lemma signLoop_sequential (signatures : list SignatureData.t) :
  forall (currentBuffer : Buffer) (auditTrail : list AuditLog.t) (w : World.t),
    match signLoop signatures currentBuffer auditTrail w with
    | (Returned (finalBuffer, trail), w') =>
        exists logs : list AuditLog.t,
          overlaySteps currentBuffer signatures w finalBuffer logs w' /\
          trail = auditTrail ++ logs
    | (Thrown message, w') =>
        exists (before : list SignatureData.t) (p : SignatureData.t)
               (after : list SignatureData.t)
               (b : Buffer) (logs : list AuditLog.t) (wb : World.t),
          signatures = before ++ p :: after /\
          overlaySteps currentBuffer before w b logs wb /\
          signPDF b p wb = (Thrown message, w')
    end.
Proof.
  induction signatures as [| sig rest IH]; intros currentBuffer auditTrail w; cbn [signLoop].
  - exists []. split; [constructor | now rewrite app_nil_r].
  - destruct (signPDF currentBuffer sig w) as [[result | message] w1] eqn:Hstep.
    + specialize (IH (SignResult.signedPDFBuffer result)
                     (auditTrail ++ [SignResult.auditLog result]) w1).
      destruct (signLoop rest _ _ w1) as [[[finalBuffer trail] | message] w'].
      * destruct IH as (logs & Hsteps & ->).
        exists (SignResult.auditLog result :: logs). split.
        -- econstructor; eassumption.
        -- now rewrite <- app_assoc.
      * destruct IH as (before & p & after & b & logs & wb & -> & Hsteps & Hthrow).
        exists (sig :: before), p, after, b, (SignResult.auditLog result :: logs), wb.
        repeat split; [| assumption].
        econstructor; eassumption.
    + exists [], sig, rest, currentBuffer, [], w.
      repeat split; [constructor | assumption].
Qed.

(** C8.  [signPDFMultiple] applies [signPDF] to the placements in their
    order, each step on the buffer the step before returned.  When every
    step succeeds it returns the buffer of the last step, the digest of the
    buffer it was given, the digest of the buffer it returns, and the audit
    logs of the steps in the order of the placements, one for each; when a
    step throws, it throws what that step threw, the steps before having
    been applied in order. *)
Theorem signPDFMultiple_sequential
    (originalPDFBuffer : Buffer) (signatures : list SignatureData.t) (w : World.t) :
  match signPDFMultiple originalPDFBuffer signatures w with
  | (Returned result, w') =>
      overlaySteps originalPDFBuffer signatures w
        (MultiResult.signedPDFBuffer result) (MultiResult.auditTrail result) w' /\
      MultiResult.originalHash result = computeSHA256 originalPDFBuffer /\
      MultiResult.signedHash result = computeSHA256 (MultiResult.signedPDFBuffer result) /\
      List.length (MultiResult.auditTrail result) = List.length signatures
  | (Thrown message, w') =>
      exists (before : list SignatureData.t) (p : SignatureData.t)
             (after : list SignatureData.t)
             (b : Buffer) (logs : list AuditLog.t) (wb : World.t),
        signatures = before ++ p :: after /\
        overlaySteps originalPDFBuffer before w b logs wb /\
        signPDF b p wb = (Thrown message, w')
  end.
Proof.
  unfold signPDFMultiple. cbv zeta.
  pose proof (signLoop_sequential signatures originalPDFBuffer [] w) as Hloop.
  destruct (signLoop signatures originalPDFBuffer [] w) as [[[finalBuffer trail] | message] w'].
  - destruct Hloop as (logs & Hsteps & ->). cbn [app MultiResult.signedPDFBuffer
      MultiResult.auditTrail MultiResult.originalHash MultiResult.signedHash].
    repeat split; [assumption |].
    eapply overlaySteps_length; eassumption.
  - exact Hloop.
Qed.

(** Conversely, placements that can be applied one after the other are what
    [signPDFMultiple] returns. *)
Lemma signPDFMultiple_complete
    (originalPDFBuffer finalBuffer : Buffer) (signatures : list SignatureData.t)
    (w w' : World.t) (logs : list AuditLog.t) :
  overlaySteps originalPDFBuffer signatures w finalBuffer logs w' ->
  signPDFMultiple originalPDFBuffer signatures w =
  (Returned
     {| MultiResult.signedPDFBuffer := finalBuffer;
        MultiResult.originalHash := computeSHA256 originalPDFBuffer;
        MultiResult.signedHash := computeSHA256 finalBuffer;
        MultiResult.auditTrail := logs |}, w').
Proof.
  intros Hsteps. unfold signPDFMultiple. cbv zeta.
  pose proof (signLoop_sequential signatures originalPDFBuffer [] w) as Hloop.
  destruct (signLoop signatures originalPDFBuffer [] w) as [[[b trail] | message] wl].
  - destruct Hloop as (logs' & Hsteps' & ->).
    destruct (overlaySteps_functional _ _ _ _ _ _ _ _ _ Hsteps Hsteps') as (<- & <- & <-).
    reflexivity.
  - exfalso.
    destruct Hloop as (before & p & after & b & logsb & wb & -> & Hbefore & Hthrow).
    clear - Hsteps Hbefore Hthrow.
    revert finalBuffer logs w' Hsteps.
    induction Hbefore as [| b0 q qs w0 w1 wb r b logsb Hq Hrest IH];
      intros finalBuffer logs w' Hsteps; cbn in Hsteps;
      inversion Hsteps as [| ? ? ? ? ? ? r' ? ? Hstep Htail]; subst.
    + rewrite Hthrow in Hstep. discriminate.
    + rewrite Hq in Hstep. injection Hstep as <- <-. eapply IH; eassumption.
Qed.

End MultiplePlacements.

Section PageIndex.
Context `{lib : PdfLib}.

Lemma pageIndexOrZero_falsy (v : PageIndexValue) :
  falsyPageIndex v -> pageIndexOrZero v = 0%Z.
Proof. intros [-> | [-> | [-> | ->]]]; reflexivity. Qed.

(** Every failure of the embedding carries the prefix of line 125. *)
Lemma embedSignatureImage_thrown
    (pdfDoc : PDFDocument) (signatureData : SignatureData.t) (imageBuffer : Buffer)
    (message : string) :
  snd (embedSignatureImage pdfDoc signatureData imageBuffer) = Thrown message ->
  exists m : string, message = ("Failed to embed signature image: " ++ m)%string.
Proof.
  unfold embedSignatureImage.
  destruct (_ || _); [| destruct (_ || _); [| destruct (embedPng _ _)]];
    cbn [snd]; intros H; try discriminate;
    apply rethrowEmbedError_thrown in H as (m & _ & ->); now exists m.
Qed.

Lemma append_associative (a b c : string) :
  ((a ++ b) ++ c)%string = (a ++ b ++ c)%string.
Proof. induction a as [| ch a IH]; cbn; [reflexivity | now rewrite IH]. Qed.

Lemma invalidPageIndexMessage_mentions_count (pageIndex totalPages : Z) :
  mentions (invalidPageIndexMessage pageIndex totalPages) (string_of_Z totalPages).
Proof.
  exists ("Invalid page index: " ++ string_of_Z pageIndex ++ ". Document has ")%string,
         " pages."%string.
  unfold invalidPageIndexMessage. now rewrite !append_associative.
Qed.

(** C10.  For a buffer that loads as a document: a falsy [pageIndex]
    ([undefined], [null], [NaN] or [0]) is resolved to 0, and when the
    document has a page and the image can be embedded, [signPDF] returns,
    records page 0 in the audit log, and the returned buffer is the saved
    document with the image drawn on page 0 (and the debug box, if enabled,
    on page 0 as well).  [signPDF] throws the invalid-page-index error
    exactly when the resolved index is negative or at least the page count,
    and the message of that error contains the page count. *)
Theorem signPDF_falsy_pageIndex
    (originalPDFBuffer : Buffer) (signatureData : SignatureData.t) (w : World.t)
    (pdfDoc : PDFDocument) :
  load originalPDFBuffer = Returned pdfDoc ->
  let totalPages := getPageCount pdfDoc in
  let pageIndex := pageIndexOrZero (SignatureData.pageIndex signatureData) in
  (falsyPageIndex (SignatureData.pageIndex signatureData) ->
   pageIndex = 0%Z /\
   ((0 < totalPages)%Z ->
    forall (image : PDFImage) (embedded : PDFDocument),
      snd (embedSignatureImage pdfDoc signatureData
             (base64ToBuffer (SignatureData.image signatureData)))
      = Returned (image, embedded) ->
      exists (result : SignResult.t) (w' : World.t) (drawn : PDFDocument),
        signPDF originalPDFBuffer signatureData w = (Returned result, w') /\
        AuditLog.pageIndex (SignResult.auditLog result) = 0%Z /\
        (drawn = drawImage embedded 0 image (fittedPlacement signatureData image) \/
         exists options : RectangleOptions.t,
           drawn = drawRectangle
                     (drawImage embedded 0 image (fittedPlacement signatureData image))
                     0 options) /\
        SignResult.signedPDFBuffer result = save drawn)) /\
  (fst (signPDF originalPDFBuffer signatureData w)
   = Thrown (invalidPageIndexMessage pageIndex totalPages)
   <-> (pageIndex < 0 \/ pageIndex >= totalPages)%Z) /\
  mentions (invalidPageIndexMessage pageIndex totalPages) (string_of_Z totalPages).
Proof.
  intros Hload totalPages pageIndex.
  split; [| split; [| apply invalidPageIndexMessage_mentions_count]].
  - intros Hfalsy.
    assert (Hzero : pageIndex = 0%Z) by now apply pageIndexOrZero_falsy.
    split; [exact Hzero |].
    intros Hpages image embedded Hembed.
    unfold signPDF. rewrite Hload. cbv zeta.
    subst pageIndex. rewrite Hzero.
    replace ((0 <? 0) || (0 >=? getPageCount pdfDoc))%Z with false by (subst totalPages; lia).
    rewrite Hembed.
    unfold newDateISOString.
    destruct (isString (World.DEBUG_SIGNATURE_BOX w) "true");
      do 3 eexists; (split; [reflexivity |]); cbn; (split; [reflexivity |]);
      (split; [| reflexivity]).
    + right. eexists. reflexivity.
    + left. reflexivity.
  - unfold signPDF. rewrite Hload. cbv zeta. fold totalPages pageIndex.
    destruct ((pageIndex <? 0) || (pageIndex >=? totalPages))%Z eqn:Hrange.
    + cbn [fst]. split; [intros _; lia | reflexivity].
    + split; [| lia]. intros Hthrown. exfalso.
      destruct (snd (embedSignatureImage _ _ _)) as [[image embedded] | message] eqn:Hembed.
      * unfold newDateISOString in Hthrown. cbn in Hthrown. discriminate.
      * apply embedSignatureImage_thrown in Hembed as (m & ->).
        cbn in Hthrown. unfold invalidPageIndexMessage in Hthrown.
        cbn in Hthrown. discriminate.
Qed.

End PageIndex.

(** A request without [pageIndex] on a blank A4 page: the image is drawn on
    page 0. *)
Lemma signPDF_falsy_pageIndex_witness :
  let request := Toy.request "iVBORw0KGgo=" None PageIndexUndefined in
  let w := Toy.world "2026-01-01T00:00:00.000Z" "2026-01-01T00:00:01.000Z" None in
  exists (result : SignResult.t) (w' : World.t),
    signPDF (lib := Toy.lib) Toy.blankA4 request w = (Returned result, w') /\
    AuditLog.pageIndex (SignResult.auditLog result) = 0%Z /\
    SignResult.signedPDFBuffer result
    = Toy.PdfFile [A4_PAGE]
        [Toy.DrawnImage 0 PNG (Size.mk 256 128)
           (fittedPlacement (lib := Toy.lib) request (Toy.mkImage PNG (Size.mk 256 128)))].
Proof.
  cbv zeta.
  destruct (signPDF_falsy_pageIndex (lib := Toy.lib) Toy.blankA4
              (Toy.request "iVBORw0KGgo=" None PageIndexUndefined)
              (Toy.world "2026-01-01T00:00:00.000Z" "2026-01-01T00:00:01.000Z" None)
              (Toy.mkDocument [A4_PAGE] []) eq_refl) as [Hfalsy _].
  destruct Hfalsy as [_ Hdraws]; [left; reflexivity |].
  destruct (Hdraws eq_refl (Toy.mkImage PNG (Size.mk 256 128)) (Toy.mkDocument [A4_PAGE] [])
              eq_refl) as (result & w' & drawn & Hsign & Hpage & Hdrawn & Hbuffer).
  exists result, w'. repeat split; try assumption.
  rewrite Hbuffer.
  destruct Hdrawn as [-> | [options ->]]; [reflexivity |].
  exfalso. vm_compute in Hsign. injection Hsign as <- <-.
  vm_compute in Hbuffer. discriminate Hbuffer.
Defined.

(** ** Evaluation in binary64

    The concrete inputs used above, run through the same functions over the
    numbers of JavaScript. *)

Section Binary64Evaluation.
Import Floats.
Local Open Scope float_scope.

(** C6, as the claim states it, fails in binary64.  An image of 21 x 19 in a
    box of 21 x 19 has the aspect ratio of the box, so the height is kept and
    the width is [19 * (21 / 19)], which rounds to 21.000000000000004: the
    fitted width exceeds the box width, and the horizontal offset is
    negative. *)
Lemma binary64_fitted_width_exceeds_box :
  let fit := Binary64.calculateFitDimensions 21 19 21 19 in
  Binary64.Fit.height fit = 19 /\
  Binary64.Fit.width fit = 19 * (21 / 19) /\
  (Binary64.Fit.width fit <=? 21) = false /\
  (21 <? Binary64.Fit.width fit) = true /\
  (Binary64.Fit.offsetX fit <? 0) = true.
Proof. vm_compute. repeat split; reflexivity. Qed.

(** What stays exact in binary64: one side of the fitted size is the side
    of the box, bit for bit. *)
Lemma binary64_fit_touches_box (imageWidth imageHeight boxWidth boxHeight : float) :
  let fit := Binary64.calculateFitDimensions imageWidth imageHeight boxWidth boxHeight in
  Binary64.Fit.width fit = boxWidth \/ Binary64.Fit.height fit = boxHeight.
Proof.
  unfold Binary64.calculateFitDimensions. cbv zeta.
  destruct (Binary64.gtb _ _); cbn; [left | right]; reflexivity.
Qed.

(** The scenario of the specification, 256 x 128 into 100 x 100. *)
Lemma binary64_fit_scenario :
  Binary64.calculateFitDimensions 256 128 100 100 = Binary64.Fit.mk 100 50 0 25.
Proof. vm_compute. reflexivity. Qed.

(** The two round-trip tests of the repository pass: [{150, 200, 100, 50}]
    in 1200 x 1600 and [{123.456, 234.567, 89.123, 45.678}] in 1234 x 1567,
    both on an A4 page. *)
#[local] Set Warnings "-inexact-float".
Lemma binary64_roundTrip_tests :
  let roundTrip frontend container :=
    let normalized := Binary64.normalizeFrontendCoordinates frontend container Binary64.A4_PAGE in
    let pdfCoords := Binary64.normalizedToPDFPoints normalized Binary64.A4_PAGE in
    let restored := Binary64.transformPDFToFrontend pdfCoords container Binary64.A4_PAGE in
    Binary64.within1 (Binary64.Rect.x restored) (Binary64.Rect.x frontend)
    && Binary64.within1 (Binary64.Rect.y restored) (Binary64.Rect.y frontend)
    && Binary64.within1 (Binary64.Rect.width restored) (Binary64.Rect.width frontend)
    && Binary64.within1 (Binary64.Rect.height restored) (Binary64.Rect.height frontend) in
  roundTrip (Binary64.Rect.mk 150 200 100 50) (Binary64.Size.mk 1200 1600) = true /\
  roundTrip (Binary64.Rect.mk 123.456 234.567 89.123 45.678) (Binary64.Size.mk 1234 1567) = true.
Proof. vm_compute. split; reflexivity. Qed.

(** The rectangle of width 0 (C2): normalized to width 0 and not valid. *)
Lemma binary64_zero_width_is_invalid :
  let r :=
    Binary64.normalizeFrontendCoordinates
      (Binary64.Rect.mk 10 10 0 20) (Binary64.Size.mk 100 100) (Binary64.Size.mk 100 100) in
  Binary64.Rect.width r = 0 /\ Binary64.isValidNormalizedCoordinate r = false.
Proof. vm_compute. split; reflexivity. Qed.

(** The rectangle beyond the right edge (C7): [x = 0.75], [width = 0.5]. *)
Lemma binary64_right_edge_overflow :
  Binary64.normalizeFrontendCoordinates
    (Binary64.Rect.mk 75 0 50 50) (Binary64.Size.mk 100 100) (Binary64.Size.mk 100 100)
  = Binary64.Rect.mk 0.75 0 0.5 0.5 /\
  0.75 + 0.5 = 1.25.
Proof. vm_compute. split; reflexivity. Qed.

(** The test "Boundary conditions - bottom-right corner": both assertions
    are false. *)
Lemma binary64_bottom_right_corner_test_fails :
  let scale := 1200 / Binary64.A4_WIDTH_POINTS in
  let frontend :=
    Binary64.Rect.mk (Binary64.A4_WIDTH_POINTS * scale - 50)
      (Binary64.A4_HEIGHT_POINTS * scale - 50) 50 50 in
  let normalized :=
    Binary64.normalizeFrontendCoordinates frontend (Binary64.Size.mk 1200 1600)
      Binary64.A4_PAGE in
  (Binary64.Rect.x normalized + Binary64.Rect.width normalized <=? 1) = false /\
  (Binary64.Rect.y normalized + Binary64.Rect.height normalized <=? 1) = false.
Proof. vm_compute. split; reflexivity. Qed.

(** Containers that are not positive (C4): a negative width, a zero width
    and a zero height each give a rectangle; the divisions by zero give
    infinities that the clamp turns into 0 or 1. *)
Lemma binary64_degenerate_container_is_not_refused :
  let frontend := Binary64.Rect.mk 10 120 20 20 in
  let page := Binary64.Size.mk 100 100 in
  Binary64.normalizeFrontendCoordinates frontend (Binary64.Size.mk (-100) 100) page
  = Binary64.Rect.mk 0 0 0 0 /\
  Binary64.normalizeFrontendCoordinates frontend (Binary64.Size.mk 0 100) page
  = Binary64.Rect.mk 1 1 1 1 /\
  Binary64.normalizeFrontendCoordinates frontend (Binary64.Size.mk 100 0) page
  = Binary64.Rect.mk 0 1 1 1.
Proof. vm_compute. repeat split; reflexivity. Qed.

End Binary64Evaluation.

(** * Properties of the remaining code *)

(** ** The fit of the page into the viewport *)



(** ** Independence of the zoom *)







(** ** From normalized coordinates to points *)



(** ** From points to pixels and back *)

(** The other round trip: a rectangle in points that lies on the page, shown
    by [transformPDFToFrontend] and transformed again by
    [transformFrontendToPDF] with the same viewport and page (of positive
    dimensions), comes back unchanged, and nothing is clamped on the way. *)
Theorem transformFrontendToPDF_after_transformPDFToFrontend
    (pdfCoords : Rect.t) (cs ps : Size.t) :
  0 < Size.width cs -> 0 < Size.height cs ->
  0 < Size.width ps -> 0 < Size.height ps ->
  onPage pdfCoords ps ->
  clampsNothing (transformPDFToFrontend pdfCoords cs ps) cs ps /\
  exists t : Transformed.t,
    transformFrontendToPDF (Some (transformPDFToFrontend pdfCoords cs ps)) (Some cs) (Some ps)
    = Returned t /\
    Rect_eq (pdfCoordsOf t) pdfCoords.
Proof.
  intros Hcw Hch Hpw Hph (Hx & Hy & Hw & Hh & Hxw & Hyh).
  pose proof (scaleAndOffsets_scale_pos cs ps Hcw Hch Hpw Hph) as Hs.
  assert (Hraw :
    let n := unclampedNormalized (transformPDFToFrontend pdfCoords cs ps) cs ps in
    Rect.x n == Rect.x pdfCoords / Size.width ps /\
    Rect.y n == (Size.height ps - (Rect.y pdfCoords + Rect.height pdfCoords)) / Size.height ps /\
    Rect.width n == Rect.width pdfCoords / Size.width ps /\
    Rect.height n == Rect.height pdfCoords / Size.height ps).
  { cbv zeta. rewrite unclampedNormalized_fit, transformPDFToFrontend_fit.
    cbn [Rect.x Rect.y Rect.width Rect.height].
    repeat split; field; lra. }
  cbv zeta in Hraw. destruct Hraw as (Rx & Ry & Rw & Rh).
  assert (Bx : 0 <= Rect.x pdfCoords / Size.width ps <= 1).
  { split; [apply Qle_shift_div_l | apply Qle_shift_div_r]; lra. }
  assert (By : 0 <= (Size.height ps - (Rect.y pdfCoords + Rect.height pdfCoords))
                    / Size.height ps <= 1).
  { split; [apply Qle_shift_div_l | apply Qle_shift_div_r]; lra. }
  assert (Bw : 0 <= Rect.width pdfCoords / Size.width ps <= 1).
  { split; [apply Qle_shift_div_l | apply Qle_shift_div_r]; lra. }
  assert (Bh : 0 <= Rect.height pdfCoords / Size.height ps <= 1).
  { split; [apply Qle_shift_div_l | apply Qle_shift_div_r]; lra. }
  assert (Hclamp : clampsNothing (transformPDFToFrontend pdfCoords cs ps) cs ps).
  { unfold clampsNothing. cbv zeta.
    repeat split; apply clamp01_id.
    - now rewrite Rx.
    - now rewrite Ry.
    - now rewrite Rw.
    - now rewrite Rh. }
  split; [exact Hclamp |].
  destruct Hclamp as (Cx & Cy & Cw & Ch).
  unfold transformFrontendToPDF. rewrite normalizeFrontendCoordinates_present.
  eexists. split; [reflexivity |].
  unfold Rect_eq, pdfCoordsOf, normalizedToPDFPoints.
  cbn [Rect.x Rect.y Rect.width Rect.height Transformed.x Transformed.y
       Transformed.width Transformed.height].
  rewrite Cx, Cy, Cw, Ch, Rx, Ry, Rw, Rh.
  repeat split; field; lra.
Qed.

(** A box of 100 x 50 points at (100, 600) on an A4 page, shown in a
    1200 x 1600 viewport. *)
Lemma transformFrontendToPDF_after_transformPDFToFrontend_witness :
  let cs := Size.mk 1200 1600 in
  let box := Rect.mk 100 600 100 50 in
  exists t : Transformed.t,
    transformFrontendToPDF (Some (transformPDFToFrontend box cs A4_PAGE)) (Some cs)
      (Some A4_PAGE) = Returned t /\
    Rect_eq (pdfCoordsOf t) box.
Proof.
  apply (transformFrontendToPDF_after_transformPDFToFrontend
           (Rect.mk 100 600 100 50) (Size.mk 1200 1600) A4_PAGE); try reflexivity.
  unfold onPage. repeat split; vm_compute; congruence.
Defined.

(** ** The fitted image *)

(** The bounds of the fitted size, in exact arithmetic. *)
Lemma calculateFitDimensions_bounds (imageWidth imageHeight boxWidth boxHeight : Q) :
  0 < imageWidth -> 0 < imageHeight -> 0 < boxWidth -> 0 < boxHeight ->
  let fit := calculateFitDimensions imageWidth imageHeight boxWidth boxHeight in
  0 < Fit.width fit /\ 0 < Fit.height fit /\
  Fit.width fit <= boxWidth /\ Fit.height fit <= boxHeight /\
  (Fit.width fit == boxWidth \/ Fit.height fit == boxHeight) /\
  Fit.offsetX fit == (boxWidth - Fit.width fit) / 2 /\
  Fit.offsetY fit == (boxHeight - Fit.height fit) / 2.
Proof.
  intros Hiw Hih Hbw Hbh. unfold calculateFitDimensions. cbv zeta.
  pose proof (Qdiv_pos _ _ Hiw Hih) as Har.
  destruct (Qgtb (imageWidth / imageHeight) (boxWidth / boxHeight)) eqn:Hwider;
    cbn [Fit.width Fit.height Fit.offsetX Fit.offsetY].
  - apply Qgtb_true in Hwider. apply Qdiv_lt_mult in Hwider; [| assumption].
    assert (Hh : boxWidth / (imageWidth / imageHeight) <= boxHeight)
      by (apply Qle_shift_div_r; [assumption | lra]).
    assert (Hhpos : 0 < boxWidth / (imageWidth / imageHeight)) by now apply Qdiv_pos.
    split; [lra |]. split; [exact Hhpos |]. split; [lra |]. split; [exact Hh |].
    split; [left; reflexivity |]. split; reflexivity.
  - apply Qgtb_false in Hwider. apply Qle_div_mult in Hwider; [| assumption].
    assert (Hpos : 0 < boxHeight * (imageWidth / imageHeight))
      by now apply Qmult_lt_0_compat.
    assert (Hw : boxHeight * (imageWidth / imageHeight) <= boxWidth)
      by (rewrite Qmult_comm; exact Hwider).
    split; [exact Hpos |]. split; [lra |]. split; [exact Hw |]. split; [lra |].
    split; [right; reflexivity |]. split; reflexivity.
Qed.

(** The fitted image is centred in the box: for positive image and box
    dimensions (in exact arithmetic) the two offsets of
    [calculateFitDimensions] are not negative, one of them is 0, and the
    fitted width (height) plus twice the horizontal (vertical) offset is the
    box width (height). *)
Theorem calculateFitDimensions_centres (imageWidth imageHeight boxWidth boxHeight : Q) :
  0 < imageWidth -> 0 < imageHeight -> 0 < boxWidth -> 0 < boxHeight ->
  let fit := calculateFitDimensions imageWidth imageHeight boxWidth boxHeight in
  0 <= Fit.offsetX fit /\ 0 <= Fit.offsetY fit /\
  (Fit.offsetX fit == 0 \/ Fit.offsetY fit == 0) /\
  2 * Fit.offsetX fit + Fit.width fit == boxWidth /\
  2 * Fit.offsetY fit + Fit.height fit == boxHeight.
Proof.
  intros Hiw Hih Hbw Hbh fit.
  destruct (calculateFitDimensions_bounds _ _ _ _ Hiw Hih Hbw Hbh)
    as (_ & _ & Hw & Hh & Htouch & Hox & Hoy).
  fold fit in Hw, Hh, Htouch, Hox, Hoy.
  rewrite Hox, Hoy.
  repeat split.
  - apply Qle_shift_div_l; [reflexivity | lra].
  - apply Qle_shift_div_l; [reflexivity | lra].
  - destruct Htouch as [H | H]; [left | right]; rewrite H; field.
  - field.
  - field.
Qed.

(** A portrait image of 100 x 200 in a box of 100 x 100: fitted to 50 x 100
    and moved right by 25. *)
Lemma calculateFitDimensions_centres_witness :
  let fit := calculateFitDimensions 100 200 100 100 in
  (0 <= Fit.offsetX fit /\ 0 <= Fit.offsetY fit /\
   (Fit.offsetX fit == 0 \/ Fit.offsetY fit == 0) /\
   2 * Fit.offsetX fit + Fit.width fit == 100 /\
   2 * Fit.offsetY fit + Fit.height fit == 100) /\
  Fit.offsetX fit == 25 /\ Fit.width fit == 50.
Proof.
  split.
  - apply (calculateFitDimensions_centres 100 200 100 100); reflexivity.
  - vm_compute. split; reflexivity.
Defined.

(** ** What [signPDF] returns and how it fails *)

Section SignerOutcomes.
Context `{lib : PdfLib}.

(** Everything a returned [signPDF] went through. *)
Lemma signPDF_returned_inv
    (originalPDFBuffer : Buffer) (signatureData : SignatureData.t) (w w' : World.t)
    (result : SignResult.t) :
  signPDF originalPDFBuffer signatureData w = (Returned result, w') ->
  exists (pdfDoc embedded : PDFDocument) (image : PDFImage),
    let pageIndex := pageIndexOrZero (SignatureData.pageIndex signatureData) in
    let fit :=
      calculateFitDimensions (Size.width (scale1 image)) (Size.height (scale1 image))
        (SignatureData.width signatureData) (SignatureData.height signatureData) in
    load originalPDFBuffer = Returned pdfDoc /\
    (0 <= pageIndex < getPageCount pdfDoc)%Z /\
    snd (embedSignatureImage pdfDoc signatureData
           (base64ToBuffer (SignatureData.image signatureData))) = Returned (image, embedded) /\
    SignResult.signedPDFBuffer result
    = save (drawnDocument signatureData w embedded image pageIndex) /\
    SignResult.originalHash result = computeSHA256 originalPDFBuffer /\
    SignResult.signedHash result = computeSHA256 (SignResult.signedPDFBuffer result) /\
    SignResult.auditLog result
    = {| AuditLog.timestamp := World.wallClock w (World.reads w);
         AuditLog.originalHash := computeSHA256 originalPDFBuffer;
         AuditLog.signedHash := computeSHA256 (SignResult.signedPDFBuffer result);
         AuditLog.pageIndex := pageIndex;
         AuditLog.pageSize :=
           {| Size.width := Size.width (getSize pdfDoc pageIndex);
              Size.height := Size.height (getSize pdfDoc pageIndex) |};
         AuditLog.signatureBox := requestBox signatureData;
         AuditLog.imageInfo :=
           {| ImageInfo.originalWidth := Size.width (scale1 image);
              ImageInfo.originalHeight := Size.height (scale1 image);
              ImageInfo.fitWidth := Fit.width fit;
              ImageInfo.fitHeight := Fit.height fit;
              ImageInfo.offsetX := Fit.offsetX fit;
              ImageInfo.offsetY := Fit.offsetY fit |};
         AuditLog.metadata :=
           match SignatureData.metadata signatureData with
           | Some m => m
           | None => []
           end |} /\
    w' = snd (newDateISOString w).
Proof.
  unfold signPDF. intros H.
  destruct (load originalPDFBuffer) as [pdfDoc | m]; [| discriminate].
  cbv zeta in H.
  destruct ((_ <? 0) || (_ >=? _))%Z eqn:Hrange; [discriminate |].
  destruct (snd (embedSignatureImage _ _ _)) as [[image embedded] | m] eqn:Hembed;
    [| discriminate].
  unfold newDateISOString in H. injection H as <- <-.
  exists pdfDoc, embedded, image. cbv zeta.
  split; [reflexivity |]. split; [lia |]. split; [exact Hembed |].
  unfold drawnDocument, fittedPlacement, requestBox, newDateISOString. cbv zeta. cbn [snd].
  cbn [SignResult.signedPDFBuffer SignResult.originalHash SignResult.signedHash
       SignResult.auditLog].
  destruct (isString (World.DEBUG_SIGNATURE_BOX w) "true"); repeat split; reflexivity.
Qed.


(** The image is drawn inside the box of the request.  When [signPDF]
    returns, the returned buffer is the saved document on which the embedded
    image was drawn at the fitted placement; for an image and a box of
    positive dimensions (in exact arithmetic) that placement lies in the box
    of the request, has the aspect ratio of the image, and leaves the same
    room on the left as on the right and below as above. *)
Theorem signPDF_draws_inside_the_box
    (originalPDFBuffer : Buffer) (signatureData : SignatureData.t) (w w' : World.t)
    (result : SignResult.t) :
  signPDF originalPDFBuffer signatureData w = (Returned result, w') ->
  exists (embedded : PDFDocument) (image : PDFImage),
    let pageIndex := pageIndexOrZero (SignatureData.pageIndex signatureData) in
    let placed := fittedPlacement signatureData image in
    let box := requestBox signatureData in
    SignResult.signedPDFBuffer result
    = save (drawnDocument signatureData w embedded image pageIndex) /\
    (0 < Size.width (scale1 image) -> 0 < Size.height (scale1 image) ->
     0 < Rect.width box -> 0 < Rect.height box ->
     insideRect placed box /\
     Rect.width placed / Rect.height placed
     == Size.width (scale1 image) / Size.height (scale1 image) /\
     Rect.x placed - Rect.x box
     == Rect.x box + Rect.width box - (Rect.x placed + Rect.width placed) /\
     Rect.y placed - Rect.y box
     == Rect.y box + Rect.height box - (Rect.y placed + Rect.height placed)).
Proof.
  intros H.
  destruct (signPDF_returned_inv _ _ _ _ _ H)
    as (pdfDoc & embedded & image & _ & _ & _ & Hbuffer & _).
  exists embedded, image. cbv zeta. split; [exact Hbuffer |].
  unfold requestBox, fittedPlacement, insideRect. cbv zeta.
  cbn [Rect.x Rect.y Rect.width Rect.height].
  intros Hiw Hih Hbw Hbh.
  destruct (calculateFitDimensions_bounds _ _ _ _ Hiw Hih Hbw Hbh)
    as (Hfw & Hfh & Hw & Hh & _ & Hox & Hoy).
  destruct (calculateFitDimensions_aspect _ _ _ _ Hiw Hih Hbw Hbh) as [_ Haspect].
  cbv zeta in Hfw, Hfh, Hw, Hh, Hox, Hoy, Haspect.
  set (fit := calculateFitDimensions _ _ _ _) in *.
  assert (Hox0 : 0 <= Fit.offsetX fit)
    by (rewrite Hox; apply Qle_shift_div_l; [reflexivity | lra]).
  assert (Hoy0 : 0 <= Fit.offsetY fit)
    by (rewrite Hoy; apply Qle_shift_div_l; [reflexivity | lra]).
  assert (Hcx : 2 * Fit.offsetX fit + Fit.width fit == SignatureData.width signatureData)
    by (rewrite Hox; field).
  assert (Hcy : 2 * Fit.offsetY fit + Fit.height fit == SignatureData.height signatureData)
    by (rewrite Hoy; field).
  repeat split; lra.
Qed.

End SignerOutcomes.

(** A request without [pageIndex] on a blank A4 page. *)
Lemma signPDF_draws_inside_the_box_witness :
  let request := Toy.request "iVBORw0KGgo=" None PageIndexUndefined in
  let w := Toy.world "2026-01-01T00:00:00.000Z" "2026-01-01T00:00:01.000Z" None in
  match signPDF (lib := Toy.lib) Toy.blankA4 request w with
  | (Returned result, _) =>
      exists (embedded : Toy.document) (image : Toy.image),
        SignResult.signedPDFBuffer result
        = save (drawnDocument (lib := Toy.lib) request w embedded image 0) /\
        (0 < Size.width (Toy.imageSize image) -> 0 < Size.height (Toy.imageSize image) ->
         insideRect (fittedPlacement (lib := Toy.lib) request image) (requestBox request))
  | (Thrown _, _) => False
  end.
Proof.
  cbv zeta.
  destruct (signPDF (lib := Toy.lib) Toy.blankA4
              (Toy.request "iVBORw0KGgo=" None PageIndexUndefined)
              (Toy.world "2026-01-01T00:00:00.000Z" "2026-01-01T00:00:01.000Z" None))
    as [[result | message] w'] eqn:Hsign; [| vm_compute in Hsign; discriminate Hsign].
  destruct (signPDF_draws_inside_the_box (lib := Toy.lib) _ _ _ _ _ Hsign)
    as (embedded & image & Hbuffer & Hinside).
  exists embedded, image. split; [exact Hbuffer |].
  intros Hw Hh. apply Hinside; try assumption; reflexivity.
Defined.

Section SignerResults.
Context `{lib : PdfLib}.



End SignerResults.


(** ** The header of a data URI *)

Lemma substring_whole (s : string) : substring 0 (String.length s) s = s.
Proof. induction s as [| c s IH]; cbn; [reflexivity | now rewrite IH]. Qed.

Lemma stripPrefix_app (p s : string) : stripPrefix p (p ++ s) = Some s.
Proof.
  unfold stripPrefix. induction p as [| c p IH]; cbn.
  - destruct s as [| a s]; cbn; [reflexivity |]. now rewrite substring_whole.
  - destruct (ascii_dec c c) as [_ | Hne]; [| congruence]. exact IH.
Qed.

Lemma dropWord_word (word rest : string) :
  allWordChars word = true ->
  (forall c r, rest = String c r -> isWordChar c = false) ->
  dropWord (word ++ rest) = (String.length word, rest).
Proof.
  intros Hword Hrest. induction word as [| c word IH]; cbn [append dropWord String.length].
  - destruct rest as [| c r]; [reflexivity |]. cbn [dropWord].
    now rewrite (Hrest c r eq_refl).
  - cbn [allWordChars] in Hword. apply andb_true_iff in Hword as [Hc Hword].
    rewrite Hc, (IH Hword). reflexivity.
Qed.

Section DataUri.
Context `{lib : PdfLib}.

(** [base64ToBuffer] decodes what follows the header of a data URI: for a
    string [data:image/<subtype>;base64,<payload>] whose subtype is a
    non-empty run of letters, digits and underscores and whose payload holds
    no line break, the buffer is the base64 decoding of the payload alone.  A
    string that does not start with [data:image/] is decoded as a whole. *)
Theorem base64ToBuffer_strips_the_header (subtype payload : string) :
  subtype <> EmptyString ->
  allWordChars subtype = true ->
  noLineBreak payload = true ->
  base64ToBuffer ("data:image/" ++ subtype ++ ";base64," ++ payload)
  = bufferFromBase64 payload /\
  (forall s : string,
     prefix "data:image/" s = false -> base64ToBuffer s = bufferFromBase64 s).
Proof.
  intros Hne Hword Hline. split.
  - unfold base64ToBuffer, dataUriPayload. cbv zeta.
    rewrite stripPrefix_app.
    rewrite (dropWord_word subtype (";base64," ++ payload) Hword);
      [| intros c r [= <- _]; reflexivity].
    destruct subtype as [| c subtype]; [congruence |]. cbn [String.length].
    rewrite stripPrefix_app, Hline. reflexivity.
  - intros s Hprefix. unfold base64ToBuffer, dataUriPayload, stripPrefix. cbv zeta.
    now rewrite Hprefix.
Qed.

End DataUri.

(** The data URI a canvas produces for a PNG. *)
Lemma base64ToBuffer_strips_the_header_witness :
  base64ToBuffer (lib := Toy.lib) "data:image/png;base64,iVBORw0KGgo="
  = Toy.ImageFile PNG (Size.mk 256 128).
Proof.
  destruct (base64ToBuffer_strips_the_header (lib := Toy.lib) "png" "iVBORw0KGgo=")
    as [Hstrip _]; [discriminate | reflexivity | reflexivity |].
  cbn [append] in Hstrip. rewrite Hstrip. reflexivity.
Defined.

(** ** Several signatures *)

Section MultipleSignatures.
Context `{lib : PdfLib}.

(** The trail the loop starts with is only carried along. *)
Lemma signLoop_trail (signatures : list SignatureData.t) :
  forall (currentBuffer : Buffer) (auditTrail : list AuditLog.t) (w : World.t),
    signLoop signatures currentBuffer auditTrail w =
    match signLoop signatures currentBuffer [] w with
    | (Returned (finalBuffer, trail), w') => (Returned (finalBuffer, auditTrail ++ trail), w')
    | (Thrown message, w') => (Thrown message, w')
    end.
Proof.
  induction signatures as [| sig rest IH]; intros currentBuffer auditTrail w; cbn [signLoop].
  - now rewrite app_nil_r.
  - destruct (signPDF currentBuffer sig w) as [[result | message] w1]; [| reflexivity].
    rewrite (IH _ (auditTrail ++ [SignResult.auditLog result])).
    rewrite (IH _ ([] ++ [SignResult.auditLog result])).
    destruct (signLoop rest _ [] w1) as [[[finalBuffer trail] | message] w'];
      [| reflexivity].
    now rewrite <- app_assoc.
Qed.

(** The loop over two lists one after the other. *)
Lemma signLoop_app (first second : list SignatureData.t) :
  forall (currentBuffer : Buffer) (auditTrail : list AuditLog.t) (w : World.t),
    signLoop (first ++ second) currentBuffer auditTrail w =
    match signLoop first currentBuffer auditTrail w with
    | (Returned (middleBuffer, trail), w1) => signLoop second middleBuffer trail w1
    | (Thrown message, w1) => (Thrown message, w1)
    end.
Proof.
  induction first as [| sig rest IH]; intros currentBuffer auditTrail w;
    cbn [signLoop app]; [reflexivity |].
  destruct (signPDF currentBuffer sig w) as [[result | message] w1]; [| reflexivity].
  apply IH.
Qed.

(** What a returned [signPDFMultiple] went through. *)
Lemma signPDFMultiple_returned_inv
    (originalPDFBuffer : Buffer) (signatures : list SignatureData.t) (w w' : World.t)
    (result : MultiResult.t) :
  signPDFMultiple originalPDFBuffer signatures w = (Returned result, w') ->
  overlaySteps originalPDFBuffer signatures w
    (MultiResult.signedPDFBuffer result) (MultiResult.auditTrail result) w' /\
  MultiResult.originalHash result = computeSHA256 originalPDFBuffer /\
  MultiResult.signedHash result = computeSHA256 (MultiResult.signedPDFBuffer result).
Proof.
  unfold signPDFMultiple. cbv zeta. intros H.
  pose proof (signLoop_sequential signatures originalPDFBuffer [] w) as Hloop.
  destruct (signLoop signatures originalPDFBuffer [] w) as [[[finalBuffer trail] | message] wl];
    [| discriminate].
  injection H as <- <-. destruct Hloop as (logs & Hsteps & ->).
  repeat split. exact Hsteps.
Qed.

(** The logs of steps applied one after the other form a chain of digests,
    one clock reading is taken per step, and the time stamps are the
    successive readings. *)
Lemma overlaySteps_chain
    (b b' : Buffer) (ps : list SignatureData.t) (w w' : World.t) (logs : list AuditLog.t) :
  overlaySteps b ps w b' logs w' ->
  chained (computeSHA256 b) logs (computeSHA256 b') /\
  World.reads w' = (World.reads w + List.length ps)%nat /\
  World.wallClock w' = World.wallClock w /\
  (forall (i : nat) (a : AuditLog.t),
     nth_error logs i = Some a ->
     AuditLog.timestamp a = World.wallClock w (World.reads w + i)%nat).
Proof.
  induction 1 as [| b p ps w w1 w' r b' logs Hstep Hrest (IHchain & IHreads & IHclock & IHstamp)].
  - repeat split; cbn; try lia. intros [| i] a; discriminate.
  - destruct (signPDF_returned_inv _ _ _ _ _ Hstep)
      as (pdfDoc & embedded & image & _ & _ & _ & _ & Horig & Hsigned & Hlog & ->).
    cbv zeta in Hlog. unfold newDateISOString in *.
    cbn [snd World.reads World.wallClock] in *.
    split; [| split; [| split]].
    + cbn [chained]. rewrite Hlog. cbn [AuditLog.originalHash AuditLog.signedHash].
      split; [reflexivity | exact IHchain].
    + rewrite IHreads. cbn [List.length]. lia.
    + exact IHclock.
    + intros [| i] a; cbn [nth_error].
      * intros [= <-]. rewrite Hlog. cbn [AuditLog.timestamp]. f_equal. lia.
      * intros Ha. rewrite (IHstamp i a Ha). f_equal. lia.
Qed.

(** With no signature [signPDFMultiple] returns the buffer it was given,
    its digest twice and an empty trail, and reads no clock; with one
    signature it returns what [signPDF] returns for it (buffer, digests and
    the one audit log), or throws what [signPDF] throws. *)
Theorem signPDFMultiple_none_and_one
    (originalPDFBuffer : Buffer) (signatureData : SignatureData.t) (w : World.t) :
  signPDFMultiple originalPDFBuffer [] w
  = (Returned
       {| MultiResult.signedPDFBuffer := originalPDFBuffer;
          MultiResult.originalHash := computeSHA256 originalPDFBuffer;
          MultiResult.signedHash := computeSHA256 originalPDFBuffer;
          MultiResult.auditTrail := [] |}, w) /\
  match signPDF originalPDFBuffer signatureData w with
  | (Returned result, w') =>
      signPDFMultiple originalPDFBuffer [signatureData] w
      = (Returned
           {| MultiResult.signedPDFBuffer := SignResult.signedPDFBuffer result;
              MultiResult.originalHash := SignResult.originalHash result;
              MultiResult.signedHash := SignResult.signedHash result;
              MultiResult.auditTrail := [SignResult.auditLog result] |}, w')
  | (Thrown message, w') =>
      signPDFMultiple originalPDFBuffer [signatureData] w = (Thrown message, w')
  end.
Proof.
  split; [reflexivity |].
  destruct (signPDF originalPDFBuffer signatureData w) as [[result | message] w'] eqn:Hsign.
  - destruct (signPDF_returned_inv _ _ _ _ _ Hsign)
      as (_ & _ & _ & _ & _ & _ & _ & Horig & Hsigned & _).
    unfold signPDFMultiple. cbn [signLoop]. rewrite Hsign. cbn [app].
    now rewrite Horig, Hsigned.
  - unfold signPDFMultiple. cbn [signLoop]. now rewrite Hsign.
Qed.

(** Signing with two lists of signatures one after the other is signing
    with the first list and then, on the buffer that gave, with the second:
    the buffer and the final digest are those of the second run, the
    original digest is that of the first, and the trail is the trail of the
    first followed by the trail of the second.  A failure in either run is
    the failure of the whole. *)
Theorem signPDFMultiple_app
    (originalPDFBuffer : Buffer) (first second : list SignatureData.t) (w : World.t) :
  match signPDFMultiple originalPDFBuffer first w with
  | (Thrown message, w1) =>
      signPDFMultiple originalPDFBuffer (first ++ second) w = (Thrown message, w1)
  | (Returned r1, w1) =>
      match signPDFMultiple (MultiResult.signedPDFBuffer r1) second w1 with
      | (Thrown message, w2) =>
          signPDFMultiple originalPDFBuffer (first ++ second) w = (Thrown message, w2)
      | (Returned r2, w2) =>
          signPDFMultiple originalPDFBuffer (first ++ second) w
          = (Returned
               {| MultiResult.signedPDFBuffer := MultiResult.signedPDFBuffer r2;
                  MultiResult.originalHash := MultiResult.originalHash r1;
                  MultiResult.signedHash := MultiResult.signedHash r2;
                  MultiResult.auditTrail :=
                    MultiResult.auditTrail r1 ++ MultiResult.auditTrail r2 |}, w2)
      end
  end.
Proof.
  unfold signPDFMultiple. cbv zeta. rewrite signLoop_app.
  destruct (signLoop first originalPDFBuffer [] w) as [[[middle trail1] | message] w1];
    [| reflexivity].
  cbn [MultiResult.signedPDFBuffer]. rewrite (signLoop_trail second middle trail1).
  destruct (signLoop second middle [] w1) as [[[final trail2] | message] w2]; reflexivity.
Qed.

(** The audit trail is a chain.  When [signPDFMultiple] returns, the first
    audit log starts from the original digest of the result, every further
    log starts from the signed digest of the log before it, and the last
    log ends with the signed digest of the result (for an empty trail the two
    digests of the result are the same); there is one log per signature. *)
Theorem signPDFMultiple_trail_is_chained
    (originalPDFBuffer : Buffer) (signatures : list SignatureData.t) (w w' : World.t)
    (result : MultiResult.t) :
  signPDFMultiple originalPDFBuffer signatures w = (Returned result, w') ->
  chained (MultiResult.originalHash result) (MultiResult.auditTrail result)
    (MultiResult.signedHash result) /\
  List.length (MultiResult.auditTrail result) = List.length signatures.
Proof.
  intros H. destruct (signPDFMultiple_returned_inv _ _ _ _ _ H) as (Hsteps & -> & ->).
  split.
  - now apply (overlaySteps_chain _ _ _ _ _ _ Hsteps).
  - eapply overlaySteps_length. exact Hsteps.
Qed.


End MultipleSignatures.

(** A PNG and then a JPEG on a blank A4 page. *)
Lemma signPDFMultiple_trail_is_chained_witness :
  let signatures :=
    [Toy.request "iVBORw0KGgo=" None PageIndexUndefined;
     Toy.request "/9j/4AAQSkZJRg==" None PageIndexNull] in
  let w := Toy.world "2026-01-01T00:00:00.000Z" "2026-01-01T00:00:01.000Z" None in
  match signPDFMultiple (lib := Toy.lib) Toy.blankA4 signatures w with
  | (Returned result, _) =>
      chained (MultiResult.originalHash result) (MultiResult.auditTrail result)
        (MultiResult.signedHash result) /\
      List.length (MultiResult.auditTrail result) = 2%nat
  | (Thrown _, _) => False
  end.
Proof.
  cbv zeta.
  destruct (signPDFMultiple (lib := Toy.lib) Toy.blankA4
              [Toy.request "iVBORw0KGgo=" None PageIndexUndefined;
               Toy.request "/9j/4AAQSkZJRg==" None PageIndexNull]
              (Toy.world "2026-01-01T00:00:00.000Z" "2026-01-01T00:00:01.000Z" None))
    as [[result | message] w'] eqn:Hsign; [| vm_compute in Hsign; discriminate Hsign].
  exact (signPDFMultiple_trail_is_chained (lib := Toy.lib) _ _ _ _ _ Hsign).
Defined.


Local Open Scope string_scope.
(** ** The audit store *)

Lemma ltb_irreflexive (a : string) : String.ltb a a = false.
Proof.
  unfold String.ltb. destruct (String.compare a a) eqn:H; try reflexivity.
  pose proof (String.compare_antisym a a) as Hanti. rewrite H in Hanti. discriminate Hanti.
Qed.

Lemma ltb_asymmetric (a b : string) : String.ltb a b = true -> String.ltb b a = false.
Proof.
  unfold String.ltb. rewrite (String.compare_antisym a b).
  destruct (String.compare b a); cbn; congruence.
Qed.

Lemma ltb_lt (a b : string) : String.ltb a b = true <-> OrderedTypeEx.String_as_OT.lt a b.
Proof.
  rewrite <- OrderedTypeEx.String_as_OT.cmp_lt. unfold String.ltb, OrderedTypeEx.String_as_OT.cmp.
  destruct (String.compare a b); split; congruence.
Qed.

(** [b] no later than [a], and [c] no later than [b]: [c] no later than [a]. *)
Lemma not_ltb_transitive (a b c : string) :
  String.ltb a b = false -> String.ltb b c = false -> String.ltb a c = false.
Proof.
  intros Hab Hbc. destruct (String.ltb a c) eqn:Hac; [| reflexivity].
  destruct (String.compare b c) eqn:Hcmp.
  - apply String.compare_eq_iff in Hcmp. subst c. congruence.
  - unfold String.ltb in Hbc. rewrite Hcmp in Hbc. discriminate Hbc.
  - assert (Hcb : String.ltb c b = true).
    { unfold String.ltb. rewrite String.compare_antisym, Hcmp. reflexivity. }
    apply ltb_lt in Hac. apply ltb_lt in Hcb.
    pose proof (OrderedTypeEx.String_as_OT.lt_trans _ _ _ Hac Hcb) as Habt.
    apply ltb_lt in Habt. congruence.
Qed.

Lemma newest_None (l : list AuditEntry.t) : newest l = None <-> l = [].
Proof.
  destruct l as [| e rest]; cbn; [tauto |].
  split; [| discriminate].
  destruct (newest rest) as [later |]; [| discriminate].
  destruct (String.ltb _ _); discriminate.
Qed.

Lemma newest_In (l : list AuditEntry.t) (e : AuditEntry.t) : newest l = Some e -> In e l.
Proof.
  revert e. induction l as [| e0 rest IH]; cbn; intros e H; [discriminate H |].
  destruct (newest rest) as [later |].
  - destruct (String.ltb _ _); injection H as <-; [right; apply IH; reflexivity | left; reflexivity].
  - injection H as <-. left. reflexivity.
Qed.

(** No entry of the list was created later than the one [newest] takes. *)
Lemma newest_latest (l : list AuditEntry.t) (e : AuditEntry.t) :
  newest l = Some e ->
  forall e', In e' l -> String.ltb (AuditEntry.createdAt e) (AuditEntry.createdAt e') = false.
Proof.
  revert e. induction l as [| e0 rest IH]; cbn; intros e H e' Hin; [contradiction |].
  destruct (newest rest) as [later |] eqn:Hrest.
  - destruct (String.ltb (AuditEntry.createdAt e0) (AuditEntry.createdAt later)) eqn:Hlt;
      injection H as <-.
    + destruct Hin as [<- | Hin]; [apply ltb_asymmetric; exact Hlt | apply (IH _ eq_refl _ Hin)].
    + destruct Hin as [<- | Hin]; [apply ltb_irreflexive |].
      eapply not_ltb_transitive; [exact Hlt | apply (IH _ eq_refl _ Hin)].
  - apply newest_None in Hrest. subst rest. injection H as <-.
    destruct Hin as [<- | []]. apply ltb_irreflexive.
Qed.

(** An entry later than all the others of its document is the one taken. *)
Lemma newest_app_later (l : list AuditEntry.t) (e : AuditEntry.t) :
  (forall e', In e' l ->
     String.ltb (AuditEntry.createdAt e') (AuditEntry.createdAt e) = true) ->
  newest (l ++ [e]) = Some e.
Proof.
  induction l as [| e0 rest IH]; cbn; intros H; [reflexivity |].
  rewrite IH by (intros e' Hin; apply H; right; exact Hin).
  rewrite (H e0) by (left; reflexivity). reflexivity.
Qed.

Lemma filter_nil_iff {A : Type} (p : A -> bool) (l : list A) :
  filter p l = [] <-> forall a, In a l -> p a = false.
Proof.
  induction l as [| a rest IH]; cbn.
  - split; [intros _ a [] | reflexivity].
  - destruct (p a) eqn:Hp; split.
    + discriminate.
    + intros H. specialize (H a (or_introl eq_refl)). congruence.
    + intros H b [<- | Hin]; [exact Hp | apply IH; assumption].
    + intros H. apply IH. intros b Hin. apply H. right. exact Hin.
Qed.

(** What [verifyIntegrity] does when the document has an entry. *)
Lemma verifyIntegrity_found
    (documentId currentHash : string) (c : Collection) (w : World.t)
    (latestEntry : AuditEntry.t) :
  newest (filter (hasDocumentId documentId) c) = Some latestEntry ->
  let isValid := String.eqb (AuditEntry.signedHash latestEntry) currentHash in
  verifyIntegrity documentId currentHash c w
  = ({| IntegrityResult.status := if isValid then "valid" else "tampered";
        IntegrityResult.message :=
          if isValid then "Document signature is valid"
          else "Document has been tampered with";
        IntegrityResult.details :=
          Some (AuditEntry.originalHash latestEntry, AuditEntry.signedHash latestEntry,
                currentHash, AuditEntry.createdAt latestEntry,
                World.wallClock w (2 + World.reads w)) |},
     pushVerification (AuditEntry._id latestEntry)
       {| Verification.verifiedAt := World.wallClock w (World.reads w);
          Verification.verifiedBy := "system";
          Verification.status := if isValid then "valid" else "invalid";
          Verification.hash := currentHash |}
       (if isValid then "valid" else "tampered")
       (World.wallClock w (1 + World.reads w)) c,
     {| World.wallClock := World.wallClock w;
        World.reads := 3 + World.reads w;
        World.DEBUG_SIGNATURE_BOX := World.DEBUG_SIGNATURE_BOX w |}).
Proof.
  intros H. unfold verifyIntegrity. rewrite H. reflexivity.
Qed.

Lemma verifyIntegrity_none
    (documentId currentHash : string) (c : Collection) (w : World.t) :
  newest (filter (hasDocumentId documentId) c) = None ->
  verifyIntegrity documentId currentHash c w
  = ({| IntegrityResult.status := "not_found";
        IntegrityResult.message := "No audit log found for this document";
        IntegrityResult.details := None |}, c, w).
Proof.
  intros H. unfold verifyIntegrity. rewrite H. reflexivity.
Qed.

Lemma pushVerification_length
    (id : nat) (v : Verification.t) (s u : string) (c : Collection) :
  List.length (pushVerification id v s u c) = List.length c.
Proof.
  induction c as [| e rest IH]; cbn; [reflexivity |].
  destruct (Nat.eqb _ _); cbn; [reflexivity | rewrite IH; reflexivity].
Qed.

Lemma pushVerification_signedRecord
    (id : nat) (v : Verification.t) (s u : string) (c : Collection) :
  map signedRecord (pushVerification id v s u c) = map signedRecord c.
Proof.
  induction c as [| e rest IH]; cbn; [reflexivity |].
  destruct (Nat.eqb _ _); cbn; [reflexivity | rewrite IH; reflexivity].
Qed.

(** With distinct [_id]s, the update changes the document at position [id]
    and nothing else. *)
Lemma pushVerification_nth
    (v : Verification.t) (s u : string) (c : Collection) (k i : nat) (e : AuditEntry.t) :
  (forall j e', nth_error c j = Some e' -> AuditEntry._id e' = k + j)%nat ->
  nth_error c i = Some e ->
  nth_error (pushVerification (k + i) v s u c) i = Some (checkedEntry v s u e) /\
  forall j, j <> i ->
    nth_error (pushVerification (k + i) v s u c) j = nth_error c j.
Proof.
  revert k i. induction c as [| e0 rest IH]; intros k i Hids Hi.
  - destruct i; discriminate Hi.
  - cbn [pushVerification]. rewrite (Hids 0%nat e0 eq_refl).
    destruct i as [| i].
    + injection Hi as ->. rewrite Nat.add_0_r, Nat.eqb_refl. split; [reflexivity |].
      intros [| j] Hj; [congruence | reflexivity].
    + replace (Nat.eqb (k + 0) (k + S i)) with false
        by (symmetry; apply Nat.eqb_neq; lia).
      replace (k + S i)%nat with (S k + i)%nat by lia.
      destruct (IH (S k) i) as [Hat Helse].
      * intros j e' Hj. rewrite (Hids (S j) e' Hj). lia.
      * exact Hi.
      * split; [exact Hat |].
        intros [| j] Hj; [reflexivity |]. cbn. apply Helse. congruence.
Qed.

Lemma signedRecord_hasDocumentId (documentId : string) (e e' : AuditEntry.t) :
  signedRecord e = signedRecord e' ->
  hasDocumentId documentId e = hasDocumentId documentId e'.
Proof.
  unfold signedRecord, hasDocumentId. intros H. injection H as _ Hd _ _ _ _ _ _ _ _ _.
  rewrite Hd. reflexivity.
Qed.

Lemma filter_signedRecord (documentId : string) (l l' : list AuditEntry.t) :
  map signedRecord l = map signedRecord l' ->
  map signedRecord (filter (hasDocumentId documentId) l)
  = map signedRecord (filter (hasDocumentId documentId) l').
Proof.
  revert l'. induction l as [| e rest IH]; intros [| e' rest'] H; try discriminate H;
    [reflexivity |].
  cbn [map] in H.
  assert (He : signedRecord e = signedRecord e') by congruence.
  assert (Hrest : map signedRecord rest = map signedRecord rest') by congruence.
  cbn [filter].
  rewrite (signedRecord_hasDocumentId documentId e e' He).
  destruct (hasDocumentId documentId e'); cbn [map]; [rewrite He; f_equal |]; apply IH; exact Hrest.
Qed.

Lemma newest_signedRecord (l l' : list AuditEntry.t) :
  map signedRecord l = map signedRecord l' ->
  option_map signedRecord (newest l) = option_map signedRecord (newest l').
Proof.
  revert l'. induction l as [| e rest IH]; intros [| e' rest'] H; try discriminate H;
    [reflexivity |].
  cbn [map] in H.
  assert (He : signedRecord e = signedRecord e') by congruence.
  assert (Hrest : map signedRecord rest = map signedRecord rest') by congruence.
  specialize (IH rest' Hrest). cbn [newest].
  destruct (newest rest) as [later |], (newest rest') as [later' |]; try discriminate IH.
  - cbn [option_map] in IH.
    assert (Hlater : signedRecord later = signedRecord later') by congruence.
    assert (Hc : AuditEntry.createdAt e = AuditEntry.createdAt e') by
      (unfold signedRecord in He; congruence).
    assert (Hl : AuditEntry.createdAt later = AuditEntry.createdAt later') by
      (unfold signedRecord in Hlater; congruence).
    rewrite Hc, Hl. destruct (String.ltb _ _); cbn [option_map]; congruence.
  - cbn [option_map]. congruence.
Qed.

(** The verdict depends on the signed records only. *)
Lemma verifyIntegrity_signedRecord
    (documentId currentHash : string) (c c' : Collection) (w w' : World.t) :
  map signedRecord c = map signedRecord c' ->
  IntegrityResult.status (fst (fst (verifyIntegrity documentId currentHash c w)))
  = IntegrityResult.status (fst (fst (verifyIntegrity documentId currentHash c' w'))) /\
  IntegrityResult.message (fst (fst (verifyIntegrity documentId currentHash c w)))
  = IntegrityResult.message (fst (fst (verifyIntegrity documentId currentHash c' w'))).
Proof.
  intros H.
  pose proof (newest_signedRecord _ _ (filter_signedRecord documentId _ _ H)) as Hn.
  destruct (newest (filter (hasDocumentId documentId) c)) as [e |] eqn:He,
           (newest (filter (hasDocumentId documentId) c')) as [e' |] eqn:He';
    try discriminate Hn.
  - rewrite (verifyIntegrity_found _ currentHash _ w _ He),
            (verifyIntegrity_found _ currentHash _ w' _ He').
    cbn [option_map] in Hn.
    assert (Hrec : signedRecord e = signedRecord e') by congruence.
    assert (Hs : AuditEntry.signedHash e = AuditEntry.signedHash e') by
      (unfold signedRecord in Hrec; congruence).
    cbn. rewrite Hs. split; reflexivity.
  - rewrite (verifyIntegrity_none _ currentHash _ w He),
            (verifyIntegrity_none _ currentHash _ w' He').
    split; reflexivity.
Qed.

Lemma verifyIntegrity_keeps_signedRecord
    (documentId currentHash : string) (c : Collection) (w : World.t) :
  map signedRecord (snd (fst (verifyIntegrity documentId currentHash c w)))
  = map signedRecord c.
Proof.
  destruct (newest (filter (hasDocumentId documentId) c)) as [e |] eqn:He.
  - rewrite (verifyIntegrity_found _ currentHash _ w _ He). cbn [fst snd].
    apply pushVerification_signedRecord.
  - rewrite (verifyIntegrity_none _ currentHash _ w He). reflexivity.
Qed.

Lemma pushVerification_grows
    (id : nat) (v : Verification.t) (s u : string) (c : Collection) :
  Forall2 (fun e e' => exists more,
             AuditEntry.verifications e' = (AuditEntry.verifications e ++ more)%list)
    c (pushVerification id v s u c).
Proof.
  assert (Hsame : forall l : Collection,
            Forall2 (fun e e' => exists more,
                       AuditEntry.verifications e' = (AuditEntry.verifications e ++ more)%list) l l).
  { induction l; constructor; [exists []; rewrite app_nil_r; reflexivity | assumption]. }
  induction c as [| e rest IH]; cbn; [constructor |].
  destruct (Nat.eqb _ _); constructor.
  - exists [v]. reflexivity.
  - apply Hsame.
  - exists []. rewrite app_nil_r. reflexivity.
  - exact IH.
Qed.

Lemma idsArePositions_shift (c : Collection) :
  idsArePositions c ->
  forall j e', nth_error c j = Some e' -> AuditEntry._id e' = (0 + j)%nat.
Proof. intros H j e' Hj. apply H. exact Hj. Qed.

Lemma pushVerification_idsArePositions
    (id : nat) (v : Verification.t) (s u : string) (c : Collection) :
  idsArePositions c -> idsArePositions (pushVerification id v s u c).
Proof.
  intros H i e Hi.
  pose proof (pushVerification_signedRecord id v s u c) as Hmap.
  assert (Hnth : nth_error (map signedRecord c) i = Some (signedRecord e)).
  { rewrite <- Hmap. rewrite nth_error_map, Hi. reflexivity. }
  rewrite nth_error_map in Hnth.
  destruct (nth_error c i) as [e0 |] eqn:H0; [| discriminate Hnth].
  cbn [option_map] in Hnth.
  assert (Hrec : signedRecord e0 = signedRecord e) by congruence.
  rewrite <- (H i e0 H0). unfold signedRecord in Hrec. congruence.
Qed.

(** [verifyIntegrity] answers [not_found] exactly when no entry of
    the collection carries the document's id, and then it neither writes to
    the collection nor reads the clock, and its answer has no hashes. *)
Theorem verifyIntegrity_not_found_iff
    (documentId currentHash : string) (c : Collection) (w : World.t) :
  let '(result, c', w') := verifyIntegrity documentId currentHash c w in
  (IntegrityResult.status result = "not_found" <->
   forall e, In e c -> hasDocumentId documentId e = false) /\
  (IntegrityResult.status result = "not_found" ->
   c' = c /\ w' = w /\ IntegrityResult.details result = None).
Proof.
  destruct (newest (filter (hasDocumentId documentId) c)) as [e |] eqn:He.
  - rewrite (verifyIntegrity_found _ currentHash _ w _ He). cbv zeta.
    cbn [IntegrityResult.status IntegrityResult.details].
    assert (Hno : (if String.eqb (AuditEntry.signedHash e) currentHash
                   then "valid" else "tampered") <> "not_found")
      by (destruct (String.eqb _ _); discriminate).
    split; [split |]; intros H; [contradiction | | contradiction].
    apply filter_nil_iff in H. rewrite H in He. discriminate He.
  - rewrite (verifyIntegrity_none _ currentHash _ w He).
    cbn [IntegrityResult.status IntegrityResult.details].
    apply newest_None in He.
    split; [split |]; intros _; [apply filter_nil_iff; exact He | reflexivity |].
    repeat split.
Qed.

(** When the document has entries, [verifyIntegrity] judges one of
    them that none of the others was created after: the answer is [valid]
    when its signed hash is the hash given and [tampered] when it is not,
    it quotes the hashes and the creation date of that entry, the clock is
    read three times and the collection keeps its length. *)
Theorem verifyIntegrity_judges_the_latest_entry
    (documentId currentHash : string) (c : Collection) (w : World.t) :
  (exists e, In e c /\ hasDocumentId documentId e = true) ->
  let '(result, c', w') := verifyIntegrity documentId currentHash c w in
  exists latestEntry : AuditEntry.t,
    In latestEntry c /\ hasDocumentId documentId latestEntry = true /\
    (forall e, In e c -> hasDocumentId documentId e = true ->
       String.ltb (AuditEntry.createdAt latestEntry) (AuditEntry.createdAt e) = false) /\
    (AuditEntry.signedHash latestEntry = currentHash ->
       IntegrityResult.status result = "valid" /\
       IntegrityResult.message result = "Document signature is valid") /\
    (AuditEntry.signedHash latestEntry <> currentHash ->
       IntegrityResult.status result = "tampered" /\
       IntegrityResult.message result = "Document has been tampered with") /\
    IntegrityResult.details result
    = Some (AuditEntry.originalHash latestEntry, AuditEntry.signedHash latestEntry,
            currentHash, AuditEntry.createdAt latestEntry,
            World.wallClock w (2 + World.reads w)) /\
    World.reads w' = (3 + World.reads w)%nat /\
    List.length c' = List.length c.
Proof.
  intros (e0 & Hin0 & Hdoc0).
  destruct (newest (filter (hasDocumentId documentId) c)) as [e |] eqn:He.
  - rewrite (verifyIntegrity_found _ currentHash _ w _ He). cbv zeta.
    cbn [IntegrityResult.status IntegrityResult.message IntegrityResult.details World.reads].
    pose proof (newest_In _ _ He) as Hin. apply filter_In in Hin. destruct Hin as [Hin Hdoc].
    exists e. split; [exact Hin |]. split; [exact Hdoc |].
    split.
    { intros e' Hin' Hdoc'. apply (newest_latest _ _ He). apply filter_In. split; assumption. }
    split.
    { intros Heq. apply String.eqb_eq in Heq. rewrite Heq. split; reflexivity. }
    split.
    { intros Hneq. apply String.eqb_neq in Hneq. rewrite Hneq. split; reflexivity. }
    split; [reflexivity |]. split; [reflexivity |]. apply pushVerification_length.
  - apply newest_None in He.
    pose proof (proj1 (filter_nil_iff _ _) He e0 Hin0) as Hno. congruence.
Qed.

(** With the [_id]s of the store distinct, a verification of a
    document that has entries changes one document of the collection and no
    other: the entry it judged, which gains one record at the end of its
    [verifications], with the hash that was checked, the reader [system] and
    the first reading of the clock, and whose [integrityStatus] becomes the
    status that is answered; the [_id]s stay distinct. *)
Theorem verifyIntegrity_records_the_check
    (documentId currentHash : string) (c : Collection) (w : World.t) :
  idsArePositions c ->
  (exists e, In e c /\ hasDocumentId documentId e = true) ->
  let '(result, c', w') := verifyIntegrity documentId currentHash c w in
  exists (i : nat) (latestEntry : AuditEntry.t),
    nth_error c i = Some latestEntry /\
    hasDocumentId documentId latestEntry = true /\
    nth_error c' i
    = Some (checkedEntry
              {| Verification.verifiedAt := World.wallClock w (World.reads w);
                 Verification.verifiedBy := "system";
                 Verification.status :=
                   if String.eqb (IntegrityResult.status result) "valid"
                   then "valid" else "invalid";
                 Verification.hash := currentHash |}
              (IntegrityResult.status result)
              (World.wallClock w (1 + World.reads w)) latestEntry) /\
    (forall j, j <> i -> nth_error c' j = nth_error c j) /\
    idsArePositions c'.
Proof.
  intros Hids (e0 & Hin0 & Hdoc0).
  destruct (newest (filter (hasDocumentId documentId) c)) as [e |] eqn:He.
  - rewrite (verifyIntegrity_found _ currentHash _ w _ He). cbv zeta.
    cbn [IntegrityResult.status].
    pose proof (newest_In _ _ He) as Hin. apply filter_In in Hin. destruct Hin as [Hin Hdoc].
    destruct (In_nth_error _ _ Hin) as [i Hi].
    pose proof (Hids i e Hi) as Hid.
    destruct (pushVerification_nth
                {| Verification.verifiedAt := World.wallClock w (World.reads w);
                   Verification.verifiedBy := "system";
                   Verification.status :=
                     if String.eqb (AuditEntry.signedHash e) currentHash
                     then "valid" else "invalid";
                   Verification.hash := currentHash |}
                (if String.eqb (AuditEntry.signedHash e) currentHash
                 then "valid" else "tampered")
                (World.wallClock w (1 + World.reads w)) c 0%nat i e
                (idsArePositions_shift c Hids) Hi) as [Hat Helse].
    change (0 + i)%nat with i in Hat, Helse. rewrite Hid.
    exists i, e. split; [exact Hi |]. split; [exact Hdoc |].
    split.
    { rewrite Hat. destruct (String.eqb (AuditEntry.signedHash e) currentHash); reflexivity. }
    split; [exact Helse |].
    apply pushVerification_idsArePositions. exact Hids.
  - apply newest_None in He.
    pose proof (proj1 (filter_nil_iff _ _) He e0 Hin0) as Hno. congruence.
Qed.

Lemma verifyIntegrity_records_the_check_witness :
  idsArePositions ToyServer.store /\
  (exists e, In e ToyServer.store /\ hasDocumentId "contract-7" e = true) /\
  let '(result, c', w') :=
    verifyIntegrity "contract-7" "pdf-1-2" ToyServer.store ToyServer.later in
  exists (i : nat) (latestEntry : AuditEntry.t),
    nth_error ToyServer.store i = Some latestEntry /\
    hasDocumentId "contract-7" latestEntry = true /\
    nth_error c' i
    = Some (checkedEntry
              {| Verification.verifiedAt :=
                   World.wallClock ToyServer.later (World.reads ToyServer.later);
                 Verification.verifiedBy := "system";
                 Verification.status :=
                   if String.eqb (IntegrityResult.status result) "valid"
                   then "valid" else "invalid";
                 Verification.hash := "pdf-1-2" |}
              (IntegrityResult.status result)
              (World.wallClock ToyServer.later (1 + World.reads ToyServer.later))
              latestEntry) /\
    (forall j, j <> i -> nth_error c' j = nth_error ToyServer.store j) /\
    idsArePositions c'.
Proof.
  assert (Hids : idsArePositions ToyServer.store).
  { intros [| [| i]] e H; [injection H as <-; reflexivity | discriminate H | discriminate H]. }
  assert (Hsome : exists e, In e ToyServer.store /\ hasDocumentId "contract-7" e = true).
  { eexists. split; [left; reflexivity | reflexivity]. }
  split; [exact Hids |]. split; [exact Hsome |].
  exact (verifyIntegrity_records_the_check "contract-7" "pdf-1-2" ToyServer.store
           ToyServer.later Hids Hsome).
Defined.

Lemma verifyIntegrity_judges_the_latest_entry_witness :
  (exists e, In e ToyServer.store /\ hasDocumentId "contract-7" e = true) /\
  let '(result, c', w') :=
    verifyIntegrity "contract-7" "pdf-1-1" ToyServer.store ToyServer.later in
  exists latestEntry : AuditEntry.t,
    In latestEntry ToyServer.store /\ hasDocumentId "contract-7" latestEntry = true /\
    (forall e, In e ToyServer.store -> hasDocumentId "contract-7" e = true ->
       String.ltb (AuditEntry.createdAt latestEntry) (AuditEntry.createdAt e) = false) /\
    (AuditEntry.signedHash latestEntry = "pdf-1-1" ->
       IntegrityResult.status result = "valid" /\
       IntegrityResult.message result = "Document signature is valid") /\
    (AuditEntry.signedHash latestEntry <> "pdf-1-1" ->
       IntegrityResult.status result = "tampered" /\
       IntegrityResult.message result = "Document has been tampered with") /\
    IntegrityResult.details result
    = Some (AuditEntry.originalHash latestEntry, AuditEntry.signedHash latestEntry,
            "pdf-1-1", AuditEntry.createdAt latestEntry,
            World.wallClock ToyServer.later (2 + World.reads ToyServer.later)) /\
    World.reads w' = (3 + World.reads ToyServer.later)%nat /\
    List.length c' = List.length ToyServer.store.
Proof.
  assert (Hsome : exists e, In e ToyServer.store /\ hasDocumentId "contract-7" e = true).
  { eexists. split; [left; reflexivity | reflexivity]. }
  split; [exact Hsome |].
  exact (verifyIntegrity_judges_the_latest_entry "contract-7" "pdf-1-1" ToyServer.store
           ToyServer.later Hsome).
Defined.

(** A verification never alters what was written when a document was
    signed: every entry keeps its [_id], its document id, both hashes, its
    creation date, its signer, coordinates and metadata, and its
    [verifications] are only added to.  So the verdict of any later check,
    of any document against any hash, is the one it would have been without
    this check: the stored [integrityStatus] is not consulted. *)
Theorem verifyIntegrity_keeps_what_was_signed
    (documentId currentHash : string) (c : Collection) (w : World.t) :
  let '(_, c', w') := verifyIntegrity documentId currentHash c w in
  map signedRecord c' = map signedRecord c /\
  Forall2 (fun e e' => exists more,
             AuditEntry.verifications e' = (AuditEntry.verifications e ++ more)%list) c c' /\
  forall laterId laterHash : string,
    IntegrityResult.status (fst (fst (verifyIntegrity laterId laterHash c' w')))
    = IntegrityResult.status (fst (fst (verifyIntegrity laterId laterHash c w))).
Proof.
  pose proof (verifyIntegrity_keeps_signedRecord documentId currentHash c w) as Hkeep.
  assert (Hgrow : Forall2 (fun e e' => exists more,
             AuditEntry.verifications e' = (AuditEntry.verifications e ++ more)%list) c
             (snd (fst (verifyIntegrity documentId currentHash c w)))).
  { destruct (newest (filter (hasDocumentId documentId) c)) as [e |] eqn:He.
    - rewrite (verifyIntegrity_found _ currentHash _ w _ He). cbn [fst snd].
      apply pushVerification_grows.
    - rewrite (verifyIntegrity_none _ currentHash _ w He). cbn [fst snd].
      clear. induction c; constructor; [exists []; rewrite app_nil_r; reflexivity | assumption]. }
  destruct (verifyIntegrity documentId currentHash c w) as [[result c'] w'].
  cbn [fst snd] in Hkeep, Hgrow.
  split; [exact Hkeep |]. split; [exact Hgrow |].
  intros laterId laterHash.
  apply (verifyIntegrity_signedRecord laterId laterHash c' c w' w Hkeep).
Qed.

Lemma create_eq (data : AuditData.t) (c : Collection) (w : World.t) :
  exists auditEntry : AuditEntry.t,
    create data c w
    = (auditEntry, (c ++ [auditEntry])%list,
       {| World.wallClock := World.wallClock w;
          World.reads := 3 + World.reads w;
          World.DEBUG_SIGNATURE_BOX := World.DEBUG_SIGNATURE_BOX w |}) /\
    AuditEntry._id auditEntry = List.length c /\
    AuditEntry.documentId auditEntry = truthyString (AuditData.documentId data) /\
    AuditEntry.originalHash auditEntry = AuditData.originalHash data /\
    AuditEntry.signedHash auditEntry = AuditData.signedHash data /\
    AuditEntry.createdAt auditEntry = World.wallClock w (World.reads w) /\
    AuditEntry.integrityStatus auditEntry = "valid" /\
    AuditEntry.verifications auditEntry = [] /\
    AuditEntry.pageIndex auditEntry = pageIndexOrZero (AuditData.pageIndex data).
Proof.
  eexists. split; [unfold create; cbn; reflexivity |]. cbn. repeat split.
Qed.

Lemma newest_filter_app_later (documentId : string) (c : Collection) (e : AuditEntry.t) :
  hasDocumentId documentId e = true ->
  (forall e', In e' c -> hasDocumentId documentId e' = true ->
     String.ltb (AuditEntry.createdAt e') (AuditEntry.createdAt e) = true) ->
  newest (filter (hasDocumentId documentId) (c ++ [e])) = Some e.
Proof.
  intros Hdoc Hlater. rewrite filter_app. cbn [filter]. rewrite Hdoc.
  apply newest_app_later. intros e' Hin. apply filter_In in Hin. destruct Hin as [Hin Hd].
  apply Hlater; assumption.
Qed.

Lemma truthyString_hasDocumentId (v : option string) (documentId : string)
    (e : AuditEntry.t) :
  truthyString v = Some documentId ->
  AuditEntry.documentId e = truthyString v ->
  hasDocumentId documentId e = true.
Proof.
  intros Hv He. unfold hasDocumentId. rewrite He, Hv. apply String.eqb_refl.
Qed.

(** [create] inserts one entry at the end of the collection and
    leaves the others as they were; with the [_id]s of the store being the
    positions, the new entry has an [_id] that no other has and the [_id]s
    are positions again.  The entry is born [valid] with no verification,
    carries the two hashes it was given, and the clock is read three times,
    first for its creation date. *)
Theorem create_inserts_one_entry (data : AuditData.t) (c : Collection) (w : World.t) :
  idsArePositions c ->
  let '(auditEntry, c', w') := create data c w in
  c' = (c ++ [auditEntry])%list /\
  (forall e, In e c -> AuditEntry._id e <> AuditEntry._id auditEntry) /\
  idsArePositions c' /\
  AuditEntry.originalHash auditEntry = AuditData.originalHash data /\
  AuditEntry.signedHash auditEntry = AuditData.signedHash data /\
  AuditEntry.integrityStatus auditEntry = "valid" /\
  AuditEntry.verifications auditEntry = [] /\
  AuditEntry.createdAt auditEntry = World.wallClock w (World.reads w) /\
  World.reads w' = (3 + World.reads w)%nat.
Proof.
  intros Hids.
  destruct (create_eq data c w) as (e & -> & Hid & _ & Horig & Hsigned & Hcreated & Hst & Hver & _).
  split; [reflexivity |].
  split.
  { intros e' Hin. destruct (In_nth_error _ _ Hin) as [i Hi].
    rewrite (Hids i e' Hi), Hid.
    assert (i < List.length c)%nat by (apply nth_error_Some; congruence). lia. }
  split.
  { intros i e' Hi.
    destruct (Nat.lt_ge_cases i (List.length c)) as [Hlt | Hge].
    - rewrite nth_error_app1 in Hi by exact Hlt. apply Hids. exact Hi.
    - rewrite nth_error_app2 in Hi by exact Hge.
      destruct (i - List.length c)%nat as [| k] eqn:Hk;
        [| destruct k; discriminate Hi].
      cbn in Hi. injection Hi as <-. rewrite Hid. lia. }
  cbn [World.reads]. repeat split; assumption.
Qed.

Lemma create_inserts_one_entry_witness :
  idsArePositions ToyServer.store /\
  let '(auditEntry, c', w') :=
    create (ToyServer.signed "contract-8" "pdf-1-1") ToyServer.store ToyServer.later in
  c' = (ToyServer.store ++ [auditEntry])%list /\
  (forall e, In e ToyServer.store -> AuditEntry._id e <> AuditEntry._id auditEntry) /\
  idsArePositions c' /\
  AuditEntry.originalHash auditEntry
  = AuditData.originalHash (ToyServer.signed "contract-8" "pdf-1-1") /\
  AuditEntry.signedHash auditEntry
  = AuditData.signedHash (ToyServer.signed "contract-8" "pdf-1-1") /\
  AuditEntry.integrityStatus auditEntry = "valid" /\
  AuditEntry.verifications auditEntry = [] /\
  AuditEntry.createdAt auditEntry
  = World.wallClock ToyServer.later (World.reads ToyServer.later) /\
  World.reads w' = (3 + World.reads ToyServer.later)%nat.
Proof.
  assert (Hids : idsArePositions ToyServer.store).
  { intros [| [| i]] e H; [injection H as <-; reflexivity | discriminate H | discriminate H]. }
  split; [exact Hids |].
  exact (create_inserts_one_entry (ToyServer.signed "contract-8" "pdf-1-1") ToyServer.store
           ToyServer.later Hids).
Defined.

(** A document signed after every entry its id already has is valid
    under the hash it was signed to and tampered under any other: after
    [create], [verifyIntegrity] with the document's id answers [valid] for
    the signed hash that was stored and [tampered] for every other hash,
    whatever the clock reads by then. *)
Theorem create_then_verifyIntegrity
    (data : AuditData.t) (c : Collection) (w laterWorld : World.t)
    (documentId currentHash : string) :
  truthyString (AuditData.documentId data) = Some documentId ->
  (forall e, In e c -> hasDocumentId documentId e = true ->
     String.ltb (AuditEntry.createdAt e) (World.wallClock w (World.reads w)) = true) ->
  let '(_, c', _) := create data c w in
  let result := fst (fst (verifyIntegrity documentId currentHash c' laterWorld)) in
  (currentHash = AuditData.signedHash data -> IntegrityResult.status result = "valid") /\
  (currentHash <> AuditData.signedHash data -> IntegrityResult.status result = "tampered").
Proof.
  intros Hdoc Hlater.
  destruct (create_eq data c w) as (e & -> & _ & Hid & _ & Hsigned & Hcreated & _).
  cbv zeta.
  assert (Hnew : newest (filter (hasDocumentId documentId) (c ++ [e])) = Some e).
  { apply newest_filter_app_later.
    - eapply truthyString_hasDocumentId; eassumption.
    - rewrite Hcreated. exact Hlater. }
  rewrite (verifyIntegrity_found _ currentHash _ laterWorld _ Hnew). cbv zeta.
  cbn [fst IntegrityResult.status]. rewrite Hsigned.
  split; intros H.
  - subst currentHash. rewrite String.eqb_refl. reflexivity.
  - replace (String.eqb (AuditData.signedHash data) currentHash) with false; [reflexivity |].
    symmetry. apply String.eqb_neq. congruence.
Qed.

Lemma create_then_verifyIntegrity_witness :
  truthyString (AuditData.documentId (ToyServer.signed "contract-7" "pdf-1-2"))
  = Some "contract-7" /\
  (forall e, In e ToyServer.store -> hasDocumentId "contract-7" e = true ->
     String.ltb (AuditEntry.createdAt e)
       (World.wallClock ToyServer.later (World.reads ToyServer.later)) = true) /\
  let '(_, c', _) :=
    create (ToyServer.signed "contract-7" "pdf-1-2") ToyServer.store ToyServer.later in
  let result := fst (fst (verifyIntegrity "contract-7" "pdf-1-1" c' ToyServer.morning)) in
  ("pdf-1-1" = AuditData.signedHash (ToyServer.signed "contract-7" "pdf-1-2") ->
   IntegrityResult.status result = "valid") /\
  ("pdf-1-1" <> AuditData.signedHash (ToyServer.signed "contract-7" "pdf-1-2") ->
   IntegrityResult.status result = "tampered").
Proof.
  assert (Hlater : forall e, In e ToyServer.store -> hasDocumentId "contract-7" e = true ->
     String.ltb (AuditEntry.createdAt e)
       (World.wallClock ToyServer.later (World.reads ToyServer.later)) = true).
  { intros e [<- | []] _. reflexivity. }
  split; [reflexivity |]. split; [exact Hlater |].
  exact (create_then_verifyIntegrity (ToyServer.signed "contract-7" "pdf-1-2")
           ToyServer.store ToyServer.later ToyServer.morning "contract-7" "pdf-1-1"
           eq_refl Hlater).
Defined.

(** ** The routes *)

Lemma truthyString_idempotent (v : option string) (s : string) :
  truthyString v = Some s -> truthyString (Some s) = Some s.
Proof.
  unfold truthyString. destruct v as [t |]; [| discriminate].
  destruct (String.eqb t "") eqn:Ht; [discriminate |].
  intros H. injection H as H. subst t. rewrite Ht. reflexivity.
Qed.

Section RouteResults.
Context `{lib : PdfLib}.
Variable bufferToBase64 : Buffer -> string.
Variable typeErrorMessage : string.
Variable withCoordinateTransform : Metadata -> option Rect.t -> Rect.t -> Rect.t -> Metadata.



(** Through the route a signature that names no [imageType] is
    declared a PNG: the image is embedded by one call of [embedPng], whose
    rejection is the error, and [embedJpeg] is not tried.  The attempt of
    PNG and then JPEG is reached only under an [imageType] that is a
    non-empty text other than [png] and [jpeg]. *)
Theorem postSignPdf_embeds_untyped_as_png
    (signature : SignatureField.t) (coordinates : Coordinates.t) (metadata : option Metadata)
    (pdfCoordinates : Transformed.t) (pdfDoc : PDFDocument) (imageBuffer : Buffer) :
  let signatureData :=
    routeSignatureData withCoordinateTransform signature coordinates metadata pdfCoordinates in
  (truthyString (SignatureField.imageType signature) = None ->
   embedSignatureImage pdfDoc signatureData imageBuffer
   = ([PNG], rethrowEmbedError (embedPng pdfDoc imageBuffer))) /\
  (fst (embedSignatureImage pdfDoc signatureData imageBuffer) = [PNG; JPEG] ->
   exists type : string,
     SignatureField.imageType signature = Some type /\
     type <> "" /\ type <> "png" /\ type <> "jpeg").
Proof.
  cbv zeta. unfold embedSignatureImage, routeSignatureData, stringOr.
  cbn [SignatureData.imageType SignatureData.image isString].
  split.
  - intros ->. cbn. reflexivity.
  - unfold truthyString.
    destruct (SignatureField.imageType signature) as [type |]; [| cbn; discriminate].
    destruct (String.eqb type "") eqn:Hempty; [cbn; discriminate |].
    destruct (String.eqb type "png") eqn:Hpng; [cbn; discriminate |].
    destruct (String.eqb type "jpeg") eqn:Hjpeg.
    + cbn [orb]. destruct (includes _ "png"); cbn; discriminate.
    + intros _. exists type. split; [reflexivity |].
      apply String.eqb_neq in Hempty, Hpng, Hjpeg. repeat split; assumption.
Qed.

(** [POST /verify-pdf] answers 400 exactly when [documentId] or
    [pdfBuffer] is missing and 500 exactly when both are there and there is
    no database; an answer other than 200 changes nothing.  With 200 the
    answer is that of [verifyIntegrity] for the digest of the decoded
    buffer, and the store has the entries it had, each with what was written
    when it was signed. *)
Theorem postVerifyPdf_responses (body : VerifyBody.t) (db : option Collection) (w : World.t) :
  let '(response, db', w') := postVerifyPdf body db w in
  (VerifyResponse.status response = 400%Z <->
   truthyString (VerifyBody.documentId body) = None \/
   truthyPayload (VerifyBody.pdfBuffer body) = None) /\
  (VerifyResponse.status response = 500%Z <->
   truthyString (VerifyBody.documentId body) <> None /\
   truthyPayload (VerifyBody.pdfBuffer body) <> None /\ db = None) /\
  (VerifyResponse.status response <> 200%Z -> db' = db /\ w' = w) /\
  (VerifyResponse.status response = 200%Z ->
   exists (documentId : string) (pdfBuffer : PdfPayload) (c c' : Collection),
     truthyString (VerifyBody.documentId body) = Some documentId /\
     truthyPayload (VerifyBody.pdfBuffer body) = Some pdfBuffer /\
     db = Some c /\ db' = Some c' /\
     response
     = VerifyResponse.Verified
         (fst (fst (verifyIntegrity documentId (computeSHA256 (decodePdfBuffer pdfBuffer))
                      c w))) /\
     map signedRecord c' = map signedRecord c).
Proof.
  unfold postVerifyPdf.
  destruct (truthyString (VerifyBody.documentId body)) as [documentId |].
  2: { cbn. split; [split; [intros _; left; reflexivity | reflexivity] |].
       split; [split; [discriminate | intros [H _]; congruence] |].
       split; [intros _; split; reflexivity | discriminate]. }
  destruct (truthyPayload (VerifyBody.pdfBuffer body)) as [pdfBuffer |].
  2: { cbn. split; [split; [intros _; right; reflexivity | reflexivity] |].
       split; [split; [discriminate | intros [_ [H _]]; congruence] |].
       split; [intros _; split; reflexivity | discriminate]. }
  cbv zeta. destruct db as [c |].
  - pose proof (verifyIntegrity_keeps_signedRecord documentId
                  (computeSHA256 (decodePdfBuffer pdfBuffer)) c w) as Hkeep.
    destruct (verifyIntegrity _ _ c w) as [[result c'] w'] eqn:Hverify.
    cbn [fst snd] in Hkeep. cbn [VerifyResponse.status].
    split; [split; [discriminate | intros [H | H]; discriminate H] |].
    split; [split; [discriminate | intros (_ & _ & H); discriminate H] |].
    split; [intros H; contradiction H; reflexivity |].
    intros _. exists documentId, pdfBuffer, c, c'. rewrite Hverify.
    repeat split. exact Hkeep.
  - cbn [VerifyResponse.status].
    split; [split; [discriminate | intros [H | H]; discriminate H] |].
    split; [split; [intros _; repeat split; discriminate | reflexivity] |].
    split; [intros _; split; reflexivity | discriminate].
Qed.

(** Signing and then verifying: after [POST /sign-pdf] has answered
    200 and stored its entry, later than the entries the document already
    had, [POST /verify-pdf] under the same document id answers 200 with the
    verdict [valid] for every buffer whose digest is the [signed] hash of
    the answer, and [tampered] for every other buffer, whatever the clock
    reads by then. *)
Theorem sign_then_verify
    (body : SignBody.t) (c : Collection) (w : World.t)
    (documentId signedPdf original signed message : string) (auditLog : AuditLog.t)
    (db' : option Collection) (w' : World.t) :
  postSignPdf bufferToBase64 typeErrorMessage withCoordinateTransform body (Some c) w
  = (SignResponse.Signed documentId signedPdf original signed auditLog message, db', w') ->
  (forall e, In e c -> hasDocumentId documentId e = true ->
     String.ltb (AuditEntry.createdAt e) (World.wallClock w (1 + World.reads w)) = true) ->
  forall (pdfBuffer : PdfPayload) (laterWorld : World.t),
    truthyPayload (Some pdfBuffer) = Some pdfBuffer ->
    exists (result : IntegrityResult.t) (db'' : option Collection) (w'' : World.t),
      postVerifyPdf
        {| VerifyBody.documentId := Some documentId;
           VerifyBody.pdfBuffer := Some pdfBuffer |} db' laterWorld
      = (VerifyResponse.Verified result, db'', w'') /\
      (computeSHA256 (decodePdfBuffer pdfBuffer) = signed ->
       IntegrityResult.status result = "valid") /\
      (computeSHA256 (decodePdfBuffer pdfBuffer) <> signed ->
       IntegrityResult.status result = "tampered").
Proof.
  unfold postSignPdf.
  destruct (SignBody.coordinates body) as [coordinates |]; [| discriminate].
  destruct (truthyString (SignBody.pdfId body)) as [pdfId |] eqn:Hid; [| discriminate].
  destruct (truthyPayload (SignBody.pdfBuffer body)) as [payload |]; [| discriminate].
  destruct (SignBody.signature body) as [signature |]; [| discriminate].
  cbv zeta.
  destruct (transformFrontendToPDF _ _ _) as [pdfCoordinates | m]; [| discriminate].
  destruct (signPDF _ _ w) as [[signResult | m] w1] eqn:Hsign; [| discriminate].
  destruct (signPDF_returned_inv _ _ _ _ _ Hsign)
    as (pdfDoc & embedded & image & _ & _ & _ & _ & _ & _ & _ & ->).
  match goal with
  | |- context [create ?data c ?w1] =>
      destruct (create_eq data c w1)
        as (entry & -> & _ & Hdoc & _ & Hshash & Hcreated & _)
  end.
  unfold routeAuditData in Hdoc, Hshash.
  cbn [AuditData.documentId AuditData.signedHash] in Hdoc, Hshash.
  intros Hresponse Hlater pdfBuffer laterWorld Hpayload.
  injection Hresponse as <- _ _ <- _ _ <- _.
  pose proof (truthyString_idempotent _ _ Hid) as Htruthy.
  assert (Hnew : newest (filter (hasDocumentId pdfId) (c ++ [entry])) = Some entry).
  { apply newest_filter_app_later.
    - eapply truthyString_hasDocumentId; [exact Htruthy | exact Hdoc].
    - rewrite Hcreated. exact Hlater. }
  unfold postVerifyPdf. cbn [VerifyBody.documentId VerifyBody.pdfBuffer].
  rewrite Htruthy, Hpayload. cbv zeta.
  rewrite (verifyIntegrity_found _ _ _ laterWorld _ Hnew). cbv zeta.
  eexists _, _, _. split; [reflexivity |].
  cbn [IntegrityResult.status]. rewrite Hshash.
  split; intros H.
  - rewrite H, String.eqb_refl. reflexivity.
  - replace (String.eqb _ _) with false; [reflexivity |].
    symmetry. apply String.eqb_neq. congruence.
Qed.

End RouteResults.

Lemma sign_then_verify_witness :
  match postSignPdf (lib := Toy.lib) ToyServer.toBase64
          "Cannot read properties of undefined (reading 'frontend')" ToyServer.withTransform
          (ToyServer.signBody (Some "contract-7") (Some ToyServer.upperLeft))
          (Some ToyServer.store) ToyServer.later with
  | (SignResponse.Signed documentId signedPdf original signed auditLog message, db', w') =>
      (forall e, In e ToyServer.store -> hasDocumentId documentId e = true ->
         String.ltb (AuditEntry.createdAt e)
           (World.wallClock ToyServer.later (1 + World.reads ToyServer.later)) = true) /\
      truthyPayload (Some (RawBuffer (H := Toy.lib) Toy.blankA4))
      = Some (RawBuffer (H := Toy.lib) Toy.blankA4) /\
      exists (result : IntegrityResult.t) (db'' : option Collection) (w'' : World.t),
        postVerifyPdf (lib := Toy.lib)
          {| VerifyBody.documentId := Some documentId;
             VerifyBody.pdfBuffer := Some (RawBuffer (H := Toy.lib) Toy.blankA4) |}
          db' ToyServer.morning
        = (VerifyResponse.Verified result, db'', w'') /\
        (computeSHA256 (decodePdfBuffer (RawBuffer (H := Toy.lib) Toy.blankA4)) = signed ->
         IntegrityResult.status result = "valid") /\
        (computeSHA256 (decodePdfBuffer (RawBuffer (H := Toy.lib) Toy.blankA4)) <> signed ->
         IntegrityResult.status result = "tampered")
  | _ => False
  end.
Proof.
  destruct (postSignPdf (lib := Toy.lib) ToyServer.toBase64
              "Cannot read properties of undefined (reading 'frontend')"
              ToyServer.withTransform
              (ToyServer.signBody (Some "contract-7") (Some ToyServer.upperLeft))
              (Some ToyServer.store) ToyServer.later) as [[response db'] w'] eqn:Hsign.
  destruct response as [error | error message
                        | documentId signedPdf original signed auditLog message];
    [vm_compute in Hsign; discriminate Hsign | vm_compute in Hsign; discriminate Hsign |].
  assert (Hlater : forall e, In e ToyServer.store -> hasDocumentId documentId e = true ->
            String.ltb (AuditEntry.createdAt e)
              (World.wallClock ToyServer.later (1 + World.reads ToyServer.later)) = true).
  { intros e [<- | []] _. reflexivity. }
  split; [exact Hlater |]. split; [reflexivity |].
  exact (sign_then_verify (lib := Toy.lib) ToyServer.toBase64
           "Cannot read properties of undefined (reading 'frontend')" ToyServer.withTransform
           (ToyServer.signBody (Some "contract-7") (Some ToyServer.upperLeft))
           ToyServer.store ToyServer.later documentId signedPdf original signed message
           auditLog db' w' Hsign Hlater (RawBuffer (H := Toy.lib) Toy.blankA4)
           ToyServer.morning eq_refl).
Defined.

Local Open Scope Q_scope.
(** ** The editor *)

Lemma Qltb_false (a b : Q) : Qltb a b = false <-> b <= a.
Proof.
  unfold Qltb. rewrite Qle_alt, <- (Qcompare_antisym b a).
  destruct (b ?= a); cbn; split; intros H; congruence.
Qed.

Lemma Qleb_false (a b : Q) : Qleb a b = false <-> b < a.
Proof.
  unfold Qleb. split; intros H.
  - apply Qnot_le_lt. intros Hle. apply Qle_bool_iff in Hle. congruence.
  - destruct (Qle_bool a b) eqn:Hb; [| reflexivity].
    apply Qle_bool_iff in Hb. lra.
Qed.

(** What the two checks of the editor accept. *)
Lemma validateCoordinates_accepted (field : Rect.t) (pdfPageSize : Size.t) :
  validateCoordinates field pdfPageSize = FieldAccepted <->
  0 <= Rect.x field /\ 0 <= Rect.y field /\
  0 < Rect.width field /\ 0 < Rect.height field /\
  Rect.x field + Rect.width field <= Size.width pdfPageSize /\
  Rect.y field + Rect.height field <= Size.height pdfPageSize.
Proof.
  unfold validateCoordinates.
  destruct (Qltb (Rect.x field) 0) eqn:Hx.
  { cbn. split; [discriminate |].
    intros (H & _). apply Qltb_false in H. congruence. }
  destruct (Qltb (Rect.y field) 0) eqn:Hy.
  { cbn. split; [discriminate |].
    intros (_ & H & _). apply Qltb_false in H. congruence. }
  destruct (Qleb (Rect.width field) 0) eqn:Hw.
  { cbn. split; [discriminate |].
    intros (_ & _ & H & _). apply Qleb_false in H. congruence. }
  destruct (Qleb (Rect.height field) 0) eqn:Hh.
  { cbn. split; [discriminate |].
    intros (_ & _ & _ & H & _). apply Qleb_false in H. congruence. }
  cbn [orb].
  apply Qltb_false in Hx, Hy. apply Qleb_false in Hw, Hh.
  destruct (Qgtb (Rect.x field + Rect.width field) (Size.width pdfPageSize)) eqn:Hr.
  { cbn. split; [discriminate |].
    intros (_ & _ & _ & _ & H & _). apply Qgtb_false in H. congruence. }
  destruct (Qgtb (Rect.y field + Rect.height field) (Size.height pdfPageSize)) eqn:Hb.
  { cbn. split; [discriminate |].
    intros (_ & _ & _ & _ & _ & H). apply Qgtb_false in H. congruence. }
  cbn. apply Qgtb_false in Hr, Hb. split; [intros _ | reflexivity].
  repeat split; assumption.
Qed.

Lemma clamp_between (v top : Q) : 0 <= top -> 0 <= Qmax 0 (Qmin v top) <= top.
Proof.
  intros Htop. split; [apply Q.le_max_l |].
  apply Q.max_lub; [exact Htop | apply Q.le_min_r].
Qed.

Lemma clamp_inside (v top : Q) : 0 <= v <= top -> Qmax 0 (Qmin v top) == v.
Proof.
  intros [H0 H1]. rewrite Q.min_l by exact H1. apply Q.max_r. exact H0.
Qed.

(** A drag keeps the size of the field and puts it on the page whenever it
    fits the page: the field follows the pointer, by the distance the
    pointer has moved divided by the zoom, as long as that keeps it on the
    page, and stops at the edges. *)
Theorem handleMouseMove_drags_on_the_page
    (isResizing : bool) (dragStart : DragStart.t) (field : Rect.t) (scale : Q)
    (pageSize : Size.t) (clientX clientY : Q) :
  ~ scale == 0 ->
  Rect.width field <= Size.width pageSize ->
  Rect.height field <= Size.height pageSize ->
  exists moved : Rect.t,
    handleMouseMove true isResizing dragStart field scale pageSize clientX clientY
    = Some moved /\
    Rect.width moved = Rect.width field /\ Rect.height moved = Rect.height field /\
    0 <= Rect.x moved /\ Rect.x moved + Rect.width moved <= Size.width pageSize /\
    0 <= Rect.y moved /\ Rect.y moved + Rect.height moved <= Size.height pageSize /\
    let newX := DragStart.fieldX dragStart + (clientX - DragStart.x dragStart) / scale in
    let newY := DragStart.fieldY dragStart + (clientY - DragStart.y dragStart) / scale in
    (0 <= newX <= Size.width pageSize - Rect.width field -> Rect.x moved == newX) /\
    (0 <= newY <= Size.height pageSize - Rect.height field -> Rect.y moved == newY).
Proof.
  intros _ Hw Hh. unfold handleMouseMove. cbn [negb andb]. cbv zeta.
  eexists. split; [reflexivity |]. cbn [Rect.x Rect.y Rect.width Rect.height].
  split; [reflexivity |]. split; [reflexivity |].
  pose proof (clamp_between
                (DragStart.fieldX dragStart + (clientX - DragStart.x dragStart) / scale)
                (Size.width pageSize - Rect.width field)) as Hx.
  pose proof (clamp_between
                (DragStart.fieldY dragStart + (clientY - DragStart.y dragStart) / scale)
                (Size.height pageSize - Rect.height field)) as Hy.
  split; [apply Hx; lra |]. split; [assert (0 <= Size.width pageSize - Rect.width field) as H0 by lra; apply Hx in H0; lra |].
  split; [apply Hy; lra |]. split; [assert (0 <= Size.height pageSize - Rect.height field) as H0 by lra; apply Hy in H0; lra |].
  split; apply clamp_inside.
Qed.

Lemma handleMouseMove_drags_on_the_page_witness :
  ~ 2 == 0 /\ 100 <= 600 /\ 50 <= 800 /\
  exists moved : Rect.t,
    handleMouseMove true false (DragStart.mk 300 300 10 20 100 50) (Rect.mk 10 20 100 50) 2
      (Size.mk 600 800) 400 200
    = Some moved /\
    Rect.width moved = 100 /\ Rect.height moved = 50 /\
    0 <= Rect.x moved /\ Rect.x moved + Rect.width moved <= 600 /\
    0 <= Rect.y moved /\ Rect.y moved + Rect.height moved <= 800 /\
    let newX := 10 + (400 - 300) / 2 in
    let newY := 20 + (200 - 300) / 2 in
    (0 <= newX <= 600 - 100 -> Rect.x moved == newX) /\
    (0 <= newY <= 800 - 50 -> Rect.y moved == newY).
Proof.
  assert (H2 : ~ 2 == 0) by (intros H; discriminate H).
  assert (Hw : 100 <= 600) by (intros H; discriminate H).
  assert (Hh : 50 <= 800) by (intros H; discriminate H).
  split; [exact H2 |]. split; [exact Hw |]. split; [exact Hh |].
  exact (handleMouseMove_drags_on_the_page false (DragStart.mk 300 300 10 20 100 50)
           (Rect.mk 10 20 100 50) 2 (Size.mk 600 800) 400 200 H2 Hw Hh).
Defined.

(** A resize keeps the corner of the field and never lets it reach past the
    right or the lower edge of the page; the minimum of 30 holds when there
    is room for it, and gives way to the edge when there is not: a field
    whose corner is less than 30 from an edge comes out smaller than 30, and
    one whose corner is on or past the edge comes out with no extent, which
    the editor then refuses as invalid coordinates. *)
Theorem handleMouseMove_resizes_up_to_the_edge
    (dragStart : DragStart.t) (field : Rect.t) (scale : Q)
    (pageSize : Size.t) (clientX clientY : Q) :
  ~ scale == 0 ->
  exists resized : Rect.t,
    handleMouseMove false true dragStart field scale pageSize clientX clientY
    = Some resized /\
    Rect.x resized = Rect.x field /\ Rect.y resized = Rect.y field /\
    Rect.x resized + Rect.width resized <= Size.width pageSize /\
    Rect.y resized + Rect.height resized <= Size.height pageSize /\
    (30 <= Size.width pageSize - Rect.x field -> 30 <= Rect.width resized) /\
    (30 <= Size.height pageSize - Rect.y field -> 30 <= Rect.height resized) /\
    (Size.width pageSize - Rect.x field <= 30 ->
     Rect.width resized == Size.width pageSize - Rect.x field) /\
    (Size.height pageSize - Rect.y field <= 30 ->
     Rect.height resized == Size.height pageSize - Rect.y field) /\
    (Size.width pageSize <= Rect.x field \/ Size.height pageSize <= Rect.y field ->
     validateCoordinates resized pageSize = InvalidCoordinates).
Proof.
  intros _. unfold handleMouseMove. cbn [negb andb]. cbv zeta.
  eexists. split; [reflexivity |]. cbn [Rect.x Rect.y Rect.width Rect.height].
  set (newWidth := Qmax 30 (DragStart.fieldWidth dragStart
                             + (clientX - DragStart.x dragStart) / scale)).
  set (newHeight := Qmax 30 (DragStart.fieldHeight dragStart
                              + (clientY - DragStart.y dragStart) / scale)).
  assert (Hnw : 30 <= newWidth) by apply Q.le_max_l.
  assert (Hnh : 30 <= newHeight) by apply Q.le_max_l.
  pose proof (Q.le_min_r newWidth (Size.width pageSize - Rect.x field)) as Hwr.
  pose proof (Q.le_min_r newHeight (Size.height pageSize - Rect.y field)) as Hhr.
  split; [reflexivity |]. split; [reflexivity |].
  split; [lra |]. split; [lra |].
  split; [intros H; apply Q.min_glb; assumption |].
  split; [intros H; apply Q.min_glb; assumption |].
  split; [intros H; apply Q.min_r; lra |].
  split; [intros H; apply Q.min_r; lra |].
  intros H. unfold validateCoordinates. cbn [Rect.x Rect.y Rect.width Rect.height].
  destruct (Qltb (Rect.x field) 0); [reflexivity |].
  destruct (Qltb (Rect.y field) 0); [reflexivity |]. cbn [orb].
  destruct H as [H | H].
  - replace (Qleb (Qmin newWidth (Size.width pageSize - Rect.x field)) 0) with true;
      [reflexivity |].
    symmetry. apply Qle_bool_iff. lra.
  - replace (Qleb (Qmin newHeight (Size.height pageSize - Rect.y field)) 0) with true;
      [destruct (Qleb _ 0); reflexivity |].
    symmetry. apply Qle_bool_iff. lra.
Qed.

Lemma handleMouseMove_resizes_up_to_the_edge_witness :
  ~ 2 == 0 /\
  exists resized : Rect.t,
    handleMouseMove false true (DragStart.mk 300 300 580 20 100 50) (Rect.mk 580 20 100 50) 2
      (Size.mk 600 800) 400 200
    = Some resized /\
    Rect.x resized = 580 /\ Rect.y resized = 20 /\
    Rect.x resized + Rect.width resized <= 600 /\
    Rect.y resized + Rect.height resized <= 800 /\
    (30 <= 600 - 580 -> 30 <= Rect.width resized) /\
    (30 <= 800 - 20 -> 30 <= Rect.height resized) /\
    (600 - 580 <= 30 -> Rect.width resized == 600 - 580) /\
    (800 - 20 <= 30 -> Rect.height resized == 800 - 20) /\
    (600 <= 580 \/ 800 <= 20 ->
     validateCoordinates resized (Size.mk 600 800) = InvalidCoordinates).
Proof.
  assert (H2 : ~ 2 == 0) by (intros H; discriminate H).
  split; [exact H2 |].
  exact (handleMouseMove_resizes_up_to_the_edge (DragStart.mk 300 300 580 20 100 50)
           (Rect.mk 580 20 100 50) 2 (Size.mk 600 800) 400 200 H2).
Defined.

(** A field that the editor accepts stays one that it accepts, whatever the
    pointer does: every update of [handleMouseMove] for an accepted field
    is accepted for the same page. *)
Theorem handleMouseMove_keeps_fields_accepted
    (isDragging isResizing : bool) (dragStart : DragStart.t) (field updated : Rect.t)
    (scale : Q) (pageSize : Size.t) (clientX clientY : Q) :
  ~ scale == 0 ->
  validateCoordinates field pageSize = FieldAccepted ->
  handleMouseMove isDragging isResizing dragStart field scale pageSize clientX clientY
  = Some updated ->
  validateCoordinates updated pageSize = FieldAccepted.
Proof.
  intros _ Hfield Hmove.
  apply validateCoordinates_accepted in Hfield.
  destruct Hfield as (Hx & Hy & Hw & Hh & Hr & Hb).
  apply validateCoordinates_accepted.
  unfold handleMouseMove in Hmove.
  destruct isDragging; cbn [negb andb] in Hmove.
  - cbv zeta in Hmove. injection Hmove as <-. cbn [Rect.x Rect.y Rect.width Rect.height].
    pose proof (clamp_between
                  (DragStart.fieldX dragStart + (clientX - DragStart.x dragStart) / scale)
                  (Size.width pageSize - Rect.width field)) as Hcx.
    pose proof (clamp_between
                  (DragStart.fieldY dragStart + (clientY - DragStart.y dragStart) / scale)
                  (Size.height pageSize - Rect.height field)) as Hcy.
    assert (H0x : 0 <= Size.width pageSize - Rect.width field) by lra.
    assert (H0y : 0 <= Size.height pageSize - Rect.height field) by lra.
    apply Hcx in H0x. apply Hcy in H0y.
    repeat split; try assumption; lra.
  - destruct isResizing; cbn [negb] in Hmove; [| discriminate Hmove].
    cbv zeta in Hmove. injection Hmove as <-. cbn [Rect.x Rect.y Rect.width Rect.height].
    pose proof (Q.le_min_r
                  (Qmax 30 (DragStart.fieldWidth dragStart
                            + (clientX - DragStart.x dragStart) / scale))
                  (Size.width pageSize - Rect.x field)) as Hwr.
    pose proof (Q.le_min_r
                  (Qmax 30 (DragStart.fieldHeight dragStart
                            + (clientY - DragStart.y dragStart) / scale))
                  (Size.height pageSize - Rect.y field)) as Hhr.
    assert (Hwp : 0 < Qmin (Qmax 30 (DragStart.fieldWidth dragStart
                                      + (clientX - DragStart.x dragStart) / scale))
                       (Size.width pageSize - Rect.x field)).
    { apply Q.min_glb_lt; [| lra].
      apply Qlt_le_trans with 30; [reflexivity | apply Q.le_max_l]. }
    assert (Hhp : 0 < Qmin (Qmax 30 (DragStart.fieldHeight dragStart
                                      + (clientY - DragStart.y dragStart) / scale))
                       (Size.height pageSize - Rect.y field)).
    { apply Q.min_glb_lt; [| lra].
      apply Qlt_le_trans with 30; [reflexivity | apply Q.le_max_l]. }
    repeat split; try assumption; lra.
Qed.

Lemma handleMouseMove_keeps_fields_accepted_witness :
  ~ 2 == 0 /\
  validateCoordinates (Rect.mk 10 20 100 50) (Size.mk 600 800) = FieldAccepted /\
  handleMouseMove true false (DragStart.mk 300 300 10 20 100 50) (Rect.mk 10 20 100 50) 2
    (Size.mk 600 800) 4000 200
  = Some (Rect.mk (Qmax 0 (Qmin (10 + (4000 - 300) / 2) (600 - 100)))
                  (Qmax 0 (Qmin (20 + (200 - 300) / 2) (800 - 50))) 100 50) /\
  validateCoordinates
    (Rect.mk (Qmax 0 (Qmin (10 + (4000 - 300) / 2) (600 - 100)))
             (Qmax 0 (Qmin (20 + (200 - 300) / 2) (800 - 50))) 100 50)
    (Size.mk 600 800) = FieldAccepted.
Proof.
  assert (H2 : ~ 2 == 0) by (intros H; discriminate H).
  split; [exact H2 |]. split; [reflexivity |]. split; [reflexivity |].
  exact (handleMouseMove_keeps_fields_accepted true false (DragStart.mk 300 300 10 20 100 50)
           (Rect.mk 10 20 100 50) _ 2 (Size.mk 600 800) 4000 200 H2 eq_refl eq_refl).
Defined.

(** A new field is shown where it was dropped, 120 wide and 60 high on the
    screen at every zoom: the screen box of the box that [handleDrop] makes
    has its corner at the pointer, relative to the canvas. *)
Theorem handleDrop_shows_the_field_at_the_pointer
    (scale clientX clientY rectLeft rectTop : Q) :
  ~ scale == 0 ->
  Rect_eq (screenBox (handleDrop scale clientX clientY rectLeft rectTop) scale)
    {| Rect.x := clientX - rectLeft; Rect.y := clientY - rectTop;
       Rect.width := 120; Rect.height := 60 |}.
Proof.
  intros Hs. unfold Rect_eq, screenBox, handleDrop. cbn.
  repeat split; field; exact Hs.
Qed.

Lemma handleDrop_shows_the_field_at_the_pointer_witness :
  ~ (3 # 4) == 0 /\
  Rect_eq (screenBox (handleDrop (3 # 4) 500 400 20 10) (3 # 4))
    {| Rect.x := 500 - 20; Rect.y := 400 - 10; Rect.width := 120; Rect.height := 60 |}.
Proof.
  assert (Hs : ~ (3 # 4) == 0) by (intros H; discriminate H).
  split; [exact Hs |].
  exact (handleDrop_shows_the_field_at_the_pointer (3 # 4) 500 400 20 10 Hs).
Defined.

(** In binary64 the checks of the editor are not kept to the last bit.  On a page
    of 595.276 x 841.89 shown at the zoom 0.9, a field is dropped, made
    narrower by moving the pointer 87 pixels to the left, and dragged
    against the right edge: its corner is put at [595.276 - width], and
    [x + width] rounds to 595.2760000000001, so the editor refuses the field
    as extending beyond the page, though it accepted it before the drag. *)
Section Binary64EditorEvaluation.
Import Floats.
Local Open Scope float_scope.
#[local] Set Warnings "-inexact-float".

Lemma binary64_dragged_field_is_refused :
  let pageSize := Binary64.Size.mk 595.276 841.89 in
  let grab (field : Binary64.Rect.t) :=
    Binary64Editor.DragStart.mk 200 200 (Binary64.Rect.x field) (Binary64.Rect.y field)
      (Binary64.Rect.width field) (Binary64.Rect.height field) in
  let dropped := Binary64Editor.handleDrop 0.9 90 90 0 0 in
  match Binary64Editor.handleMouseMove false true (grab dropped) dropped 0.9 pageSize
          113 200 with
  | Some resized =>
      match Binary64Editor.handleMouseMove true false (grab resized) resized 0.9 pageSize
              10200 200 with
      | Some moved =>
          Binary64Editor.validateCoordinates resized pageSize = FieldAccepted /\
          Binary64.Rect.x moved = 595.276 - Binary64.Rect.width resized /\
          (595.276 <? Binary64.Rect.x moved + Binary64.Rect.width moved) = true /\
          Binary64Editor.validateCoordinates moved pageSize = BeyondBoundaries
      | None => False
      end
  | None => False
  end.
Proof. vm_compute. repeat split; reflexivity. Qed.

End Binary64EditorEvaluation.
